(** * Blueberry maturity analysis: detector, report generator and entry point

    A shallow embedding of
      - [src/web_app/models/blueberry_detector.py]  (class [BlueberryDetector]),
      - [src/web_app/utils/report_generator.py]     (class [ReportGenerator]),
      - [src/web_app/app.py]                        (function [process_image]),
      - [src/web_app/utils/image_processor.py]      (class [ImageProcessor]),
    followed by the properties established about them.

    Conventions.
      - Python [float] is IEEE-754 binary64: it is modelled by Rocq's primitive
        [float], whose operations round to nearest, ties to even, exactly as
        CPython's do.
      - A Python [dict] with a fixed set of keys is a record; a key that may be
        missing is an [option] field.  The counting dictionary of the report
        generator, whose key set grows with the data, is a [gmap].
      - A call that may raise is a computation in the [outcome] monad;
        [try ... except Exception] is [try_except].
      - OpenCV and NumPy kernels whose results are not computed by this
        repository ([cv2.cvtColor], [np.var], the YOLO model, ...) are
        [Variable]s of the sections that use them. *)

From Stdlib Require Import ZArith List Ascii String Floats Lia.
From Stdlib Require Uint63.
From stdpp Require Import base option list gmap strings pretty.

Set Warnings "-inexact-float".

Local Open Scope string_scope.
Local Open Scope Z_scope.

(* ===================================================================== *)
(** * Part I. Definitions                                                  *)
(* ===================================================================== *)

(** ** Exceptions and outcomes *)

(** A raised exception: its class name and its message ([str(e)]). *)
Inductive exn : Type := Exn (kind : string) (msg : string).

Definition str (e : exn) : string := let 'Exn _ m := e in m.

Inductive outcome (A : Type) : Type :=
| Returns (a : A)
| Raises (e : exn).
Arguments Returns {A} a.
Arguments Raises {A} e.

#[global] Instance outcome_ret : MRet outcome := fun A a => Returns a.
#[global] Instance outcome_bind : MBind outcome := fun A B k m =>
  match m with
  | Returns a => k a
  | Raises e => Raises e
  end.

(** [try: body except Exception as e: handler e] *)
Definition try_except {A} (body : outcome A) (handler : exn -> outcome A) : outcome A :=
  match body with
  | Returns a => Returns a
  | Raises e => handler e
  end.

(** ** Python numbers *)

(** [float(z)] for an integer of at most 63 bits (list lengths, pixel sums). *)
Definition float_of_int (z : Z) : float :=
  if z <? 0 then PrimFloat.opp (PrimFloat.of_uint63 (Uint63.of_Z (- z)))
  else PrimFloat.of_uint63 (Uint63.of_Z z).

Definition float_of_nat (n : nat) : float := float_of_int (Z.of_nat n).

(** Nearest integer to [a / b] for [0 <= a], [0 < b], ties to the even one. *)
Definition round_half_even_div (a b : Z) : Z :=
  let q := a / b in
  match 2 * (a mod b) ?= b with
  | Lt => q
  | Gt => q + 1
  | Eq => if Z.even q then q else q + 1
  end.

(** [round(x, ndigits)] on a float, [ndigits >= 0].  CPython converts the
    exact binary value of [x] to the nearest decimal with [ndigits] places
    (ties to even) and reads that decimal back as the nearest double;
    non-finite values, zeros and integral values are returned unchanged.  The
    read-back is the correctly rounded quotient of the scaled integer by the
    scale, both exact below [2^53], the range of percentages and scores. *)
Definition py_round (x : float) (ndigits : nat) : float :=
  let scale := 10 ^ Z.of_nat ndigits in
  match Prim2SF x with
  | S754_finite sign m e =>
      if 0 <=? e then x
      else
        let n := round_half_even_div (Z.pos m * scale) (2 ^ (- e)) in
        let r := PrimFloat.div (float_of_int n) (float_of_int scale) in
        if sign then PrimFloat.opp r else r
  | _ => x
  end.

(** True division.  [x / n] of a float by an integer raises on [n = 0];
    so does [m / n] of two integers, whose quotient is otherwise the correctly
    rounded one. *)
Definition py_truediv (x : float) (n : nat) : outcome float :=
  if (n =? 0)%nat then Raises (Exn "ZeroDivisionError" "float division by zero")
  else Returns (PrimFloat.div x (float_of_nat n)).

Definition py_truediv_int (m n : nat) : outcome float :=
  if (n =? 0)%nat then Raises (Exn "ZeroDivisionError" "division by zero")
  else Returns (PrimFloat.div (float_of_nat m) (float_of_nat n)).

(** The builtins [max(a, b)] and [min(a, b)] on floats: the first argument
    is kept unless the second is strictly larger (smaller). *)
Definition py_max (a b : float) : float := if PrimFloat.ltb a b then b else a.
Definition py_min (a b : float) : float := if PrimFloat.ltb b a then b else a.

(** The bounds Python gives a slice [start:stop] of a sequence of length
    [n]: negative indices count from the end, both ends are clamped. *)
Definition slice_bound (n : nat) (i : Z) : Z :=
  if i <? 0 then Z.max (i + Z.of_nat n) 0 else Z.min i (Z.of_nat n).

Definition slice_indices (n : nat) (start stop : Z) : list nat :=
  let a := slice_bound n start in
  let b := slice_bound n stop in
  seq (Z.to_nat a) (Z.to_nat (b - a)).

(** ** Images *)

(** A three-channel 8-bit pixel: RGB, BGR or HSV according to context. *)
Record pixel : Type := Pixel { ch0 : Z; ch1 : Z; ch2 : Z }.

(** An [(h, w, 3)] array; [shape0 = h], [shape1 = w]. *)
Record ndarray : Type := {
  shape0 : nat;
  shape1 : nat;
  getpixel : nat -> nat -> pixel   (* row, column *)
}.

(** The [image] argument: [None] or an array. *)
Inductive PyImage : Type :=
| NoneImage
| NdArray (a : ndarray).

(** A cropped block, row by row. *)
Definition Region : Type := list (list pixel).

(** [image[y1:y2, x1:x2]] *)
Definition crop (a : ndarray) (y1 y2 x1 x2 : Z) : Region :=
  map (fun y => map (fun x => getpixel a y x) (slice_indices (shape1 a) x1 x2))
      (slice_indices (shape0 a) y1 y2).

(** [region.size]: rows * columns * channels. *)
Definition region_size (r : Region) : nat := (3 * length (concat r))%nat.

(** [hsv[:, :, k]], flattened. *)
Definition channel (k : pixel -> Z) (r : Region) : list Z := map k (concat r).

(** [np.mean] of an 8-bit channel: NumPy accumulates the entries in a
    float64, which is exact for integer data (below [2^53]), and divides by
    the number of entries; an empty array gives [0/0 = nan]. *)
Definition np_mean (xs : list Z) : float :=
  PrimFloat.div (float_of_int (foldr Z.add 0 xs)) (float_of_nat (length xs)).

(** [image.shape[:2]]; [None] has no attribute [shape]. *)
Definition image_shape (image : PyImage) : outcome (nat * nat) :=
  match image with
  | NoneImage => Raises (Exn "AttributeError" "'NoneType' object has no attribute 'shape'")
  | NdArray a => Returns (shape0 a, shape1 a)
  end.

(** ** Detections *)

(** An entry of a [bbox] list: an integer, as both detectors produce, or
    a value [int()] rejects. *)
Inductive PyVal : Type :=
| PyInt (z : Z)
| PyNone.

Definition py_int (v : PyVal) : outcome Z :=
  match v with
  | PyInt z => Returns z
  | PyNone => Raises (Exn "TypeError" "int() argument must be a string, a bytes-like object or a real number, not 'NoneType'")
  end.

(** A detection dictionary.  [bbox] is [detection.get('bbox', [])].
    [maturity] is [None] when the key is missing, [Some None] when it holds
    Python's [None] (the YOLO path stores it for a class that is not a maturity
    class) and [Some (Some s)] when it holds the string [s]. *)
Record Detection : Type := {
  bbox : list PyVal;
  confidence : float;
  class_name : string;
  area : float;
  maturity : option (option string);
  maturity_confidence : option float
}.

(** The result dictionary of [analyze_maturity]. *)
Record MaturityAnalysis : Type := {
  detections : list Detection;
  processing_time : float;
  image_resolution : string;
  total_detected : nat
}.

(** ** [blueberry_detector.py]: class [BlueberryDetector] *)

(** The maturity classes a YOLO label is normalised to, and which
    [analyze_maturity] respects when a detection already carries one. *)
Definition MODEL_LABELS : list string := ["maduro"; "semimaduro"; "no_maduro"].

(** The fixed dictionary [analyze_maturity] returns from its [except] clause. *)
Definition fallback_analysis : MaturityAnalysis :=
  {| detections := [];
     processing_time := 0%float;
     image_resolution := "Unknown";
     total_detected := 0%nat |}.

(** The box normalisation written inline in [analyze_maturity]:
    every coordinate is clamped into the image, then a box that is empty
    along an axis gets its far edge moved one pixel out, itself clamped. *)
Definition normalize_bbox (img_w img_h x1 y1 x2 y2 : Z) : Z * Z * Z * Z :=
  let x1n := Z.max 0 (Z.min x1 (img_w - 1)) in
  let y1n := Z.max 0 (Z.min y1 (img_h - 1)) in
  let x2n := Z.max 0 (Z.min x2 (img_w - 1)) in
  let y2n := Z.max 0 (Z.min y2 (img_h - 1)) in
  let x2n := if x2n <=? x1n then Z.min (img_w - 1) (x1n + 1) else x2n in
  let y2n := if y2n <=? y1n then Z.min (img_h - 1) (y1n + 1) else y2n in
  (x1n, y1n, x2n, y2n).

(** [image[y1:y2, x1:x2]] on the [image] argument. *)
Definition image_crop (image : PyImage) (y1 y2 x1 x2 : Z) : outcome Region :=
  match image with
  | NoneImage => Raises (Exn "TypeError" "'NoneType' object is not subscriptable")
  | NdArray a => Returns (crop a y1 y2 x1 x2)
  end.

Section BlueberryDetector.

(** [self.model_loaded and self.model is not None] *)
Variable model_loaded : bool.
(** The body of [_yolo_detection]'s [try]: the model call and the
    conversion of its boxes. *)
Variable yolo_predict : PyImage -> outcome (list Detection).
(** The body of [_color_based_detection]'s [try]: HSV thresholding,
    morphology, contour filtering and the Hough-circle fallback. *)
Variable color_segmentation : PyImage -> outcome (list Detection).
(** [cv2.cvtColor(region, cv2.COLOR_RGB2HSV)] *)
Variable cvtColor_RGB2HSV : Region -> outcome Region.
(** [np.var] of the hue channel. *)
Variable np_var : list Z -> float.

Definition _yolo_detection (image : PyImage) : outcome (list Detection) :=
  try_except (yolo_predict image) (fun _ => mret []).

Definition _color_based_detection (image : PyImage) : outcome (list Detection) :=
  try_except (color_segmentation image) (fun _ => mret []).

Definition detect (image : PyImage) : outcome (list Detection) :=
  try_except
    (if model_loaded then
       yolo_dets ← _yolo_detection image;
       match yolo_dets with
       | [] =>
           color_dets ← _color_based_detection image;
           match color_dets with
           | [] => mret yolo_dets
           | _ => mret color_dets
           end
       | _ => mret yolo_dets
       end
     else _color_based_detection image)
    (fun _ => _color_based_detection image).

(** The function catches every exception itself, hence the plain result. *)
Definition _analyze_berry_maturity (berry_region : Region) : string :=
  match cvtColor_RGB2HSV berry_region with
  | Raises _ => "unknown"
  | Returns hsv =>
      let mean_hue := np_mean (channel ch0 hsv) in
      let mean_saturation := np_mean (channel ch1 hsv) in
      let mean_value := np_mean (channel ch2 hsv) in
      if PrimFloat.ltb mean_hue 120 && PrimFloat.ltb 100 mean_saturation then
        if PrimFloat.ltb 150 mean_value then "semimaduro" else "maduro"
      else if PrimFloat.ltb 120 mean_hue then "no_maduro"
      else "unknown"
  end.

Definition _calculate_maturity_confidence (berry_region : Region) : float :=
  match cvtColor_RGB2HSV berry_region with
  | Raises _ => 0.5%float
  | Returns hsv =>
      let color_variance := np_var (channel ch0 hsv) in
      py_min 1.0 (py_max 0.0 (1.0 - color_variance / 1000))%float
  end.

(** One iteration of the loop of [analyze_maturity]: [Some d] when the
    updated detection is appended to [maturity_results], [None] when the
    detection is skipped because its [bbox] has not four entries.  The source
    updates the dictionary in place and appends that same dictionary; [d] is
    its state after the update. *)
Definition analyze_detection (image : PyImage) (detection : Detection)
  : outcome (option Detection) :=
  match bbox detection with
  | [x1; y1; x2; y2] =>
      '(img_h, img_w) ← image_shape image;
      x1 ← py_int x1;
      y1 ← py_int y1;
      x2 ← py_int x2;
      y2 ← py_int y2;
      let '(x1n, y1n, x2n, y2n) :=
        normalize_bbox (Z.of_nat img_w) (Z.of_nat img_h) x1 y1 x2 y2 in
      berry_region ← image_crop image y1n y2n x1n x2n;
      let new_bbox := [PyInt x1n; PyInt y1n; PyInt x2n; PyInt y2n] in
      if (0 <? region_size berry_region)%nat then
        let maturity' :=
          match maturity detection with
          | Some (Some label) =>
              if bool_decide (label ∈ MODEL_LABELS) then label
              else _analyze_berry_maturity berry_region
          | _ => _analyze_berry_maturity berry_region
          end in
        mret (Some {| bbox := new_bbox;
                      confidence := confidence detection;
                      class_name := class_name detection;
                      area := area detection;
                      maturity := Some (Some maturity');
                      maturity_confidence :=
                        Some (_calculate_maturity_confidence berry_region) |})
      else
        mret (Some {| bbox := new_bbox;
                      confidence := confidence detection;
                      class_name := class_name detection;
                      area := area detection;
                      maturity := Some (default (Some "unknown") (maturity detection));
                      maturity_confidence :=
                        Some (default 0.0%float (maturity_confidence detection)) |})
  | _ => mret None
  end.

(** [for detection in detections: ...], building [maturity_results]. *)
Fixpoint analyze_loop (image : PyImage) (detections : list Detection)
  : outcome (list Detection) :=
  match detections with
  | [] => mret []
  | detection :: rest =>
      r ← analyze_detection image detection;
      maturity_results ← analyze_loop image rest;
      mret (match r with
            | Some d => d :: maturity_results
            | None => maturity_results
            end)
  end.

(** The body of the [try] of [analyze_maturity].  [start_time] and
    [end_time] are the two readings of [time.time()]. *)
Definition analyze_maturity_body (start_time end_time : float)
    (detections0 : list Detection) (image : PyImage) : outcome MaturityAnalysis :=
  maturity_results ← analyze_loop image detections0;
  '(img_h, img_w) ← image_shape image;
  mret {| detections := maturity_results;
          processing_time := ((end_time - start_time) * 1000)%float;
          image_resolution := pretty img_w +:+ "x" +:+ pretty img_h;
          total_detected := length maturity_results |}.

Definition analyze_maturity (start_time end_time : float)
    (detections0 : list Detection) (image : PyImage) : outcome MaturityAnalysis :=
  try_except (analyze_maturity_body start_time end_time detections0 image)
             (fun _ => mret fallback_analysis).

End BlueberryDetector.

(** ** [report_generator.py]: class [ReportGenerator] *)

(** The dictionary [_analyze_maturity_distribution] returns from its [try].
    The keys of [counts] and [percentages] are the maturity values met: a
    string, or Python's [None] (the key [None] of the map). *)
Record MaturityDistribution : Type := {
  counts : gmap (option string) nat;
  percentages : gmap (option string) float;
  total_analyzed : nat;
  maturity_score : float
}.

(** What [_analyze_maturity_distribution] returns: the distribution, or
    the dictionary [{'error': ...}] of its [except] clause. *)
Inductive DistributionDict : Type :=
| Distribution (d : MaturityDistribution)
| DistributionError (error : string).

(** The dictionary [_generate_recommendations] returns from its [try]. *)
Record Recommendations : Type := {
  harvest_recommendation : string;
  timing_recommendation : string;
  quality_assessment : string;
  next_steps : list string
}.

Inductive RecommendationsDict : Type :=
| Recs (r : Recommendations)
| RecsError (error : string).

(** [sum(d.values())] *)
Definition dict_sum (d : gmap (option string) nat) : nat :=
  map_fold (fun _ v acc => (v + acc)%nat) 0%nat d.

(** [d.get(key, 0)] *)
Definition dict_get (d : gmap (option string) nat) (key : string) : nat :=
  default 0%nat (d !! Some key).

(** The four buckets the counting starts from. *)
Definition initial_counts : gmap (option string) nat :=
  <[Some "maduro" := 0%nat]>
    (<[Some "semimaduro" := 0%nat]>
       (<[Some "no_maduro" := 0%nat]>
          (<[Some "unknown" := 0%nat]> ∅))).

(** One iteration of the counting loop:
    [maturity = detection.get('maturity', 'unknown')];
    [maturity_counts[maturity] = maturity_counts.get(maturity, 0) + 1]. *)
Definition count_detection (maturity_counts : gmap (option string) nat)
    (detection : Detection) : gmap (option string) nat :=
  let maturity := default (Some "unknown") (maturity detection) in
  <[maturity := (default 0%nat (maturity_counts !! maturity) + 1)%nat]> maturity_counts.

(** The counting loop over the detections. *)
Definition count_detections (detections0 : list Detection) : gmap (option string) nat :=
  foldl count_detection initial_counts detections0.

(** The loop filling [maturity_percentages] from [maturity_counts.items()]:
    [maturity_percentages[maturity] = round((count / total) * 100, 1)]. *)
Fixpoint percentages_loop (total : nat) (items : list (option string * nat))
    (maturity_percentages : gmap (option string) float)
  : outcome (gmap (option string) float) :=
  match items with
  | [] => mret maturity_percentages
  | (maturity, count) :: rest =>
      q ← py_truediv_int count total;
      percentages_loop total rest
        (<[maturity := py_round (q * 100)%float 1]> maturity_percentages)
  end.

(** The score is [0] for an empty total, otherwise the rounded weighted
    share; [0] again should anything raise.  (The integer [0] of the source is
    the float [0.0] here.) *)
Definition _calculate_maturity_score (maturity_counts : gmap (option string) nat)
    (total : nat) : outcome float :=
  try_except
    (if (total =? 0)%nat then mret 0%float
     else
       let weighted_sum :=
         (float_of_nat (dict_get maturity_counts "maduro") * 1.0 +
          float_of_nat (dict_get maturity_counts "semimaduro") * 0.5 +
          float_of_nat (dict_get maturity_counts "no_maduro") * 0.0)%float in
       q ← py_truediv weighted_sum total;
       mret (py_round (q * 100)%float 1))
    (fun _ => mret 0%float).

Definition _analyze_maturity_distribution (maturity_analysis : MaturityAnalysis)
    : outcome DistributionDict :=
  try_except
    (let maturity_counts := count_detections (detections maturity_analysis) in
     let total := dict_sum maturity_counts in
     maturity_percentages ←
       (if (0 <? total)%nat
        then percentages_loop total (map_to_list maturity_counts) ∅
        else mret ∅);
     score ← _calculate_maturity_score maturity_counts total;
     mret (Distribution {| counts := maturity_counts;
                           percentages := maturity_percentages;
                           total_analyzed := total;
                           maturity_score := score |}))
    (fun e => mret (DistributionError ("Error analizando distribución: " +:+ str e))).

Definition _get_harvest_recommendation (maturity_score : float) : string :=
  if PrimFloat.leb 80 maturity_score then
    "Cosecha inmediata recomendada - Alta proporción de frutos maduros"
  else if PrimFloat.leb 60 maturity_score then
    "Cosecha en 2-3 días - Buena proporción de frutos maduros"
  else if PrimFloat.leb 40 maturity_score then
    "Cosecha en 5-7 días - Proporción moderada de frutos maduros"
  else if PrimFloat.leb 20 maturity_score then
    "Cosecha en 10-14 días - Mayoría de frutos aún inmaduros"
  else
    "No cosechar aún - Frutos predominantemente inmaduros".

Definition _get_timing_recommendation (maturity_score : float) : string :=
  if PrimFloat.leb 80 maturity_score then
    "Urgente - Cosechar dentro de 24-48 horas"
  else if PrimFloat.leb 60 maturity_score then
    "Pronto - Cosechar dentro de 3-5 días"
  else if PrimFloat.leb 40 maturity_score then
    "Moderado - Cosechar dentro de 1 semana"
  else if PrimFloat.leb 20 maturity_score then
    "Paciente - Cosechar dentro de 2 semanas"
  else
    "Esperar - Continuar monitoreo semanal".

(** This function has no [try] of its own: a division by zero would
    propagate to its caller. *)
Definition _get_quality_assessment (counts0 : gmap (option string) nat)
    : outcome string :=
  let total := dict_sum counts0 in
  if (total =? 0)%nat then mret "No se detectaron frutos"
  else
    q ← py_truediv_int (dict_get counts0 "maduro") total;
    let maduro_pct := (q * 100)%float in
    mret (if PrimFloat.leb 70 maduro_pct then
            "Excelente - Alta calidad de maduración"
          else if PrimFloat.leb 50 maduro_pct then
            "Buena - Calidad de maduración aceptable"
          else if PrimFloat.leb 30 maduro_pct then
            "Regular - Calidad de maduración moderada"
          else
            "Baja - Calidad de maduración deficiente").

Definition _get_next_steps (maturity_score : float) : list string :=
  if PrimFloat.leb 80 maturity_score then
    ["Preparar equipos de cosecha";
     "Organizar personal de cosecha";
     "Verificar condiciones de almacenamiento";
     "Programar transporte para venta inmediata"]
  else if PrimFloat.leb 60 maturity_score then
    ["Continuar monitoreo diario";
     "Preparar equipos de cosecha";
     "Evaluar condiciones climáticas";
     "Planificar logística de cosecha"]
  else if PrimFloat.leb 40 maturity_score then
    ["Continuar monitoreo cada 2-3 días";
     "Evaluar condiciones de riego";
     "Verificar nutrición de plantas";
     "Preparar plan de cosecha"]
  else
    ["Continuar monitoreo semanal";
     "Evaluar condiciones de cultivo";
     "Verificar nutrición y riego";
     "Mantener control de plagas"].

(** [maturity_dist.get('maturity_score', 0)] and
    [maturity_dist.get('counts', {})]: the error dictionary has neither key. *)
Definition get_maturity_score (maturity_dist : DistributionDict) : float :=
  match maturity_dist with
  | Distribution d => maturity_score d
  | DistributionError _ => 0%float
  end.

Definition get_counts (maturity_dist : DistributionDict) : gmap (option string) nat :=
  match maturity_dist with
  | Distribution d => counts d
  | DistributionError _ => ∅
  end.

Definition _generate_recommendations (maturity_dist : DistributionDict)
    : outcome RecommendationsDict :=
  try_except
    (let maturity_score0 := get_maturity_score maturity_dist in
     let counts0 := get_counts maturity_dist in
     quality ← _get_quality_assessment counts0;
     mret (Recs {| harvest_recommendation := _get_harvest_recommendation maturity_score0;
                   timing_recommendation := _get_timing_recommendation maturity_score0;
                   quality_assessment := quality;
                   next_steps := _get_next_steps maturity_score0 |}))
    (fun e => mret (RecsError ("Error generando recomendaciones: " +:+ str e))).

(** The part of the report computed from the analysis.  The time stamp, the
    file information ([os.stat]) and the confidence summary of
    [generate_report] are not modelled. *)
Record Report : Type := {
  report_maturity_analysis : DistributionDict;
  report_recommendations : RecommendationsDict;
  report_processing_time_ms : float;
  report_image_resolution : string
}.

Definition generate_report (maturity_analysis : MaturityAnalysis) : outcome Report :=
  try_except
    (maturity_dist ← _analyze_maturity_distribution maturity_analysis;
     recommendations ← _generate_recommendations maturity_dist;
     mret {| report_maturity_analysis := maturity_dist;
             report_recommendations := recommendations;
             report_processing_time_ms := processing_time maturity_analysis;
             report_image_resolution := image_resolution maturity_analysis |})
    (fun e => Raises (Exn "Exception" ("Error generando reporte: " +:+ str e))).

(** ** [app.py]: [process_image] and [image_processor.py]: [preprocess] *)

(** The dictionary [process_image] returns; the name of the annotated file
    written to disk is not modelled. *)
Record ProcessResult : Type := {
  result_detections : nat;
  result_maturity_analysis : MaturityAnalysis;
  result_report : Report
}.

Section App.

Variable model_loaded : bool.
Variable yolo_predict : PyImage -> outcome (list Detection).
Variable color_segmentation : PyImage -> outcome (list Detection).
Variable cvtColor_RGB2HSV : Region -> outcome Region.
Variable np_var : list Z -> float.
(** [cv2.imread(path)]: [None] when the file cannot be decoded. *)
Variable cv2_imread : string -> PyImage.
(** [cv2.cvtColor(image, cv2.COLOR_BGR2RGB)] *)
Variable cvtColor_BGR2RGB : PyImage -> outcome PyImage.

Definition preprocess (image : PyImage) : outcome PyImage :=
  try_except (cvtColor_BGR2RGB image)
    (fun e => Raises (Exn "Exception" ("Error en preprocesamiento: " +:+ str e))).

Definition process_image (start_time end_time : float) (image_path : string)
  : outcome ProcessResult :=
  try_except
    (match cv2_imread image_path with
     | NoneImage => Raises (Exn "ValueError" "No se pudo cargar la imagen")
     | image =>
         processed_image ← preprocess image;
         detections0 ← detect model_loaded yolo_predict color_segmentation processed_image;
         maturity_analysis ←
           analyze_maturity cvtColor_RGB2HSV np_var start_time end_time
             detections0 processed_image;
         report ← generate_report maturity_analysis;
         mret {| result_detections := total_detected maturity_analysis;
                 result_maturity_analysis := maturity_analysis;
                 result_report := report |}
     end)
    (fun e => Raises (Exn "Exception" ("Error procesando imagen: " +:+ str e))).

End App.

(** ** Reference formulas and sample data *)

(** The counting dictionary holding exactly the four buckets. *)
Definition counts_of (ripe semi_ripe unripe unknown : nat) : gmap (option string) nat :=
  <[Some "maduro" := ripe]>
    (<[Some "semimaduro" := semi_ripe]>
       (<[Some "no_maduro" := unripe]>
          (<[Some "unknown" := unknown]> ∅))).

(** The score as the specification writes it,
    [round(100 * (ripe*1.0 + semi_ripe*0.5 + unripe*0.0) / total, 1)],
    evaluated as that expression reads: the product by [100] first, then the
    quotient. *)
Definition spec_maturity_score (ripe semi_ripe unripe unknown : nat) : float :=
  let total := (ripe + semi_ripe + unripe + unknown)%nat in
  if (total =? 0)%nat then 0%float
  else
    py_round
      (100 * (float_of_nat ripe * 1.0 + float_of_nat semi_ripe * 0.5 +
              float_of_nat unripe * 0.0) / float_of_nat total)%float 1.

(** The same value in exact arithmetic, in tenths: the tenth nearest to
    [100 * (ripe + semi_ripe / 2) / total], ties to even. *)
Definition exact_score_tenths (ripe semi_ripe unripe unknown : nat) : Z :=
  let total := Z.of_nat (ripe + semi_ripe + unripe + unknown) in
  round_half_even_div (1000 * (2 * Z.of_nat ripe + Z.of_nat semi_ripe)) (2 * total).

(** The key a detection is counted under, and the number of detections of
    a list counted under a given key. *)
Definition counted_as (detection : Detection) : option string :=
  default (Some "unknown") (maturity detection).

Definition count_label (key : option string) (ds : list Detection) : nat :=
  length (filter (fun d => counted_as d = key) ds).

(** The bands of the two recommendation ladders and the texts the report
    generator attaches to them. *)
Inductive harvest_band : Type :=
| Immediate | Days2to3 | Days5to7 | Days10to14 | DoNotHarvest.

Definition harvest_text (b : harvest_band) : string :=
  match b with
  | Immediate => "Cosecha inmediata recomendada - Alta proporción de frutos maduros"
  | Days2to3 => "Cosecha en 2-3 días - Buena proporción de frutos maduros"
  | Days5to7 => "Cosecha en 5-7 días - Proporción moderada de frutos maduros"
  | Days10to14 => "Cosecha en 10-14 días - Mayoría de frutos aún inmaduros"
  | DoNotHarvest => "No cosechar aún - Frutos predominantemente inmaduros"
  end.

Definition timing_text (b : harvest_band) : string :=
  match b with
  | Immediate => "Urgente - Cosechar dentro de 24-48 horas"
  | Days2to3 => "Pronto - Cosechar dentro de 3-5 días"
  | Days5to7 => "Moderado - Cosechar dentro de 1 semana"
  | Days10to14 => "Paciente - Cosechar dentro de 2 semanas"
  | DoNotHarvest => "Esperar - Continuar monitoreo semanal"
  end.

Inductive quality_band : Type := Excellent | Good | Fair | Poor.

Definition quality_text (q : quality_band) : string :=
  match q with
  | Excellent => "Excelente - Alta calidad de maduración"
  | Good => "Buena - Calidad de maduración aceptable"
  | Fair => "Regular - Calidad de maduración moderada"
  | Poor => "Baja - Calidad de maduración deficiente"
  end.

(** The ripe share in percent, as [_get_quality_assessment] computes it. *)
Definition ripe_percentage (ripe total : nat) : float :=
  ((float_of_nat ripe / float_of_nat total) * 100)%float.

(** The label [analyze_maturity] stores for a detection whose crop is not
    empty: the model label it carries, else the answer of the heuristic. *)
Definition stored_label (cvtColor_RGB2HSV : Region -> outcome Region)
    (d : Detection) (region : Region) : string :=
  match maturity d with
  | Some (Some label) =>
      if bool_decide (label ∈ MODEL_LABELS) then label
      else _analyze_berry_maturity cvtColor_RGB2HSV region
  | _ => _analyze_berry_maturity cvtColor_RGB2HSV region
  end.

(** The distribution and the recommendations of an analysis without
    detections. *)
Definition empty_distribution : MaturityDistribution :=
  {| counts := counts_of 0 0 0 0;
     percentages := ∅;
     total_analyzed := 0;
     maturity_score := 0%float |}.

Definition empty_recommendations : Recommendations :=
  {| harvest_recommendation := harvest_text DoNotHarvest;
     timing_recommendation := timing_text DoNotHarvest;
     quality_assessment := "No se detectaron frutos";
     next_steps := ["Continuar monitoreo semanal";
                    "Evaluar condiciones de cultivo";
                    "Verificar nutrición y riego";
                    "Mantener control de plagas"] |}.

(** A detection as the detectors emit it. *)
Definition sample_detection (box : list Z) (label : option (option string)) : Detection :=
  {| bbox := PyInt <$> box;
     confidence := 0.5%float;
     class_name := "blueberry";
     area := 100%float;
     maturity := label;
     maturity_confidence := None |}.

(** A 10 x 10 image of pure blue, RGB [(0, 0, 255)]. *)
Definition blue_array : ndarray :=
  {| shape0 := 10; shape1 := 10; getpixel := fun _ _ => Pixel 0 0 255 |}.

(** OpenCV's 8-bit [COLOR_RGB2HSV] on pure blue: hue [120] (of [0..179]),
    saturation [255], value [255]; pixel by pixel on a blue region. *)
Definition blue_to_hsv (r : Region) : outcome Region :=
  Returns (map (map (fun _ => Pixel 120 255 255)) r).

(** A conversion that fails, as OpenCV does on an unsupported array. *)
Definition failing_cvtColor (r : Region) : outcome Region :=
  Raises (Exn "cv2.error" "Invalid number of channels in input image").

(** An array with no rows and no columns, shape [(0, 0, 3)]. *)
Definition empty_array : ndarray :=
  {| shape0 := 0; shape1 := 0; getpixel := fun _ _ => Pixel 0 0 0 |}.

(** A detection strategy whose OpenCV or model call raises, as both do on
    [None] and on an empty array. *)
Definition failing_detector (image : PyImage) : outcome (list Detection) :=
  Raises (Exn "cv2.error" "(-215:Assertion failed) !_src.empty() in function 'cvtColor'").

(** A variance kernel for the hue channel of a uniform region. *)
Definition zero_var (xs : list Z) : float := 0%float.

(** ** Further reference tables *)

(** The four classes of the report. *)
Definition CLASS_LABELS : list string := ["maduro"; "semimaduro"; "no_maduro"; "unknown"].

(** The next steps [_get_next_steps] lists for a band; the two lowest
    bands share theirs. *)
Definition next_steps_text (b : harvest_band) : list string :=
  match b with
  | Immediate =>
      ["Preparar equipos de cosecha";
       "Organizar personal de cosecha";
       "Verificar condiciones de almacenamiento";
       "Programar transporte para venta inmediata"]
  | Days2to3 =>
      ["Continuar monitoreo diario";
       "Preparar equipos de cosecha";
       "Evaluar condiciones climáticas";
       "Planificar logística de cosecha"]
  | Days5to7 =>
      ["Continuar monitoreo cada 2-3 días";
       "Evaluar condiciones de riego";
       "Verificar nutrición de plantas";
       "Preparar plan de cosecha"]
  | Days10to14 | DoNotHarvest =>
      ["Continuar monitoreo semanal";
       "Evaluar condiciones de cultivo";
       "Verificar nutrición y riego";
       "Mantener control de plagas"]
  end.

(** The texts [_get_quality_assessment] can return. *)
Definition QUALITY_TEXTS : list string :=
  ["No se detectaron frutos"; quality_text Excellent; quality_text Good;
   quality_text Fair; quality_text Poor].

(** The percentage stored for a class of [count] detections out of [total]. *)
Definition percentage_of (total count : nat) : float :=
  py_round ((float_of_nat count / float_of_nat total) * 100)%float 1.

(** ** [blueberry_detector.py]: the body of [_color_based_detection] *)

(** [int(x)] of a float truncates towards zero; NaN and the infinities
    have no integer. *)
Definition py_int_of_float (x : float) : outcome Z :=
  match Prim2SF x with
  | S754_zero _ => Returns 0
  | S754_finite s m e =>
      let v := if 0 <=? e then Z.pos m * 2 ^ e else Z.pos m / 2 ^ (- e) in
      Returns (if s then - v else v)
  | S754_infinity _ =>
      Raises (Exn "OverflowError" "cannot convert float infinity to integer")
  | S754_nan => Raises (Exn "ValueError" "cannot convert float NaN to integer")
  end.

(** [x < z] for a float [x] and an integer [z]: Python compares the two
    exactly, without rounding [z] to a float. *)
Definition float_lt_int (x : float) (z : Z) : bool :=
  match Prim2SF x with
  | S754_nan => false
  | S754_infinity s => s
  | S754_zero _ => 0 <? z
  | S754_finite s m e =>
      let v := if s then Z.neg m else Z.pos m in
      if 0 <=? e then v * 2 ^ e <? z else v <? z * 2 ^ (- e)
  end.

(** [x / y] on two floats. *)
Definition py_truediv_float (x y : float) : outcome float :=
  if PrimFloat.eqb y 0 then Raises (Exn "ZeroDivisionError" "float division by zero")
  else Returns (PrimFloat.div x y).

(** What the loop reads of a contour: [cv2.contourArea(contour)] and
    [cv2.boundingRect(contour)], the tuple [(x, y, w, h)]. *)
Record Contour : Type := {
  contourArea : float;
  boundingRect : Z * Z * Z * Z
}.

(** One iteration of the loop over the contours: [None] after a
    [continue], else the dictionary appended to [detections]. *)
Definition contour_detection (img_area min_area : Z) (contour : Contour)
  : outcome (option Detection) :=
  let area0 := contourArea contour in
  if float_lt_int area0 min_area then mret None
  else
    let '(x, y, w, h) := boundingRect contour in
    let out_of_shape :=
      if 0 <? h then
        let aspect_ratio := PrimFloat.div (float_of_int w) (float_of_int h) in
        PrimFloat.ltb aspect_ratio 0.5 || PrimFloat.ltb 1.8 aspect_ratio
      else true (* [aspect_ratio = 0], below [0.5] *) in
    if out_of_shape then mret None
    else
      q ← py_truediv_float area0 (0.02 * float_of_int img_area)%float;
      mret (Some {| bbox := [PyInt x; PyInt y; PyInt (x + w); PyInt (y + h)];
                    confidence := py_min 0.99 q;
                    class_name := "blueberry";
                    area := area0;
                    maturity := None;
                    maturity_confidence := None |}).

Fixpoint contour_loop (img_area min_area : Z) (contours : list Contour)
  : outcome (list Detection) :=
  match contours with
  | [] => mret []
  | contour :: rest =>
      r ← contour_detection img_area min_area contour;
      detections0 ← contour_loop img_area min_area rest;
      mret (match r with
            | Some d => d :: detections0
            | None => detections0
            end)
  end.

(** Arithmetic on [numpy.uint16] scalars wraps around. *)
Definition uint16_sub (a b : Z) : Z := (a - b) mod 65536.
Definition uint16_add (a b : Z) : Z := (a + b) mod 65536.

(** The dictionary appended for a circle [c = (cx, cy, r)], a row of
    [np.uint16(np.around(circles))[0, :]]. *)
Definition circle_detection (img_w img_h : Z) (c : Z * Z * Z) : Detection :=
  let '(cx, cy, r) := c in
  let x1 := uint16_sub cx r in
  let y1 := uint16_sub cy r in
  let x2 := uint16_add cx r in
  let y2 := uint16_add cy r in
  {| bbox := [PyInt (Z.max 0 x1); PyInt (Z.max 0 y1);
              PyInt (Z.min (img_w - 1) x2); PyInt (Z.min (img_h - 1) y2)];
     confidence := 0.5;
     class_name := "blueberry";
     area := float_of_int ((x2 - x1) * (y2 - y1));
     maturity := None;
     maturity_confidence := None |}.

Section ColorDetection.

(** Lines 102-123: HSV conversion, the two colour masks, median blur,
    morphology and [cv2.findContours]; each contour as the loop reads it. *)
Variable find_contours : PyImage -> outcome (list Contour).
(** Lines 154-163: grey conversion, median blur and [cv2.HoughCircles]
    with the given [minRadius] and [maxRadius]; [None], or the rows of
    [np.uint16(np.around(circles))[0, :]]. *)
Variable hough_circles : PyImage -> Z -> Z -> outcome (option (list (Z * Z * Z))).

(** The Hough-circle fallback, the body of the inner [try]. *)
Definition hough_fallback (image : PyImage) (img_h img_w : Z) : outcome (list Detection) :=
  t ← py_int_of_float (float_of_int (Z.min img_h img_w) * 0.01)%float;
  let minRadius := Z.max 5 t in
  maxRadius ← py_int_of_float (float_of_int (Z.min img_h img_w) * 0.15)%float;
  circles ← hough_circles image minRadius maxRadius;
  match circles with
  | None => mret []
  | Some rows => mret (circle_detection img_w img_h <$> rows)
  end.

(** The body of the [try] of [_color_based_detection]. *)
Definition color_detection_body (image : PyImage) : outcome (list Detection) :=
  contours ← find_contours image;
  '(img_h, img_w) ← image_shape image;
  let img_h := Z.of_nat img_h in
  let img_w := Z.of_nat img_w in
  let img_area := img_h * img_w in
  t ← py_int_of_float (0.0005 * float_of_int img_area)%float;
  let min_area := Z.max 100 t in
  detections0 ← contour_loop img_area min_area contours;
  match detections0 with
  | [] => try_except (hough_fallback image img_h img_w) (fun _ => mret [])
  | _ => mret detections0
  end.

End ColorDetection.

(** ** [blueberry_detector.py]: the body of [_yolo_detection] *)

(** [s.replace(old, new)] for two one-character strings. *)
Fixpoint str_replace_char (old new : Ascii.ascii) (s : string) : string :=
  match s with
  | EmptyString => EmptyString
  | String c rest =>
      String (if Ascii.eqb c old then new else c) (str_replace_char old new rest)
  end.

(** Truth value of a string. *)
Definition str_truthy (s : string) : bool :=
  match s with
  | EmptyString => false
  | String _ _ => true
  end.

(** The maturity label for a normalised class name, the [if]/[elif] chain
    of lines 220-229. *)
Definition maturity_cls (norm_name : string) : option string :=
  if bool_decide (norm_name ∈ ["maduro"; "semimaduro"; "no_maduro"]) then Some norm_name
  else if bool_decide (norm_name ∈ ["ripe"]) then Some "maduro"
  else if bool_decide (norm_name ∈ ["semi_ripe"; "semi-ripe"; "semi_maduro"])
  then Some "semimaduro"
  else if bool_decide (norm_name ∈ ["unripe"; "no_maduro"; "inmaduro"])
  then Some "no_maduro"
  else None.

(** What the loop reads of a box: the four coordinates after [int()],
    [float(box.conf[0])], the class name looked up in [names], and
    [float((x2 - x1) * (y2 - y1))], which NumPy computes in single precision. *)
Record YoloBox : Type := {
  box_xyxy : Z * Z * Z * Z;
  box_conf : float;
  box_class_name : string;
  box_area : float
}.

Section YoloDetection.

(** [str.strip] and [str.lower], which follow the Unicode tables. *)
Variable str_strip : string -> string.
Variable str_lower : string -> string.
(** Line 195 and, for every box of every result, lines 203-216: the model
    call and the numbers of the box. *)
Variable model_call : PyImage -> outcome (list YoloBox).

(** [str(class_name).strip().lower().replace(' ', '_').replace('-', '_')] *)
Definition norm_name (class_name0 : string) : string :=
  str_replace_char "-"%char "_"%char
    (str_replace_char " "%char "_"%char (str_lower (str_strip class_name0))).

(** The dictionary appended for a box; its [class_id] entry, which nothing
    reads afterwards, is left out. *)
Definition box_detection (box : YoloBox) : Detection :=
  let '(x1, y1, x2, y2) := box_xyxy box in
  let maturity_cls0 := maturity_cls (norm_name (box_class_name box)) in
  {| bbox := [PyInt x1; PyInt y1; PyInt x2; PyInt y2];
     confidence := box_conf box;
     class_name := box_class_name box;
     area := box_area box;
     maturity := Some (match maturity_cls0 with
                       | Some label => if str_truthy label then Some label else None
                       | None => None
                       end);
     maturity_confidence := None |}.

(** The body of the [try] of [_yolo_detection]. *)
Definition yolo_detection_body (image : PyImage) : outcome (list Detection) :=
  boxes ← model_call image;
  mret (box_detection <$> (boxes : list YoloBox)).

End YoloDetection.

(** ** [blueberry_detector.py]: [_initialize_model] *)

Section InitializeModel.

(** A loaded [ultralytics.YOLO] object. *)
Variable Model : Type.
(** [os.path.exists] *)
Variable path_exists : string -> bool.
(** The constructor [YOLO(path)], which raises on a file it cannot load. *)
Variable YOLO : string -> outcome Model.

(** The attributes of the detector that [_initialize_model] sets. *)
Record DetectorState : Type := {
  self_model : option Model;
  self_model_loaded : bool;
  self_model_path : string
}.

(** The candidate paths in the order they are tried, with POSIX
    separators. *)
Definition candidates (model_path : string) : list string :=
  (if str_truthy model_path then [model_path] else []) ++
  ["models/weights/best_model.pt"; "models/weights/best.pt"; "best.pt"; "last.pt"].

(** [for p in candidates: if p and os.path.exists(p): selected = p; break] *)
Fixpoint select_candidate (candidates0 : list string) : option string :=
  match candidates0 with
  | [] => None
  | p :: rest =>
      if str_truthy p && path_exists p then Some p else select_candidate rest
  end.

Definition _initialize_model (self : DetectorState) : DetectorState :=
  let not_loaded :=
    {| self_model := None;
       self_model_loaded := false;
       self_model_path := self_model_path self |} in
  match select_candidate (candidates (self_model_path self)) with
  | Some selected =>
      if str_truthy selected then
        match YOLO selected with
        | Returns m =>
            {| self_model := Some m;
               self_model_loaded := true;
               self_model_path := selected |}
        | Raises _ => not_loaded
        end
      else not_loaded
  | None => not_loaded
  end.

(** [self.model_loaded and self.model is not None], the test of [detect]. *)
Definition model_ready (self : DetectorState) : bool :=
  self_model_loaded self && bool_decide (self_model self <> None).

End InitializeModel.

Arguments Build_DetectorState {Model} _ _ _.
Arguments self_model {Model} _.
Arguments self_model_loaded {Model} _.
Arguments self_model_path {Model} _.
Arguments _initialize_model {Model} _ _ _.
Arguments model_ready {Model} _.

(** ** [report_generator.py]: [generate_summary_report] *)

(** The summary dictionary; [harvest_recommendations] is [list] of a set,
    whose order Python does not fix. *)
Record Summary : Type := {
  total_images_analyzed : nat;
  average_maturity_score : float;
  harvest_recommendations : gset string
}.

Inductive SummaryDict : Type :=
| SummaryOf (s : Summary)
| SummaryError (msg : string).

(** [report.get('recommendations', {}).get('harvest_recommendation', '')] *)
Definition report_harvest_recommendation (report : Report) : string :=
  match report_recommendations report with
  | Recs r => harvest_recommendation r
  | RecsError _ => EmptyString
  end.

(** The loop adding the non-empty recommendations to the set. *)
Definition collect_recommendations (reports_list : list Report) : gset string :=
  foldl (fun recommendations report =>
           let rec := report_harvest_recommendation report in
           if str_truthy rec then recommendations ∪ {[rec]} else recommendations)
        ∅ reports_list.

Section SummaryReport.

(** The builtin [sum] on floats (compensated since Python 3.12). *)
Variable py_sum : list float -> float.

Definition generate_summary_report (reports_list : list Report) : outcome SummaryDict :=
  try_except
    (match reports_list with
     | [] =>
         mret (SummaryOf {| total_images_analyzed := length reports_list;
                            average_maturity_score := 0;
                            harvest_recommendations := ∅ |})
     | _ =>
         let maturity_scores :=
           (fun report => get_maturity_score (report_maturity_analysis report))
             <$> reports_list in
         q ← py_truediv (py_sum maturity_scores) (length maturity_scores);
         mret (SummaryOf {| total_images_analyzed := length reports_list;
                            average_maturity_score := py_round q 1;
                            harvest_recommendations :=
                              collect_recommendations reports_list |})
     end)
    (fun e => mret (SummaryError ("Error generando reporte resumen: " +:+ str e))).

End SummaryReport.

(** ** [image_processor.py]: the geometry of [_draw_detections] *)

(** The circle drawn inside a box [(x1i, y1i, x2i, y2i)]: centre and
    radius. *)
Definition silhouette (x1i y1i x2i y2i : Z) : Z * Z * Z :=
  let w := Z.max 0 (x2i - x1i) in
  let h := Z.max 0 (y2i - y1i) in
  let cx := x1i + w / 2 in
  let cy := y1i + h / 2 in
  let radius := Z.max 1 (Z.min w h / 2) in
  (cx, cy, radius).

(** ** Further sample data *)

(** The sample detection after its analysis on the blue image. *)
Definition analysed_sample : Detection :=
  {| bbox := [PyInt 2; PyInt 3; PyInt 7; PyInt 8];
     confidence := 0.5%float;
     class_name := "blueberry";
     area := 100%float;
     maturity := Some (Some "unknown");
     maturity_confidence := Some 1%float |}.

(** What a strategy hands to [detect]: its detections, or none when it
    raised. *)
Definition strategy_result (strategy : PyImage -> outcome (list Detection))
    (image : PyImage) : list Detection :=
  match strategy image with
  | Returns ds => ds
  | Raises _ => []
  end.

(** What the two branches of the colour detection write into a detection:
    the class [blueberry], four integers as box, no maturity entries, and a
    confidence of at most [0.99]. *)
Definition color_record (d : Detection) : Prop :=
  class_name d = "blueberry" /\
  maturity d = None /\ maturity_confidence d = None /\
  (exists x1 y1 x2 y2 : Z, bbox d = [PyInt x1; PyInt y1; PyInt x2; PyInt y2]) /\
  PrimFloat.leb (confidence d) 0.99 = true.

(** The four keys the report counts its classes under. *)
Definition CLASS_KEYS : list (option string) :=
  [Some "maduro"; Some "semimaduro"; Some "no_maduro"; Some "unknown"].

(** An image the pipeline cannot work on: [None], or an array without
    rows or without columns. *)
Definition unusable_image (image : PyImage) : Prop :=
  match image with
  | NoneImage => True
  | NdArray a => shape0 a = 0%nat \/ shape1 a = 0%nat
  end.

(** A colour conversion that behaves as OpenCV's [COLOR_BGR2RGB]: it
    rejects [None] and an array without pixels, and swaps the first and the
    third channel of any other array. *)
Definition swap_red_blue (image : PyImage) : outcome PyImage :=
  match image with
  | NoneImage =>
      Raises (Exn "cv2.error" "src is not a numpy array, neither a scalar")
  | NdArray a =>
      if (shape0 a =? 0)%nat || (shape1 a =? 0)%nat then
        Raises (Exn "cv2.error" "(-215:Assertion failed) !_src.empty() in function 'cvtColor'")
      else
        Returns (NdArray {| shape0 := shape0 a;
                            shape1 := shape1 a;
                            getpixel := fun y x =>
                              let p := getpixel a y x in
                              Pixel (ch2 p) (ch1 p) (ch0 p) |})
  end.

(** A 200 x 200 image of pure blue. *)
Definition blue_array_200 : ndarray :=
  {| shape0 := 200; shape1 := 200; getpixel := fun _ _ => Pixel 0 0 255 |}.

(** Two contours of a 100 x 100 image: a 20 x 20 blob of area 400 and a
    speck of area 50, and the detection the first one gives. *)
Definition sample_contours : list Contour :=
  [ {| contourArea := 400; boundingRect := (10, 20, 20, 20) |};
    {| contourArea := 50; boundingRect := (60, 60, 8, 8) |} ].

Definition sample_contour_detection : Detection :=
  {| bbox := [PyInt 10; PyInt 20; PyInt 30; PyInt 40];
     confidence := 0.99%float;
     class_name := "blueberry";
     area := 400%float;
     maturity := None;
     maturity_confidence := None |}.

(** Two boxes of a model whose class names are [ripe] and [leaf]. *)
Definition ripe_box : YoloBox :=
  {| box_xyxy := (2, 3, 7, 8); box_conf := 0.9%float;
     box_class_name := "ripe"; box_area := 25%float |}.

Definition leaf_box : YoloBox :=
  {| box_xyxy := (9, 2, 12, 5); box_conf := 0.4%float;
     box_class_name := "leaf"; box_area := 9%float |}.

(* ===================================================================== *)
(** * Part II. Properties                                                  *)
(* ===================================================================== *)

(** ** Order facts on binary64 values *)

Lemma SFcompare_antisym (x y : spec_float) :
  SFcompare y x = CompOpp <$> SFcompare x y.
Proof.
  destruct x as [sx|sx| |sx mx ex], y as [sy|sy| |sy my ey]; simpl;
    try reflexivity;
    try (destruct sx; reflexivity);
    try (destruct sy; reflexivity);
    try (destruct sx, sy; reflexivity).
  destruct sx, sy; simpl; try reflexivity;
    rewrite (Z.compare_antisym ey ex);
    destruct (ey ?= ex) eqn:He; simpl; try reflexivity;
    change (Pos.compare_cont Eq my mx) with (my ?= mx)%positive;
    change (Pos.compare_cont Eq mx my) with (mx ?= my)%positive;
    rewrite (Pos.compare_antisym my mx);
    destruct (my ?= mx)%positive; reflexivity.
Qed.

Lemma float_ltb_asym (x y : float) :
  PrimFloat.ltb x y = true -> PrimFloat.ltb y x = false.
Proof.
  rewrite !FloatAxioms.ltb_spec. unfold SFltb. rewrite (SFcompare_antisym (Prim2SF x) (Prim2SF y)).
  destruct (SFcompare (Prim2SF x) (Prim2SF y)) as [[]|]; simpl; congruence.
Qed.

Lemma float_leb_not_gt (x y : float) :
  PrimFloat.leb x y = true -> PrimFloat.ltb y x = false.
Proof.
  rewrite FloatAxioms.leb_spec, FloatAxioms.ltb_spec. unfold SFleb, SFltb.
  rewrite (SFcompare_antisym (Prim2SF x) (Prim2SF y)).
  destruct (SFcompare (Prim2SF x) (Prim2SF y)) as [[]|]; simpl; congruence.
Qed.

Lemma float_eqb_not_lt (x y : float) :
  PrimFloat.eqb x y = true -> PrimFloat.ltb x y = false /\ PrimFloat.ltb y x = false.
Proof.
  rewrite FloatAxioms.eqb_spec, !FloatAxioms.ltb_spec. unfold SFeqb, SFltb.
  rewrite (SFcompare_antisym (Prim2SF x) (Prim2SF y)).
  destruct (SFcompare (Prim2SF x) (Prim2SF y)) as [[]|]; simpl; split; congruence.
Qed.

Lemma float_neq_by_bits (x y : float) : Prim2SF x <> Prim2SF y -> x <> y.
Proof. intros H ->. apply H. reflexivity. Qed.

(** ** The numeric model on known values *)

(** [round] as CPython computes it: [round(28.75, 1) = 28.8] and
    [round(0.125, 2) = 0.12] (exact halves go to the even digit),
    [round(2.675, 2) = 2.67] (the double lies below the half),
    [round(-0.04, 1) = -0.0], and integral and non-finite values unchanged. *)
Example py_round_samples :
  py_round 28.75 1 = 28.8%float /\
  py_round 0.125 2 = 0.12%float /\
  py_round 2.675 2 = 2.67%float /\
  py_round 28.749999999999996 1 = 28.7%float /\
  py_round (-0.04) 1 = (-0)%float /\
  py_round 90 1 = 90%float /\
  py_round infinity 1 = infinity.
Proof. vm_compute. repeat split. Qed.

(** Classic binary64 products: [0.07 * 100] and [0.57 * 100] are not 7 and 57. *)
Example float_product_samples :
  (0.07 * 100 = 7.000000000000001)%float /\
  (0.57 * 100 = 56.99999999999999)%float /\
  (0.7 * 100 = 70)%float.
Proof. vm_compute. repeat split. Qed.

Example np_mean_samples :
  np_mean [120; 120; 120] = 120%float /\
  np_mean [1; 2] = 1.5%float /\
  PrimFloat.is_nan (np_mean []) = true.
Proof. vm_compute. repeat split. Qed.

Example slice_samples :
  slice_indices 10 2 7 = [2; 3; 4; 5; 6]%nat /\
  slice_indices 10 9 9 = [] /\
  slice_indices 0 0 (-1) = [] /\
  slice_indices 10 0 (-1) = [0; 1; 2; 3; 4; 5; 6; 7; 8]%nat.
Proof. vm_compute. repeat split. Qed.

(** ** The counting dictionary *)

Lemma dict_sum_empty : dict_sum ∅ = 0%nat.
Proof. unfold dict_sum. apply map_fold_empty. Qed.

Lemma dict_sum_insert_fresh (d : gmap (option string) nat) key v :
  d !! key = None -> dict_sum (<[key := v]> d) = (v + dict_sum d)%nat.
Proof.
  intros Hfresh. unfold dict_sum.
  apply (map_fold_insert_L (fun _ v acc => (v + acc)%nat)); [|exact Hfresh].
  intros. lia.
Qed.

Lemma dict_sum_delete (d : gmap (option string) nat) key v :
  d !! key = Some v -> dict_sum d = (v + dict_sum (delete key d))%nat.
Proof.
  intros Hin. unfold dict_sum.
  apply (map_fold_delete_L (fun _ v acc => (v + acc)%nat)); [|exact Hin].
  intros. lia.
Qed.

(** Storing [d.get(key, 0) + 1] under [key] adds one to the sum. *)
Lemma dict_sum_increment (d : gmap (option string) nat) key :
  dict_sum (<[key := (default 0%nat (d !! key) + 1)%nat]> d) = S (dict_sum d).
Proof.
  destruct (d !! key) as [v|] eqn:Hk; simpl.
  - rewrite <- (insert_delete_eq d key (v + 1)%nat).
    rewrite dict_sum_insert_fresh by apply lookup_delete_eq.
    rewrite (dict_sum_delete d key v Hk). lia.
  - rewrite dict_sum_insert_fresh by exact Hk. lia.
Qed.

Lemma dict_sum_counts_of (r s u k : nat) :
  dict_sum (counts_of r s u k) = (r + s + u + k)%nat.
Proof.
  unfold counts_of.
  rewrite !dict_sum_insert_fresh, dict_sum_empty; [lia|..];
    repeat (rewrite lookup_insert_ne by discriminate); apply lookup_empty.
Qed.

Lemma dict_get_counts_of (r s u k : nat) :
  dict_get (counts_of r s u k) "maduro" = r /\
  dict_get (counts_of r s u k) "semimaduro" = s /\
  dict_get (counts_of r s u k) "no_maduro" = u /\
  dict_get (counts_of r s u k) "unknown" = k.
Proof.
  unfold dict_get, counts_of.
  repeat split;
    repeat (rewrite lookup_insert_ne by discriminate);
    rewrite lookup_insert_eq; reflexivity.
Qed.

Lemma counts_sum_foldl (ds : list Detection) (d : gmap (option string) nat) :
  dict_sum (foldl count_detection d ds) = (dict_sum d + length ds)%nat.
Proof.
  revert d. induction ds as [|x ds IH]; intros d; simpl.
  - lia.
  - rewrite IH. unfold count_detection. rewrite dict_sum_increment. lia.
Qed.

Lemma dict_sum_initial_counts : dict_sum initial_counts = 0%nat.
Proof. exact (dict_sum_counts_of 0 0 0 0). Qed.

Lemma counts_sum_length (ds : list Detection) :
  dict_sum (count_detections ds) = length ds.
Proof.
  unfold count_detections.
  rewrite counts_sum_foldl, dict_sum_initial_counts. reflexivity.
Qed.

(** A bucket that exists grows by the number of detections counted under it. *)
Lemma counts_lookup_foldl (ds : list Detection) (d : gmap (option string) nat) key v :
  d !! key = Some v ->
  foldl count_detection d ds !! key = Some (v + count_label key ds)%nat.
Proof.
  revert d v. induction ds as [|x ds IH]; intros d v Hv; simpl.
  - rewrite Hv. f_equal. unfold count_label. simpl. lia.
  - unfold count_label. rewrite filter_cons.
    destruct (decide (counted_as x = key)) as [Heq|Hne].
    + rewrite (IH _ (v + 1)%nat).
      * f_equal. unfold count_label. simpl. lia.
      * unfold count_detection. fold (counted_as x). rewrite Heq, Hv.
        apply lookup_insert_eq.
    + rewrite (IH _ v).
      * reflexivity.
      * unfold count_detection. fold (counted_as x).
        rewrite lookup_insert_ne by exact Hne. exact Hv.
Qed.

Lemma dict_get_count_detections (ds : list Detection) (label : string) :
  label ∈ ["maduro"; "semimaduro"; "no_maduro"; "unknown"] ->
  dict_get (count_detections ds) label = count_label (Some label) ds.
Proof.
  intros Hin. unfold count_detections, dict_get.
  rewrite (counts_lookup_foldl _ _ _ 0%nat); [reflexivity|].
  unfold initial_counts.
  repeat (apply elem_of_cons in Hin as [->|Hin]; [reflexivity|]).
  apply elem_of_nil in Hin. contradiction.
Qed.

(** ** The aggregator returns *)

(** With a non-zero total no quotient of the percentage loop raises. *)
Lemma percentages_loop_returns (total : nat) (items : list (option string * nat))
    (acc : gmap (option string) float) :
  total <> 0%nat -> exists p, percentages_loop total items acc = Returns p.
Proof.
  intros Hpos. revert acc. induction items as [|[key count] items IH]; intros acc.
  - exists acc. reflexivity.
  - cbn [percentages_loop]. unfold py_truediv_int.
    apply Nat.eqb_neq in Hpos. rewrite Hpos. cbn [mbind outcome_bind]. apply IH.
Qed.

(** The score function returns: its guard keeps the quotient from raising. *)
Lemma calculate_maturity_score_returns (c : gmap (option string) nat) (total : nat) :
  _calculate_maturity_score c total =
    Returns (if (total =? 0)%nat then 0%float
             else py_round
                    (((float_of_nat (dict_get c "maduro") * 1.0 +
                       float_of_nat (dict_get c "semimaduro") * 0.5 +
                       float_of_nat (dict_get c "no_maduro") * 0.0)
                      / float_of_nat total) * 100)%float 1).
Proof.
  unfold _calculate_maturity_score, py_truediv.
  destruct (total =? 0)%nat; reflexivity.
Qed.

(** The aggregator never takes its [except] branch. *)
Lemma analyze_maturity_distribution_returns (ma : MaturityAnalysis) :
  let ds := detections ma in
  exists d : MaturityDistribution,
    _analyze_maturity_distribution ma = Returns (Distribution d) /\
    counts d = count_detections ds /\
    total_analyzed d = length ds /\
    (length ds = 0%nat -> percentages d = ∅) /\
    maturity_score d =
      if (length ds =? 0)%nat then 0%float
      else py_round
             (((float_of_nat (count_label (Some "maduro") ds) * 1.0 +
                float_of_nat (count_label (Some "semimaduro") ds) * 0.5 +
                float_of_nat (count_label (Some "no_maduro") ds) * 0.0)
               / float_of_nat (length ds)) * 100)%float 1.
Proof.
  intros ds. unfold _analyze_maturity_distribution. fold ds.
  rewrite calculate_maturity_score_returns, counts_sum_length.
  rewrite !dict_get_count_detections by (repeat constructor).
  destruct (length ds) as [|n] eqn:Hlen.
  - cbn [Nat.ltb Nat.leb mbind outcome_bind mret outcome_ret try_except].
    eexists. split; [reflexivity|]. cbn. auto.
  - destruct (percentages_loop_returns (S n) (map_to_list (count_detections ds)) ∅
                ltac:(discriminate)) as [p Hp].
    cbn [Nat.ltb Nat.leb]. rewrite Hp.
    cbn [mbind outcome_bind mret outcome_ret try_except].
    eexists. split; [reflexivity|]. cbn. repeat split. intros [=].
Qed.

(** ** The maturity score *)

(** C1, as amended.  For every count assignment (ripe, semi_ripe, unripe,
    unknown), the dictionary sums to [total = r + s + u + k] and the score
    function returns [0] when [total = 0], otherwise
    [round(((r*1.0 + s*0.5 + u*0.0) / total) * 100, 1)] in binary64,
    quotient first: unknown detections enter the denominator only.  The
    aggregator returns that score on any detection list, the denominator being
    the number of detections.  Counts {8, 2, 0, 0} give 90.0, and counts
    {11, 1, 28, 0} give 28.7. *)
Theorem maturity_score_formula :
  (forall r s u k : nat,
     dict_sum (counts_of r s u k) = (r + s + u + k)%nat /\
     _calculate_maturity_score (counts_of r s u k) (dict_sum (counts_of r s u k)) =
       Returns
         (if (r + s + u + k =? 0)%nat then 0%float
          else py_round
                 (((float_of_nat r * 1.0 + float_of_nat s * 0.5 + float_of_nat u * 0.0)
                   / float_of_nat (r + s + u + k)) * 100)%float 1)) /\
  (forall ma : MaturityAnalysis,
     let ds := detections ma in
     exists d : MaturityDistribution,
       _analyze_maturity_distribution ma = Returns (Distribution d) /\
       maturity_score d =
         if (length ds =? 0)%nat then 0%float
         else py_round
                (((float_of_nat (count_label (Some "maduro") ds) * 1.0 +
                   float_of_nat (count_label (Some "semimaduro") ds) * 0.5 +
                   float_of_nat (count_label (Some "no_maduro") ds) * 0.0)
                  / float_of_nat (length ds)) * 100)%float 1) /\
  _calculate_maturity_score (counts_of 8 2 0 0) 10 = Returns 90%float /\
  _calculate_maturity_score (counts_of 11 1 28 0) 40 = Returns 28.7%float.
Proof.
  split; [|split; [|split]].
  - intros r s u k. split; [apply dict_sum_counts_of|].
    rewrite calculate_maturity_score_returns.
    destruct (dict_get_counts_of r s u k) as (-> & -> & -> & _).
    rewrite dict_sum_counts_of. reflexivity.
  - intros ma ds.
    destruct (analyze_maturity_distribution_returns ma) as (d & Hd & _ & _ & _ & Hs).
    exists d. split; [exact Hd|exact Hs].
  - vm_compute. reflexivity.
  - vm_compute. reflexivity.
Qed.

(** C1 as stated fails.  With 11 ripe, 1 semi-ripe and 28 unripe detections
    the exact value is [100 * 11.5 / 40 = 28.75], whose nearest tenth (ties
    to even) is 28.8, and the formula of the specification evaluates to
    28.8; the code divides first, [(11.5 / 40) * 100 = 28.749999999999996],
    and returns 28.7. *)
Lemma maturity_score_differs_from_spec_formula :
  ((11.5 / 40) * 100 = 28.749999999999996)%float /\
  _calculate_maturity_score (counts_of 11 1 28 0) (dict_sum (counts_of 11 1 28 0))
    = Returns 28.7%float /\
  spec_maturity_score 11 1 28 0 = 28.8%float /\
  exact_score_tenths 11 1 28 0 = 288 /\
  _calculate_maturity_score (counts_of 11 1 28 0) (dict_sum (counts_of 11 1 28 0))
    <> Returns (spec_maturity_score 11 1 28 0).
Proof.
  repeat split; try (vm_compute; reflexivity).
  assert (H : _calculate_maturity_score (counts_of 11 1 28 0)
                (dict_sum (counts_of 11 1 28 0)) = Returns 28.7%float)
    by (vm_compute; reflexivity).
  rewrite H. intros [= Heq]; revert Heq;
    apply float_neq_by_bits; vm_compute; discriminate.
Qed.

(** ** Class counts *)

Lemma count_label_partition (ds : list Detection) :
  Forall (fun d => counted_as d ∈
            [Some "maduro"; Some "semimaduro"; Some "no_maduro"; Some "unknown"]) ds ->
  (count_label (Some "maduro") ds + count_label (Some "semimaduro") ds +
   count_label (Some "no_maduro") ds + count_label (Some "unknown") ds)%nat
  = length ds.
Proof.
  induction 1 as [|x ds Hx _ IH]; [reflexivity|].
  unfold count_label in *. rewrite !filter_cons. simpl.
  repeat (apply elem_of_cons in Hx as [->|Hx];
          [repeat case_decide; simpl; first [congruence | lia]|]).
  apply elem_of_nil in Hx. contradiction.
Qed.

(** C6.  For every detection list, whatever its maturity fields hold (a
    missing key, [None], a recognised class or any other string), the
    aggregator returns a distribution whose class counts sum to the number of
    detections, as does its [total_analyzed]; when every detection falls in
    one of the four buckets, these four counts alone sum to that number. *)
Theorem class_counts_sum_to_length :
  forall ma : MaturityAnalysis,
  exists d : MaturityDistribution,
    _analyze_maturity_distribution ma = Returns (Distribution d) /\
    dict_sum (counts d) = length (detections ma) /\
    total_analyzed d = length (detections ma) /\
    (Forall (fun x => counted_as x ∈
               [Some "maduro"; Some "semimaduro"; Some "no_maduro"; Some "unknown"])
            (detections ma) ->
     (dict_get (counts d) "maduro" + dict_get (counts d) "semimaduro" +
      dict_get (counts d) "no_maduro" + dict_get (counts d) "unknown")%nat
     = length (detections ma)).
Proof.
  intros ma.
  destruct (analyze_maturity_distribution_returns ma) as (d & Hd & Hc & Ht & _).
  exists d. split; [exact Hd|]. rewrite Hc, Ht. split; [|split].
  - apply counts_sum_length.
  - reflexivity.
  - intros Hall. rewrite !dict_get_count_detections by (repeat constructor).
    apply count_label_partition, Hall.
Qed.

(** A label outside the four classes opens a bucket of its own, and a
    [None] label is counted under the key [None]. *)
Example foreign_labels_are_counted :
  let ds := [sample_detection [] (Some (Some "overripe"));
             sample_detection [] (Some None);
             sample_detection [] None] in
  count_detections ds !! Some "overripe" = Some 1%nat /\
  count_detections ds !! None = Some 1%nat /\
  count_detections ds !! Some "unknown" = Some 1%nat /\
  count_detections ds !! Some "maduro" = Some 0%nat /\
  dict_sum (count_detections ds) = 3%nat.
Proof. vm_compute. repeat split. Qed.

(** ** The empty detection list *)

(** C5, as amended.  For the empty detection list the aggregator returns
    the distribution whose four class counts are 0, whose percentages
    dictionary is empty (no per-class entry is produced) and whose total and
    score are 0; the recommendations computed from it are the do-not-harvest
    texts and the no-fruit quality text; and the report is produced.  None of
    the three functions takes its [except] branch: no division by zero is
    raised. *)
Theorem empty_detection_list_report :
  forall (pt : float) (res : string) (n : nat),
    let ma := {| detections := []; processing_time := pt;
                 image_resolution := res; total_detected := n |} in
    _analyze_maturity_distribution ma = Returns (Distribution empty_distribution) /\
    (forall label, label ∈ ["maduro"; "semimaduro"; "no_maduro"; "unknown"] ->
       counts empty_distribution !! Some label = Some 0%nat) /\
    dict_sum (counts empty_distribution) = 0%nat /\
    percentages empty_distribution = ∅ /\
    maturity_score empty_distribution = 0%float /\
    _generate_recommendations (Distribution empty_distribution)
      = Returns (Recs empty_recommendations) /\
    harvest_recommendation empty_recommendations
      = "No cosechar aún - Frutos predominantemente inmaduros" /\
    quality_assessment empty_recommendations = "No se detectaron frutos" /\
    generate_report ma
      = Returns {| report_maturity_analysis := Distribution empty_distribution;
                   report_recommendations := Recs empty_recommendations;
                   report_processing_time_ms := pt;
                   report_image_resolution := res |}.
Proof.
  intros pt res n ma.
  assert (Hd : _analyze_maturity_distribution ma = Returns (Distribution empty_distribution)).
  { destruct (analyze_maturity_distribution_returns ma) as (d & Hd & Hc & Ht & Hp & Hs).
    rewrite Hd. destruct d as [c p t s]. simpl in *. subst.
    rewrite (Hp eq_refl). reflexivity. }
  assert (Hr : _generate_recommendations (Distribution empty_distribution)
               = Returns (Recs empty_recommendations)).
  { unfold _generate_recommendations, _get_quality_assessment.
    cbn [get_counts get_maturity_score counts maturity_score empty_distribution].
    rewrite (dict_sum_counts_of 0 0 0 0). reflexivity. }
  split; [exact Hd|]. split; [|split; [|split; [|split; [|split; [|split; [|split]]]]]].
  - intros label Hin.
    repeat (apply elem_of_cons in Hin as [->|Hin]; [reflexivity|]).
    apply elem_of_nil in Hin. contradiction.
  - apply (dict_sum_counts_of 0 0 0 0).
  - reflexivity.
  - reflexivity.
  - exact Hr.
  - reflexivity.
  - reflexivity.
  - unfold generate_report. rewrite Hd. cbn [mbind outcome_bind]. rewrite Hr. reflexivity.
Qed.

(** C5 as stated fails: for the empty detection list the four per-class
    percentages are not 0, they are absent. *)
Lemma empty_detection_list_has_no_percentages :
  _analyze_maturity_distribution
    {| detections := []; processing_time := 0;
       image_resolution := "10x10"; total_detected := 0 |}
    = Returns (Distribution empty_distribution) /\
  percentages empty_distribution !! Some "maduro" = None /\
  ~ (forall label, label ∈ ["maduro"; "semimaduro"; "no_maduro"; "unknown"] ->
       percentages empty_distribution !! Some label = Some 0%float).
Proof.
  split; [vm_compute; reflexivity|]. split; [reflexivity|].
  intros Hall. specialize (Hall "maduro" ltac:(repeat constructor)). discriminate.
Qed.

(** ** Recommendation ladders *)

Lemma harvest_ladder (score : float) :
  (PrimFloat.leb 80 score = true ->
     _get_harvest_recommendation score = harvest_text Immediate /\
     _get_timing_recommendation score = timing_text Immediate) /\
  (PrimFloat.leb 80 score = false -> PrimFloat.leb 60 score = true ->
     _get_harvest_recommendation score = harvest_text Days2to3 /\
     _get_timing_recommendation score = timing_text Days2to3) /\
  (PrimFloat.leb 80 score = false -> PrimFloat.leb 60 score = false ->
   PrimFloat.leb 40 score = true ->
     _get_harvest_recommendation score = harvest_text Days5to7 /\
     _get_timing_recommendation score = timing_text Days5to7) /\
  (PrimFloat.leb 80 score = false -> PrimFloat.leb 60 score = false ->
   PrimFloat.leb 40 score = false -> PrimFloat.leb 20 score = true ->
     _get_harvest_recommendation score = harvest_text Days10to14 /\
     _get_timing_recommendation score = timing_text Days10to14) /\
  (PrimFloat.leb 80 score = false -> PrimFloat.leb 60 score = false ->
   PrimFloat.leb 40 score = false -> PrimFloat.leb 20 score = false ->
     _get_harvest_recommendation score = harvest_text DoNotHarvest /\
     _get_timing_recommendation score = timing_text DoNotHarvest).
Proof.
  unfold _get_harvest_recommendation, _get_timing_recommendation.
  repeat split; intros;
    repeat match goal with H : _ = _ |- _ => rewrite H; clear H end;
    reflexivity.
Qed.

Lemma quality_ladder (counts0 : gmap (option string) nat) :
  dict_sum counts0 <> 0%nat ->
  let pct := ripe_percentage (dict_get counts0 "maduro") (dict_sum counts0) in
  (PrimFloat.leb 70 pct = true ->
     _get_quality_assessment counts0 = Returns (quality_text Excellent)) /\
  (PrimFloat.leb 70 pct = false -> PrimFloat.leb 50 pct = true ->
     _get_quality_assessment counts0 = Returns (quality_text Good)) /\
  (PrimFloat.leb 70 pct = false -> PrimFloat.leb 50 pct = false ->
   PrimFloat.leb 30 pct = true ->
     _get_quality_assessment counts0 = Returns (quality_text Fair)) /\
  (PrimFloat.leb 70 pct = false -> PrimFloat.leb 50 pct = false ->
   PrimFloat.leb 30 pct = false ->
     _get_quality_assessment counts0 = Returns (quality_text Poor)).
Proof.
  intros Hpos pct. unfold _get_quality_assessment, py_truediv_int.
  apply Nat.eqb_neq in Hpos. rewrite Hpos.
  cbn [mbind outcome_bind mret outcome_ret].
  fold (ripe_percentage (dict_get counts0 "maduro") (dict_sum counts0)). fold pct.
  repeat split; intros;
    repeat match goal with H : PrimFloat.leb _ _ = _ |- _ => rewrite H; clear H end;
    reflexivity.
Qed.

Lemma quality_depends_on_ripe_share (c1 c2 : gmap (option string) nat) :
  dict_get c1 "maduro" = dict_get c2 "maduro" ->
  dict_sum c1 = dict_sum c2 ->
  _get_quality_assessment c1 = _get_quality_assessment c2.
Proof.
  intros Hr Ht. unfold _get_quality_assessment. rewrite Hr, Ht. reflexivity.
Qed.

(** C4.  For every score the harvest and timing texts are those of the
    first band, from the top, whose inclusive lower bound (80, 60, 40, 20) the
    score reaches, and of the do-not-harvest band when it reaches none; the
    bounds themselves belong to their band.  For every counting dictionary
    with a positive total the quality text is chosen by the same kind of ladder
    (70, 50, 30) on the ripe share [ripe / total * 100] alone: it is the same
    for two dictionaries with the same ripe count and total, whatever their
    scores, and the two ladders can disagree. *)
Theorem recommendation_ladders :
  (forall score : float,
     (PrimFloat.leb 80 score = true ->
        _get_harvest_recommendation score = harvest_text Immediate /\
        _get_timing_recommendation score = timing_text Immediate) /\
     (PrimFloat.leb 80 score = false -> PrimFloat.leb 60 score = true ->
        _get_harvest_recommendation score = harvest_text Days2to3 /\
        _get_timing_recommendation score = timing_text Days2to3) /\
     (PrimFloat.leb 80 score = false -> PrimFloat.leb 60 score = false ->
      PrimFloat.leb 40 score = true ->
        _get_harvest_recommendation score = harvest_text Days5to7 /\
        _get_timing_recommendation score = timing_text Days5to7) /\
     (PrimFloat.leb 80 score = false -> PrimFloat.leb 60 score = false ->
      PrimFloat.leb 40 score = false -> PrimFloat.leb 20 score = true ->
        _get_harvest_recommendation score = harvest_text Days10to14 /\
        _get_timing_recommendation score = timing_text Days10to14) /\
     (PrimFloat.leb 80 score = false -> PrimFloat.leb 60 score = false ->
      PrimFloat.leb 40 score = false -> PrimFloat.leb 20 score = false ->
        _get_harvest_recommendation score = harvest_text DoNotHarvest /\
        _get_timing_recommendation score = timing_text DoNotHarvest)) /\
  (_get_harvest_recommendation 80 = harvest_text Immediate /\
   _get_harvest_recommendation 79.9 = harvest_text Days2to3 /\
   _get_harvest_recommendation 60 = harvest_text Days2to3 /\
   _get_harvest_recommendation 40 = harvest_text Days5to7 /\
   _get_harvest_recommendation 20 = harvest_text Days10to14 /\
   _get_harvest_recommendation 19.9 = harvest_text DoNotHarvest) /\
  (forall counts0 : gmap (option string) nat,
     dict_sum counts0 <> 0%nat ->
     let pct := ripe_percentage (dict_get counts0 "maduro") (dict_sum counts0) in
     (PrimFloat.leb 70 pct = true ->
        _get_quality_assessment counts0 = Returns (quality_text Excellent)) /\
     (PrimFloat.leb 70 pct = false -> PrimFloat.leb 50 pct = true ->
        _get_quality_assessment counts0 = Returns (quality_text Good)) /\
     (PrimFloat.leb 70 pct = false -> PrimFloat.leb 50 pct = false ->
      PrimFloat.leb 30 pct = true ->
        _get_quality_assessment counts0 = Returns (quality_text Fair)) /\
     (PrimFloat.leb 70 pct = false -> PrimFloat.leb 50 pct = false ->
      PrimFloat.leb 30 pct = false ->
        _get_quality_assessment counts0 = Returns (quality_text Poor))) /\
  (_get_quality_assessment (counts_of 7 0 3 0) = Returns (quality_text Excellent) /\
   _get_quality_assessment (counts_of 5 0 5 0) = Returns (quality_text Good) /\
   _get_quality_assessment (counts_of 3 0 7 0) = Returns (quality_text Fair) /\
   _get_quality_assessment (counts_of 29 0 71 0) = Returns (quality_text Poor)) /\
  (forall c1 c2 : gmap (option string) nat,
     dict_get c1 "maduro" = dict_get c2 "maduro" ->
     dict_sum c1 = dict_sum c2 ->
     _get_quality_assessment c1 = _get_quality_assessment c2) /\
  (_calculate_maturity_score (counts_of 0 10 0 0) 10 = Returns 50%float /\
   _get_harvest_recommendation 50 = harvest_text Days5to7 /\
   _get_quality_assessment (counts_of 0 10 0 0) = Returns (quality_text Poor)).
Proof.
  split; [exact harvest_ladder|].
  split; [vm_compute; repeat split|].
  split; [exact quality_ladder|].
  split; [vm_compute; repeat split|].
  split; [exact quality_depends_on_ripe_share|].
  vm_compute; repeat split.
Qed.

(** The two ladders at work: a score of 90, and eight ripe fruits of ten. *)
Lemma recommendation_ladders_witness :
  _get_harvest_recommendation 90 = harvest_text Immediate /\
  _get_quality_assessment (counts_of 8 2 0 0) = Returns (quality_text Excellent).
Proof.
  split.
  - apply (proj1 recommendation_ladders 90%float). reflexivity.
  - refine (proj1 (proj1 (proj2 (proj2 recommendation_ladders)) (counts_of 8 2 0 0) _) _).
    + vm_compute. discriminate.
    + vm_compute. reflexivity.
Defined.

(** ** Box normalisation *)

Lemma normalize_bbox_inside (w h x1 y1 x2 y2 : Z) :
  1 <= w -> 1 <= h ->
  let '(x1n, y1n, x2n, y2n) := normalize_bbox w h x1 y1 x2 y2 in
  0 <= x1n <= x2n /\ x2n <= w - 1 /\ 0 <= y1n <= y2n /\ y2n <= h - 1 /\
  (2 <= w -> x1 < w - 1 -> x1n < x2n) /\
  (2 <= h -> y1 < h - 1 -> y1n < y2n).
Proof.
  intros Hw Hh. unfold normalize_bbox.
  destruct (Z.leb_spec (Z.max 0 (Z.min x2 (w - 1))) (Z.max 0 (Z.min x1 (w - 1))));
    destruct (Z.leb_spec (Z.max 0 (Z.min y2 (h - 1))) (Z.max 0 (Z.min y1 (h - 1))));
    lia.
Qed.

(** On an image too small or a box at the far edge nothing is left to
    widen into: the normalised box stays empty. *)
Lemma normalize_bbox_at_far_edge (w h x1 y1 x2 y2 : Z) :
  1 <= w -> w - 1 <= x1 ->
  let '(x1n, _, x2n, _) := normalize_bbox w h x1 y1 x2 y2 in
  x1n = w - 1 /\ x2n = w - 1.
Proof.
  intros Hw Hx. unfold normalize_bbox.
  destruct (Z.leb_spec (Z.max 0 (Z.min x2 (w - 1))) (Z.max 0 (Z.min x1 (w - 1))));
    destruct (Z.leb_spec (Z.max 0 (Z.min y2 (h - 1))) (Z.max 0 (Z.min y1 (h - 1))));
    lia.
Qed.

#[local] Arguments normalize_bbox : simpl never.
#[local] Arguments region_size : simpl never.
#[local] Arguments crop : simpl never.

Section DetectorProperties.

Variable cvtColor_RGB2HSV : Region -> outcome Region.
Variable np_var : list Z -> float.

(** What one iteration does to a detection with four integer coordinates
    on an array image. *)
Lemma analyze_detection_on_array (a : ndarray) (d : Detection) (x1 y1 x2 y2 : Z) :
  bbox d = [PyInt x1; PyInt y1; PyInt x2; PyInt y2] ->
  exists d',
    analyze_detection cvtColor_RGB2HSV np_var (NdArray a) d = Returns (Some d') /\
    confidence d' = confidence d /\ class_name d' = class_name d /\ area d' = area d /\
    let '(x1n, y1n, x2n, y2n) :=
      normalize_bbox (Z.of_nat (shape1 a)) (Z.of_nat (shape0 a)) x1 y1 x2 y2 in
    let region := crop a y1n y2n x1n x2n in
    bbox d' = [PyInt x1n; PyInt y1n; PyInt x2n; PyInt y2n] /\
    (region_size region <> 0%nat ->
       maturity d' = Some (Some (stored_label cvtColor_RGB2HSV d region)) /\
       maturity_confidence d' =
         Some (_calculate_maturity_confidence cvtColor_RGB2HSV np_var region)) /\
    (region_size region = 0%nat ->
       maturity d' = Some (default (Some "unknown") (maturity d)) /\
       maturity_confidence d' = Some (default 0%float (maturity_confidence d))).
Proof.
  intros Hb. unfold analyze_detection. rewrite Hb.
  cbn [mbind outcome_bind image_shape py_int].
  destruct (normalize_bbox (Z.of_nat (shape1 a)) (Z.of_nat (shape0 a)) x1 y1 x2 y2)
    as [[[x1n y1n] x2n] y2n].
  cbn [mbind outcome_bind image_crop mret outcome_ret].
  destruct (region_size (crop a y1n y2n x1n x2n)) as [|n] eqn:Hsize;
    cbn [Nat.ltb Nat.leb].
  - eexists. split; [reflexivity|].
    cbn [confidence class_name area bbox maturity maturity_confidence].
    repeat split; intros; first [reflexivity | contradiction].
  - eexists. split; [reflexivity|].
    cbn [confidence class_name area bbox maturity maturity_confidence].
    repeat split; intros; first [reflexivity | discriminate].
Qed.

(** A detection whose [bbox] has not four entries is skipped. *)
Lemma analyze_detection_skips (image : PyImage) (d : Detection) :
  length (bbox d) <> 4%nat ->
  analyze_detection cvtColor_RGB2HSV np_var image d = Returns None.
Proof.
  intros Hlen. unfold analyze_detection.
  destruct (bbox d) as [|c1 [|c2 [|c3 [|c4 [|c5 l]]]]]; simpl in *;
    first [reflexivity | contradiction].
Qed.

(** Any result of an iteration comes from four integer coordinates on an
    array image. *)
Lemma analyze_detection_returns_some (image : PyImage) (d d' : Detection) :
  analyze_detection cvtColor_RGB2HSV np_var image d = Returns (Some d') ->
  exists a x1 y1 x2 y2,
    image = NdArray a /\ bbox d = [PyInt x1; PyInt y1; PyInt x2; PyInt y2].
Proof.
  unfold analyze_detection.
  destruct (bbox d) as [|c1 [|c2 [|c3 [|c4 [|c5 l]]]]]; simpl; try discriminate.
  destruct image as [|a]; simpl; try discriminate.
  destruct c1 as [x1|]; simpl; try discriminate.
  destruct c2 as [y1|]; simpl; try discriminate.
  destruct c3 as [x2|]; simpl; try discriminate.
  destruct c4 as [y2|]; simpl; try discriminate.
  intros _. exists a, x1, y1, x2, y2. split; reflexivity.
Qed.

(** X23.  For every image of width [w >= 1] and height [h >= 1] and every
    detection with a box of four integers, whatever they are, the detection
    is kept and its stored box satisfies [0 <= x1 <= x2 <= w - 1] and
    [0 <= y1 <= y2 <= h - 1]; its width is positive when [w >= 2] and the
    given [x1] is below [w - 1], its height when [h >= 2] and the given [y1]
    is below [h - 1]. *)
Theorem stored_bbox_inside_image (a : ndarray) (d : Detection) (x1 y1 x2 y2 : Z) :
  (1 <= shape1 a)%nat -> (1 <= shape0 a)%nat ->
  bbox d = [PyInt x1; PyInt y1; PyInt x2; PyInt y2] ->
  let w := Z.of_nat (shape1 a) in
  let h := Z.of_nat (shape0 a) in
  exists d' x1n y1n x2n y2n,
    analyze_detection cvtColor_RGB2HSV np_var (NdArray a) d = Returns (Some d') /\
    bbox d' = [PyInt x1n; PyInt y1n; PyInt x2n; PyInt y2n] /\
    0 <= x1n <= x2n /\ x2n <= w - 1 /\
    0 <= y1n <= y2n /\ y2n <= h - 1 /\
    (2 <= w -> x1 < w - 1 -> x1n < x2n) /\
    (2 <= h -> y1 < h - 1 -> y1n < y2n).
Proof.
  intros Hw Hh Hb w h.
  destruct (analyze_detection_on_array a d x1 y1 x2 y2 Hb) as (d' & Hd' & _ & _ & _ & Hrest).
  pose proof (normalize_bbox_inside w h x1 y1 x2 y2 ltac:(lia) ltac:(lia)) as Hin.
  fold w h in Hrest.
  destruct (normalize_bbox w h x1 y1 x2 y2) as [[[x1n y1n] x2n] y2n].
  destruct Hrest as (Hbox & _).
  exists d', x1n, y1n, x2n, y2n. tauto.
Qed.

(** ** The colour heuristic *)

(** C2, as amended.  For every cropped region whose HSV conversion
    succeeds, the heuristic returns semimaduro (semi-ripe) if mean_hue < 120,
    mean_saturation > 100 and mean_value > 150; maduro (ripe) if
    mean_hue < 120, mean_saturation > 100 and mean_value <= 150; no_maduro
    (unripe) whenever mean_hue > 120; and unknown otherwise, in particular
    when mean_hue is exactly 120.  When the conversion raises, it returns
    unknown. *)
Theorem berry_maturity_rule (region : Region) :
  let result := _analyze_berry_maturity cvtColor_RGB2HSV region in
  (forall hsv : Region,
     cvtColor_RGB2HSV region = Returns hsv ->
     let mean_hue := np_mean (channel ch0 hsv) in
     let mean_saturation := np_mean (channel ch1 hsv) in
     let mean_value := np_mean (channel ch2 hsv) in
     (PrimFloat.ltb mean_hue 120 = true -> PrimFloat.ltb 100 mean_saturation = true ->
      PrimFloat.ltb 150 mean_value = true -> result = "semimaduro") /\
     (PrimFloat.ltb mean_hue 120 = true -> PrimFloat.ltb 100 mean_saturation = true ->
      PrimFloat.leb mean_value 150 = true -> result = "maduro") /\
     (PrimFloat.ltb 120 mean_hue = true -> result = "no_maduro") /\
     (PrimFloat.eqb mean_hue 120 = true -> result = "unknown") /\
     (PrimFloat.ltb 120 mean_hue = false ->
      PrimFloat.ltb mean_hue 120 = false \/ PrimFloat.ltb 100 mean_saturation = false ->
      result = "unknown")) /\
  (forall e : exn, cvtColor_RGB2HSV region = Raises e -> result = "unknown").
Proof.
  intros result. subst result. unfold _analyze_berry_maturity. split.
  - intros hsv Hcvt. cbv zeta. rewrite Hcvt.
    repeat split.
    + intros -> -> ->. reflexivity.
    + intros -> -> Hle. apply float_leb_not_gt in Hle. rewrite Hle. reflexivity.
    + intros Hgt. rewrite (float_ltb_asym _ _ Hgt), Hgt. reflexivity.
    + intros Heq. destruct (float_eqb_not_lt _ _ Heq) as [-> ->]. reflexivity.
    + intros -> [-> | ->]; [reflexivity|].
      rewrite andb_false_r. reflexivity.
  - intros e ->. reflexivity.
Qed.

(** ** Labels supplied by the model *)

Lemma analyze_detection_none (image : PyImage) (d : Detection) :
  analyze_detection cvtColor_RGB2HSV np_var image d = Returns None ->
  length (bbox d) <> 4%nat.
Proof.
  unfold analyze_detection.
  destruct (bbox d) as [|c1 [|c2 [|c3 [|c4 [|c5 l]]]]];
    cbn [length mret outcome_ret]; try congruence.
  destruct image as [|a]; cbn [mbind outcome_bind image_shape]; try discriminate.
  destruct c1, c2, c3, c4; cbn [mbind outcome_bind py_int]; try discriminate.
  match goal with
  | |- context [normalize_bbox ?w ?h ?x1 ?y1 ?x2 ?y2] =>
      destruct (normalize_bbox w h x1 y1 x2 y2) as [[[x1n y1n] x2n] y2n]
  end.
  cbn [mbind outcome_bind image_crop mret outcome_ret].
  match goal with
  | |- context [(0 <? ?n)%nat] => destruct (0 <? n)%nat; discriminate
  end.
Qed.

Lemma analyze_detection_keeps_model_label (image : PyImage) (d d' : Detection)
    (label : string) :
  maturity d = Some (Some label) -> label ∈ MODEL_LABELS ->
  analyze_detection cvtColor_RGB2HSV np_var image d = Returns (Some d') ->
  maturity d' = Some (Some label) /\
  exists x1 y1 x2 y2, bbox d' = [PyInt x1; PyInt y1; PyInt x2; PyInt y2].
Proof.
  intros Hm Hin Hrun.
  destruct (analyze_detection_returns_some image d d' Hrun)
    as (a & x1 & y1 & x2 & y2 & -> & Hb).
  destruct (analyze_detection_on_array a d x1 y1 x2 y2 Hb)
    as (d0 & Hd0 & _ & _ & _ & Hrest).
  rewrite Hrun in Hd0. injection Hd0 as <-.
  destruct (normalize_bbox (Z.of_nat (shape1 a)) (Z.of_nat (shape0 a)) x1 y1 x2 y2)
    as [[[x1n y1n] x2n] y2n].
  destruct Hrest as (Hbox & Hfull & Hempty).
  split; [|eauto].
  destruct (decide (region_size (crop a y1n y2n x1n x2n) = 0%nat)) as [Hz|Hnz].
  - destruct (Hempty Hz) as [-> _]. rewrite Hm. reflexivity.
  - destruct (Hfull Hnz) as [-> _]. unfold stored_label. rewrite Hm.
    rewrite bool_decide_eq_true_2 by exact Hin. reflexivity.
Qed.

Lemma analyze_loop_keeps_model_labels (image : PyImage) (ds out : list Detection) :
  Forall (fun d => exists label, maturity d = Some (Some label) /\ label ∈ MODEL_LABELS) ds ->
  analyze_loop cvtColor_RGB2HSV np_var image ds = Returns out ->
  maturity <$> out = maturity <$> filter (fun d => length (bbox d) = 4%nat) ds.
Proof.
  intros Hall. revert out. induction Hall as [|d ds (label & Hm & Hin) _ IH]; intros out.
  - simpl. intros [= <-]. reflexivity.
  - cbn [analyze_loop]. rewrite filter_cons.
    destruct (analyze_detection cvtColor_RGB2HSV np_var image d) as [[d'|]|e] eqn:Hd;
      cbn [mbind outcome_bind]; try discriminate;
      destruct (analyze_loop cvtColor_RGB2HSV np_var image ds) as [rs|e'];
      cbn [mbind outcome_bind mret outcome_ret]; try discriminate;
      intros [= <-].
    + destruct (analyze_detection_returns_some _ _ _ Hd) as (a & x1 & y1 & x2 & y2 & _ & Hb).
      destruct (analyze_detection_keeps_model_label _ _ _ _ Hm Hin Hd) as [Hm' _].
      rewrite decide_True by (rewrite Hb; reflexivity).
      rewrite !fmap_cons, Hm', Hm, (IH rs eq_refl). reflexivity.
    + rewrite decide_False by (apply (analyze_detection_none image), Hd).
      apply IH. reflexivity.
Qed.

(** C7.  For every detection whose maturity field already holds one of
    the three model labels, an iteration of the classifier that keeps the
    detection stores that very label, whatever the image and the pixel
    statistics; a further iteration on the result, on any image, stores it
    again, and on the same image it does keep the detection.  Over a whole list
    of such detections the labels of the results are the labels of the
    detections kept, in order. *)
Theorem model_label_is_kept :
  (forall (image : PyImage) (d d' : Detection) (label : string),
     maturity d = Some (Some label) -> label ∈ MODEL_LABELS ->
     analyze_detection cvtColor_RGB2HSV np_var image d = Returns (Some d') ->
     maturity d' = Some (Some label) /\
     (forall (image' : PyImage) (d'' : Detection),
        analyze_detection cvtColor_RGB2HSV np_var image' d' = Returns (Some d'') ->
        maturity d'' = Some (Some label)) /\
     (exists d'' : Detection,
        analyze_detection cvtColor_RGB2HSV np_var image d' = Returns (Some d''))) /\
  (forall (image : PyImage) (ds out : list Detection),
     Forall (fun d => exists label,
               maturity d = Some (Some label) /\ label ∈ MODEL_LABELS) ds ->
     analyze_loop cvtColor_RGB2HSV np_var image ds = Returns out ->
     maturity <$> out = maturity <$> filter (fun d => length (bbox d) = 4%nat) ds).
Proof.
  split.
  - intros image d d' label Hm Hin Hrun.
    destruct (analyze_detection_keeps_model_label image d d' label Hm Hin Hrun)
      as (Hm' & x1 & y1 & x2 & y2 & Hb').
    split; [exact Hm'|]. split.
    + intros image' d'' Hrun'.
      apply (analyze_detection_keeps_model_label image' d' d'' label Hm' Hin Hrun').
    + destruct (analyze_detection_returns_some image d d' Hrun) as (a & _ & _ & _ & _ & -> & _).
      destruct (analyze_detection_on_array a d' x1 y1 x2 y2 Hb') as (d'' & Hd'' & _).
      exists d''. exact Hd''.
  - exact analyze_loop_keeps_model_labels.
Qed.

(** ** Detections that cannot be classified *)

(** C8, as amended.  A detection with four integer coordinates on an array
    image is always kept and the loop goes on with the remaining detections.
    When its crop is empty it keeps the maturity and the maturity confidence it
    came with, which are unknown and 0.0 only when the fields are missing; when
    the crop is not empty and the HSV conversion raises, its label is the model
    label it came with, or unknown, and its confidence is 0.5. *)
Theorem unclassifiable_detection_is_kept (a : ndarray) (d : Detection)
    (x1 y1 x2 y2 : Z) (rest : list Detection) :
  bbox d = [PyInt x1; PyInt y1; PyInt x2; PyInt y2] ->
  exists (d' : Detection) (x1n y1n x2n y2n : Z),
    normalize_bbox (Z.of_nat (shape1 a)) (Z.of_nat (shape0 a)) x1 y1 x2 y2
      = (x1n, y1n, x2n, y2n) /\
    analyze_detection cvtColor_RGB2HSV np_var (NdArray a) d = Returns (Some d') /\
    (region_size (crop a y1n y2n x1n x2n) = 0%nat ->
       maturity d' = Some (default (Some "unknown") (maturity d)) /\
       maturity_confidence d' = Some (default 0%float (maturity_confidence d)) /\
       (maturity d = None -> maturity d' = Some (Some "unknown")) /\
       (maturity_confidence d = None -> maturity_confidence d' = Some 0%float)) /\
    (region_size (crop a y1n y2n x1n x2n) <> 0%nat ->
     forall e : exn, cvtColor_RGB2HSV (crop a y1n y2n x1n x2n) = Raises e ->
       maturity d' =
         Some (Some (match maturity d with
                     | Some (Some label) =>
                         if bool_decide (label ∈ MODEL_LABELS) then label else "unknown"
                     | _ => "unknown"
                     end)) /\
       maturity_confidence d' = Some 0.5%float) /\
    analyze_loop cvtColor_RGB2HSV np_var (NdArray a) (d :: rest) =
      (rs ← analyze_loop cvtColor_RGB2HSV np_var (NdArray a) rest; mret (d' :: rs)).
Proof.
  intros Hb.
  destruct (analyze_detection_on_array a d x1 y1 x2 y2 Hb)
    as (d' & Hd' & _ & _ & _ & Hrest).
  destruct (normalize_bbox (Z.of_nat (shape1 a)) (Z.of_nat (shape0 a)) x1 y1 x2 y2)
    as [[[x1n y1n] x2n] y2n].
  destruct Hrest as (_ & Hfull & Hempty).
  exists d', x1n, y1n, x2n, y2n.
  split; [reflexivity|]. split; [exact Hd'|]. split; [|split].
  - intros Hz. destruct (Hempty Hz) as [Hm Hc].
    split; [exact Hm|]. split; [exact Hc|]. split.
    + intros Hnone. rewrite Hm, Hnone. reflexivity.
    + intros Hnone. rewrite Hc, Hnone. reflexivity.
  - intros Hnz e He. destruct (Hfull Hnz) as [Hm Hc]. split.
    + rewrite Hm. unfold stored_label, _analyze_berry_maturity. rewrite He. reflexivity.
    + rewrite Hc. unfold _calculate_maturity_confidence. rewrite He. reflexivity.
  - cbn [analyze_loop]. rewrite Hd'. reflexivity.
Qed.

(** ** [analyze_maturity] as a whole *)

Lemma analyze_maturity_body_none_image (t0 t1 : float) (ds : list Detection) :
  exists e, analyze_maturity_body cvtColor_RGB2HSV np_var t0 t1 ds NoneImage = Raises e.
Proof.
  unfold analyze_maturity_body.
  destruct (analyze_loop cvtColor_RGB2HSV np_var NoneImage ds) as [out|e];
    cbn [mbind outcome_bind image_shape]; eauto.
Qed.

Lemma analyze_maturity_none_image (t0 t1 : float) (ds : list Detection) :
  analyze_maturity cvtColor_RGB2HSV np_var t0 t1 ds NoneImage = Returns fallback_analysis.
Proof.
  unfold analyze_maturity.
  destruct (analyze_maturity_body_none_image t0 t1 ds) as [e ->]. reflexivity.
Qed.

(** On an array image the loop runs to its end when every four-entry box
    holds integers. *)
Lemma analyze_loop_on_array (a : ndarray) (ds : list Detection) :
  Forall (fun d => length (bbox d) = 4%nat -> Forall (fun c => c <> PyNone) (bbox d)) ds ->
  exists out,
    analyze_loop cvtColor_RGB2HSV np_var (NdArray a) ds = Returns out /\
    length out = length (filter (fun d => length (bbox d) = 4%nat) ds).
Proof.
  induction 1 as [|d ds Hd _ (out & Hout & Hlen)].
  - exists []. split; reflexivity.
  - cbn [analyze_loop]. rewrite filter_cons.
    destruct (decide (length (bbox d) = 4%nat)) as [H4|Hn4].
    + specialize (Hd H4).
      destruct (bbox d) as [|c1 [|c2 [|c3 [|c4 [|c5 l]]]]] eqn:Hb; try discriminate.
      apply Forall_cons in Hd as [H1 Hd]. apply Forall_cons in Hd as [H2 Hd].
      apply Forall_cons in Hd as [H3 Hd]. apply Forall_cons in Hd as [H4' _].
      destruct c1 as [x1|], c2 as [y1|], c3 as [x2|], c4 as [y2|]; try contradiction.
      destruct (analyze_detection_on_array a d x1 y1 x2 y2 Hb) as (d' & Hd' & _).
      rewrite Hd', Hout. exists (d' :: out). split; [reflexivity|].
      simpl. rewrite Hlen. reflexivity.
    + rewrite (analyze_detection_skips _ _ Hn4), Hout.
      exists out. split; [reflexivity|exact Hlen].
Qed.

(** C10.  [analyze_maturity] returns for every detection list and every
    image argument: whenever the body of its [try] raises, the result is the
    fixed record with no detections, processing time 0, resolution Unknown and
    total 0.  That is the case for an image without dimensions ([None]),
    whatever the detections, and for a box entry that is not a number.  On an
    array image with well-formed boxes the result instead lists the kept
    detections with the resolution of the image. *)
Theorem analyze_maturity_never_raises :
  (forall (t0 t1 : float) (ds : list Detection) (image : PyImage),
     (exists r, analyze_maturity cvtColor_RGB2HSV np_var t0 t1 ds image = Returns r) /\
     (forall e, analyze_maturity_body cvtColor_RGB2HSV np_var t0 t1 ds image = Raises e ->
        analyze_maturity cvtColor_RGB2HSV np_var t0 t1 ds image = Returns fallback_analysis)) /\
  (forall (t0 t1 : float) (ds : list Detection),
     analyze_maturity cvtColor_RGB2HSV np_var t0 t1 ds NoneImage = Returns fallback_analysis) /\
  (forall (t0 t1 : float) (a : ndarray),
     analyze_maturity cvtColor_RGB2HSV np_var t0 t1
       [{| bbox := [PyInt 1; PyNone; PyInt 5; PyInt 5]; confidence := 0.5;
           class_name := "blueberry"; area := 16; maturity := None;
           maturity_confidence := None |}] (NdArray a)
     = Returns fallback_analysis) /\
  (forall (t0 t1 : float) (ds : list Detection) (a : ndarray),
     Forall (fun d => length (bbox d) = 4%nat ->
                      Forall (fun c => c <> PyNone) (bbox d)) ds ->
     exists r, analyze_maturity cvtColor_RGB2HSV np_var t0 t1 ds (NdArray a) = Returns r /\
       total_detected r = length (detections r) /\
       length (detections r) = length (filter (fun d => length (bbox d) = 4%nat) ds) /\
       image_resolution r = pretty (shape1 a) +:+ "x" +:+ pretty (shape0 a)) /\
  (detections fallback_analysis = [] /\
   processing_time fallback_analysis = 0%float /\
   image_resolution fallback_analysis = "Unknown" /\
   total_detected fallback_analysis = 0%nat).
Proof.
  split; [|split; [|split; [|split]]].
  - intros t0 t1 ds image. unfold analyze_maturity.
    destruct (analyze_maturity_body cvtColor_RGB2HSV np_var t0 t1 ds image) as [r|e];
      cbn [try_except].
    + split; [eauto|]. intros e He. discriminate.
    + split; [eexists|intros]; reflexivity.
  - exact analyze_maturity_none_image.
  - intros t0 t1 a. reflexivity.
  - intros t0 t1 ds a Hwf.
    destruct (analyze_loop_on_array a ds Hwf) as (out & Hout & Hlen).
    unfold analyze_maturity, analyze_maturity_body. rewrite Hout.
    cbn [mbind outcome_bind image_shape mret outcome_ret try_except].
    eexists. split; [reflexivity|]. cbn [total_detected detections image_resolution].
    auto.
  - repeat split.
Qed.

End DetectorProperties.

(** ** The properties at concrete inputs *)

(** The heuristic on one pure-blue pixel: mean hue exactly 120. *)
Lemma berry_maturity_rule_witness :
  _analyze_berry_maturity blue_to_hsv [[Pixel 0 0 255]] = "unknown".
Proof.
  refine (proj1 (proj2 (proj2 (proj2
            (proj1 (berry_maturity_rule blue_to_hsv [[Pixel 0 0 255]])
               [[Pixel 120 255 255]] eq_refl)))) _).
  vm_compute. reflexivity.
Defined.

(** C2 as stated fails at mean hue exactly 120: a pure-blue region, RGB
    [(0, 0, 255)], has HSV means [(120, 255, 255)]; its mean hue is [>= 120],
    yet the heuristic answers unknown, not no_maduro (unripe). *)
Lemma hue_120_is_unknown_not_unripe :
  blue_to_hsv [[Pixel 0 0 255]] = Returns [[Pixel 120 255 255]] /\
  np_mean (channel ch0 [[Pixel 120 255 255]]) = 120%float /\
  PrimFloat.leb 120 (np_mean (channel ch0 [[Pixel 120 255 255]])) = true /\
  _analyze_berry_maturity blue_to_hsv [[Pixel 0 0 255]] = "unknown" /\
  _analyze_berry_maturity blue_to_hsv [[Pixel 0 0 255]] <> "no_maduro".
Proof.
  repeat split; try (vm_compute; reflexivity).
  vm_compute. discriminate.
Qed.

(** A box left of a 10 x 10 image and reaching below it: both its
    columns are clamped to 0, the far one is moved out by a pixel, and its
    last row is clamped to 9. *)
Lemma stored_bbox_inside_image_witness :
  normalize_bbox 10 10 (-5) 3 (-2) 30 = (0, 3, 1, 9) /\
  exists d' x1n y1n x2n y2n,
    analyze_detection blue_to_hsv zero_var (NdArray blue_array)
      (sample_detection [-5; 3; -2; 30] None) = Returns (Some d') /\
    bbox d' = [PyInt x1n; PyInt y1n; PyInt x2n; PyInt y2n] /\
    0 <= x1n <= x2n /\ x2n <= 10 - 1 /\
    0 <= y1n <= y2n /\ y2n <= 10 - 1 /\
    (2 <= 10 -> -5 < 10 - 1 -> x1n < x2n) /\
    (2 <= 10 -> 3 < 10 - 1 -> y1n < y2n).
Proof.
  split; [reflexivity|].
  apply (stored_bbox_inside_image blue_to_hsv zero_var blue_array
           (sample_detection [-5; 3; -2; 30] None) (-5) 3 (-2) 30);
    [cbn; lia | cbn; lia | reflexivity].
Defined.

(** C3: the code breaks the claim at the far edge.  The step says it
    guarantees a valid box and moves the far edge of an empty box one pixel
    out, but a box that starts on or beyond the last column has nowhere to
    go: [x2n = min(img_w - 1, x1n + 1)] is the last column again.  The
    Hough fallback of the colour detection emits such a box for a circle that
    crosses the left border: for the circle [(cx, cy, r) = (7, 97, 20)] of a
    200 x 200 image it is [[65523, 77, 27, 117]], and the analysis stores
    [[199, 77, 199, 117]], of width zero.  A box beyond the right and bottom
    edges of a 10 x 10 image is stored as [[9, 9, 9, 9]]. *)
Theorem far_edge_box_is_stored_empty :
  bbox (circle_detection 200 200 (7, 97, 20))
    = [PyInt 65523; PyInt 77; PyInt 27; PyInt 117] /\
  normalize_bbox 200 200 65523 77 27 117 = (199, 77, 199, 117) /\
  (exists d',
     analyze_detection blue_to_hsv zero_var (NdArray blue_array_200)
       (circle_detection 200 200 (7, 97, 20)) = Returns (Some d') /\
     bbox d' = [PyInt 199; PyInt 77; PyInt 199; PyInt 117]) /\
  normalize_bbox 10 10 20 20 30 30 = (9, 9, 9, 9) /\
  (exists d',
     analyze_detection blue_to_hsv zero_var (NdArray blue_array)
       (sample_detection [20; 20; 30; 30] None) = Returns (Some d') /\
     bbox d' = [PyInt 9; PyInt 9; PyInt 9; PyInt 9]) /\
  ~ (forall w h x1 y1 x2 y2 : Z,
       2 <= w -> 2 <= h ->
       let '(x1n, y1n, x2n, y2n) := normalize_bbox w h x1 y1 x2 y2 in
       0 <= x1n < x2n /\ x2n <= w - 1 /\ 0 <= y1n < y2n /\ y2n <= h - 1).
Proof.
  split; [vm_compute; reflexivity|]. split; [reflexivity|]. split.
  { eexists. split; vm_compute; reflexivity. }
  split; [reflexivity|]. split.
  { eexists. split; reflexivity. }
  intros H. specialize (H 200 200 65523 77 27 117 ltac:(lia) ltac:(lia)).
  vm_compute in H. destruct H as [[_ H] _]. discriminate.
Qed.

(** A detection labelled maduro by the model keeps its label although the
    colour heuristic would answer unknown on the blue image. *)
Lemma model_label_is_kept_witness :
  exists d',
    analyze_detection blue_to_hsv zero_var (NdArray blue_array)
      (sample_detection [2; 3; 7; 8] (Some (Some "maduro"))) = Returns (Some d') /\
    maturity d' = Some (Some "maduro") /\
    _analyze_berry_maturity blue_to_hsv (crop blue_array 3 8 2 7) = "unknown".
Proof.
  eexists. split; [reflexivity|]. split; [|vm_compute; reflexivity].
  refine (proj1 (proj1 (model_label_is_kept blue_to_hsv zero_var)
                   (NdArray blue_array)
                   (sample_detection [2; 3; 7; 8] (Some (Some "maduro")))
                   _ "maduro" eq_refl _ eq_refl)).
  repeat constructor.
Defined.

(** A box beyond the image, without maturity fields: empty crop, the
    detection is kept as unknown with confidence 0.0. *)
Lemma unclassifiable_detection_is_kept_witness :
  exists d',
    analyze_detection failing_cvtColor zero_var (NdArray blue_array)
      (sample_detection [20; 20; 30; 30] None) = Returns (Some d') /\
    maturity d' = Some (Some "unknown") /\
    maturity_confidence d' = Some 0%float.
Proof.
  destruct (unclassifiable_detection_is_kept failing_cvtColor zero_var blue_array
              (sample_detection [20; 20; 30; 30] None) 20 20 30 30 [] eq_refl)
    as (d' & x1n & y1n & x2n & y2n & Hn & Hd & Hempty & _).
  vm_compute in Hn. injection Hn as <- <- <- <-.
  destruct (Hempty eq_refl) as (_ & _ & Hm & Hc).
  exists d'. split; [exact Hd|]. split; [apply Hm | apply Hc]; reflexivity.
Defined.

(** C8 as stated fails.  With an empty crop, a detection the model labelled
    maduro with confidence field 0.9 keeps both: it is not marked unknown with
    confidence 0.  With a non-empty crop whose HSV conversion raises, the
    detection is marked unknown with confidence 0.5, not 0. *)
Lemma failed_detection_is_not_reset :
  (exists d',
     analyze_detection failing_cvtColor zero_var (NdArray blue_array)
       {| bbox := [PyInt 20; PyInt 20; PyInt 30; PyInt 30]; confidence := 0.5;
          class_name := "maduro"; area := 100; maturity := Some (Some "maduro");
          maturity_confidence := Some 0.9%float |} = Returns (Some d') /\
     region_size (crop blue_array 9 9 9 9) = 0%nat /\
     maturity d' = Some (Some "maduro") /\
     maturity d' <> Some (Some "unknown") /\
     maturity_confidence d' = Some 0.9%float) /\
  (exists d',
     analyze_detection failing_cvtColor zero_var (NdArray blue_array)
       (sample_detection [2; 3; 7; 8] None) = Returns (Some d') /\
     region_size (crop blue_array 3 8 2 7) = 75%nat /\
     maturity d' = Some (Some "unknown") /\
     maturity_confidence d' = Some 0.5%float /\
     0.5%float <> 0%float).
Proof.
  split.
  - eexists. split; [reflexivity|]. repeat split. discriminate.
  - eexists. split; [reflexivity|]. repeat split.
    apply float_neq_by_bits. vm_compute. discriminate.
Qed.

(** ** Unusable images *)

Section AppProperties.

Variable model_loaded : bool.
Variable yolo_predict : PyImage -> outcome (list Detection).
Variable color_segmentation : PyImage -> outcome (list Detection).
Variable cvtColor_RGB2HSV : Region -> outcome Region.
Variable np_var : list Z -> float.
Variable cv2_imread : string -> PyImage.
Variable cvtColor_BGR2RGB : PyImage -> outcome PyImage.



Lemma process_image_returns_only_on_array (t0 t1 : float) (image_path : string)
    (res : ProcessResult) :
  process_image model_loaded yolo_predict color_segmentation cvtColor_RGB2HSV
    np_var cv2_imread cvtColor_BGR2RGB t0 t1 image_path = Returns res ->
  exists (a : ndarray) (rgb : PyImage),
    cv2_imread image_path = NdArray a /\
    cvtColor_BGR2RGB (NdArray a) = Returns rgb.
Proof.
  unfold process_image, preprocess.
  destruct (cv2_imread image_path) as [|a]; [discriminate|].
  destruct (cvtColor_BGR2RGB (NdArray a)) as [rgb|e] eqn:Hcvt.
  - intros _. exists a, rgb. split; [reflexivity|exact Hcvt].
  - discriminate.
Qed.

(** C9.  [process_image], the entry point of the analysis, fails with an
    explicit error and returns no result for an image it cannot use.  For a
    null image (the file cannot be decoded) the error is "No se pudo cargar la
    imagen"; for an image the colour conversion of the preprocessing rejects
    it is the error of the preprocessing.  It returns a result only for a
    decoded array that the conversion accepted.  So with OpenCV's conversion,
    which rejects an array without rows or without columns, every null, empty
    or zero-dimension image ends in an error and never in a result, whatever
    the detection and the analysis behind it would do. *)
Theorem unusable_image_is_an_error :
  (forall (t0 t1 : float) (path : string),
     cv2_imread path = NoneImage ->
     process_image model_loaded yolo_predict color_segmentation cvtColor_RGB2HSV
       np_var cv2_imread cvtColor_BGR2RGB t0 t1 path
     = Raises (Exn "Exception" "Error procesando imagen: No se pudo cargar la imagen")) /\
  (forall (t0 t1 : float) (path : string) (a : ndarray) (e : exn),
     cv2_imread path = NdArray a ->
     cvtColor_BGR2RGB (NdArray a) = Raises e ->
     process_image model_loaded yolo_predict color_segmentation cvtColor_RGB2HSV
       np_var cv2_imread cvtColor_BGR2RGB t0 t1 path
     = Raises (Exn "Exception"
                 ("Error procesando imagen: " +:+ ("Error en preprocesamiento: " +:+ str e)))) /\
  (forall (t0 t1 : float) (path : string) (res : ProcessResult),
     process_image model_loaded yolo_predict color_segmentation cvtColor_RGB2HSV
       np_var cv2_imread cvtColor_BGR2RGB t0 t1 path = Returns res ->
     exists (a : ndarray) (rgb : PyImage),
       cv2_imread path = NdArray a /\ cvtColor_BGR2RGB (NdArray a) = Returns rgb) /\
  ((forall a : ndarray,
      unusable_image (NdArray a) -> exists e, cvtColor_BGR2RGB (NdArray a) = Raises e) ->
   forall (t0 t1 : float) (path : string),
     unusable_image (cv2_imread path) ->
     (exists msg : string,
        process_image model_loaded yolo_predict color_segmentation cvtColor_RGB2HSV
          np_var cv2_imread cvtColor_BGR2RGB t0 t1 path
        = Raises (Exn "Exception" ("Error procesando imagen: " +:+ msg))) /\
     (forall res : ProcessResult,
        process_image model_loaded yolo_predict color_segmentation cvtColor_RGB2HSV
          np_var cv2_imread cvtColor_BGR2RGB t0 t1 path <> Returns res)).
Proof.
  assert (Hnull : forall (t0 t1 : float) (path : string),
             cv2_imread path = NoneImage ->
             process_image model_loaded yolo_predict color_segmentation cvtColor_RGB2HSV
               np_var cv2_imread cvtColor_BGR2RGB t0 t1 path
             = Raises (Exn "Exception"
                         "Error procesando imagen: No se pudo cargar la imagen")).
  { intros t0 t1 path Hnone. unfold process_image. rewrite Hnone. reflexivity. }
  assert (Hcvt : forall (t0 t1 : float) (path : string) (a : ndarray) (e : exn),
             cv2_imread path = NdArray a ->
             cvtColor_BGR2RGB (NdArray a) = Raises e ->
             process_image model_loaded yolo_predict color_segmentation cvtColor_RGB2HSV
               np_var cv2_imread cvtColor_BGR2RGB t0 t1 path
             = Raises (Exn "Exception"
                         ("Error procesando imagen: "
                          +:+ ("Error en preprocesamiento: " +:+ str e)))).
  { intros t0 t1 path a e Hread He. unfold process_image, preprocess.
    rewrite Hread, He. reflexivity. }
  split; [exact Hnull|]. split; [exact Hcvt|].
  split; [exact process_image_returns_only_on_array|].
  intros Hopencv t0 t1 path Hbad.
  assert (Hraises : exists msg : string,
             process_image model_loaded yolo_predict color_segmentation cvtColor_RGB2HSV
               np_var cv2_imread cvtColor_BGR2RGB t0 t1 path
             = Raises (Exn "Exception" ("Error procesando imagen: " +:+ msg))).
  { destruct (cv2_imread path) as [|a] eqn:Hread.
    - eexists. apply Hnull, Hread.
    - destruct (Hopencv a Hbad) as [e He]. eexists. exact (Hcvt t0 t1 path a e Hread He). }
  split; [exact Hraises|].
  intros res Hres. destruct Hraises as [msg Hmsg]. congruence.
Qed.

End AppProperties.

(** A file that decodes to an array without rows and columns, with a
    conversion that rejects such arrays as OpenCV's does. *)
Lemma unusable_image_is_an_error_witness :
  (exists msg : string,
     process_image true failing_detector failing_detector failing_cvtColor zero_var
       (fun _ => NdArray empty_array) swap_red_blue 0 1 "uploads/empty.jpg"
     = Raises (Exn "Exception" ("Error procesando imagen: " +:+ msg))) /\
  (forall res : ProcessResult,
     process_image true failing_detector failing_detector failing_cvtColor zero_var
       (fun _ => NdArray empty_array) swap_red_blue 0 1 "uploads/empty.jpg"
     <> Returns res).
Proof.
  apply (proj2 (proj2 (proj2
           (unusable_image_is_an_error true failing_detector failing_detector
              failing_cvtColor zero_var (fun _ => NdArray empty_array) swap_red_blue)))).
  - intros a Hbad. unfold swap_red_blue.
    destruct Hbad as [H|H]; rewrite H; [|rewrite orb_true_r]; eexists; reflexivity.
  - left. reflexivity.
Defined.

(** A file that cannot be decoded. *)
Example undecodable_file_is_an_error :
  process_image true failing_detector failing_detector failing_cvtColor zero_var
    (fun _ => NoneImage) (fun image => Returns image) 0 1 "uploads/broken.jpg"
  = Raises (Exn "Exception" "Error procesando imagen: No se pudo cargar la imagen").
Proof. reflexivity. Qed.

(* ===================================================================== *)
(** * Part III. Further properties of the code                             *)
(* ===================================================================== *)

(** ** More order facts on binary64 values *)

Lemma float_ltb_leb (x y : float) :
  PrimFloat.ltb x y = true -> PrimFloat.leb x y = true.
Proof.
  rewrite FloatAxioms.ltb_spec, FloatAxioms.leb_spec. unfold SFltb, SFleb.
  destruct (SFcompare (Prim2SF x) (Prim2SF y)) as [[]|]; congruence.
Qed.

(** What compares below or equal to something is a number. *)
Lemma float_leb_not_nan (x y : float) :
  PrimFloat.leb x y = true -> PrimFloat.is_nan y = false.
Proof.
  rewrite FloatAxioms.leb_spec. unfold PrimFloat.is_nan.
  rewrite FloatAxioms.eqb_spec. unfold SFleb, SFeqb.
  destruct (Prim2SF x) as [sx|sx| |sx mx ex], (Prim2SF y) as [sy|sy| |sy my ey];
    simpl; try discriminate; intros _; try reflexivity;
    try (destruct sy; reflexivity);
    destruct sy; rewrite Z.compare_refl, Pos.compare_cont_refl; reflexivity.
Qed.

(** [min(hi, max(lo, t))] lands in [[lo, hi]] for every [t], not-a-number
    included. *)
Lemma py_clamp_between (lo hi t : float) :
  PrimFloat.leb lo lo = true -> PrimFloat.leb hi hi = true ->
  PrimFloat.ltb lo hi = true ->
  PrimFloat.leb lo (py_min hi (py_max lo t)) = true /\
  PrimFloat.leb (py_min hi (py_max lo t)) hi = true.
Proof.
  intros Hlo Hhi Hlt. unfold py_min, py_max.
  destruct (PrimFloat.ltb lo t) eqn:Ht.
  - destruct (PrimFloat.ltb t hi) eqn:Hu.
    + split; apply float_ltb_leb; assumption.
    + split; [apply float_ltb_leb; assumption | assumption].
  - rewrite Hlt. split; [assumption | apply float_ltb_leb; assumption].
Qed.

(** ** The maturity confidence *)

Section ConfidenceProperties.

Variable cvtColor_RGB2HSV : Region -> outcome Region.
Variable np_var : list Z -> float.

Lemma maturity_confidence_in_unit_interval_aux (berry_region : Region) :
  let c := _calculate_maturity_confidence cvtColor_RGB2HSV np_var berry_region in
  PrimFloat.leb 0 c = true /\ PrimFloat.leb c 1 = true.
Proof.
  intros c. subst c. unfold _calculate_maturity_confidence.
  destruct (cvtColor_RGB2HSV berry_region) as [hsv|e].
  - apply py_clamp_between; reflexivity.
  - vm_compute. split; reflexivity.
Qed.

(** X1.  The maturity confidence lies in [[0, 1]] for every region, every
    outcome of the HSV conversion and every value of the hue variance,
    not-a-number and infinities included; it is never not-a-number. *)
Theorem maturity_confidence_in_unit_interval (berry_region : Region) :
  let c := _calculate_maturity_confidence cvtColor_RGB2HSV np_var berry_region in
  PrimFloat.leb 0 c = true /\ PrimFloat.leb c 1 = true /\ PrimFloat.is_nan c = false.
Proof.
  intros c. subst c. unfold _calculate_maturity_confidence.
  destruct (cvtColor_RGB2HSV berry_region) as [hsv|e].
  - destruct (py_clamp_between 0 1 (1 - np_var (channel ch0 hsv) / 1000)%float
                eq_refl eq_refl eq_refl) as [H0 H1].
    repeat split; [exact H0 | exact H1 |].
    apply (float_leb_not_nan _ _ H0).
  - vm_compute. repeat split.
Qed.

End ConfidenceProperties.

(** ** Crops and normalised boxes *)

Lemma slice_indices_length (n : nat) (a b : Z) :
  0 <= a <= b -> b <= Z.of_nat n ->
  length (slice_indices n a b) = Z.to_nat (b - a).
Proof.
  intros Hab Hbn. unfold slice_indices, slice_bound.
  destruct (Z.ltb_spec a 0); [lia|]. destruct (Z.ltb_spec b 0); [lia|].
  rewrite length_seq. lia.
Qed.

Lemma concat_map_const_length {A B C} (f : A -> B -> C) (rows : list A) (cols : list B) :
  length (concat (map (fun y => map (f y) cols) rows)) = (length rows * length cols)%nat.
Proof.
  induction rows as [|y rows IH]; [reflexivity|].
  cbn [map concat]. rewrite length_app, length_map, IH. simpl. lia.
Qed.

Lemma region_size_crop (a : ndarray) (y1 y2 x1 x2 : Z) :
  0 <= x1 <= x2 -> x2 <= Z.of_nat (shape1 a) ->
  0 <= y1 <= y2 -> y2 <= Z.of_nat (shape0 a) ->
  region_size (crop a y1 y2 x1 x2) = (3 * (Z.to_nat (y2 - y1) * Z.to_nat (x2 - x1)))%nat.
Proof.
  intros Hx Hxw Hy Hyh. unfold region_size, crop.
  rewrite (concat_map_const_length (getpixel a)).
  rewrite !slice_indices_length by assumption. reflexivity.
Qed.

(** One axis of the normalisation, applied to its own result. *)
Lemma normalize_axis_idempotent (w p1 p2 : Z) :
  let a := Z.max 0 (Z.min p1 (w - 1)) in
  let b0 := Z.max 0 (Z.min p2 (w - 1)) in
  let b := if b0 <=? a then Z.min (w - 1) (a + 1) else b0 in
  Z.max 0 (Z.min a (w - 1)) = a /\
  (if Z.max 0 (Z.min b (w - 1)) <=? Z.max 0 (Z.min a (w - 1))
   then Z.min (w - 1) (Z.max 0 (Z.min a (w - 1)) + 1)
   else Z.max 0 (Z.min b (w - 1))) = b.
Proof.
  intros a b0 b. assert (Ha : Z.max 0 (Z.min a (w - 1)) = a) by (subst a; lia).
  split; [exact Ha|]. rewrite Ha. subst b.
  destruct (Z.leb_spec b0 a) as [H|H].
  - destruct (Z.leb_spec (Z.max 0 (Z.min (Z.min (w - 1) (a + 1)) (w - 1))) a); subst a b0; lia.
  - destruct (Z.leb_spec (Z.max 0 (Z.min b0 (w - 1))) a); subst a b0; lia.
Qed.

(** Normalising a normalised box changes nothing. *)
Lemma normalize_bbox_idempotent (w h x1 y1 x2 y2 : Z) :
  let '(x1n, y1n, x2n, y2n) := normalize_bbox w h x1 y1 x2 y2 in
  normalize_bbox w h x1n y1n x2n y2n = (x1n, y1n, x2n, y2n).
Proof.
  unfold normalize_bbox. cbv zeta.
  destruct (normalize_axis_idempotent w x1 x2) as [Hx1 Hx2].
  destruct (normalize_axis_idempotent h y1 y2) as [Hy1 Hy2].
  cbv zeta in Hx1, Hx2, Hy1, Hy2.
  rewrite Hx2, Hy2, Hx1, Hy1. reflexivity.
Qed.

(** ** What the analysis does to a detection *)

Lemma Detection_eq (d1 d2 : Detection) :
  bbox d1 = bbox d2 -> confidence d1 = confidence d2 ->
  class_name d1 = class_name d2 -> area d1 = area d2 ->
  maturity d1 = maturity d2 -> maturity_confidence d1 = maturity_confidence d2 ->
  d1 = d2.
Proof. destruct d1, d2; simpl; intros; subst; reflexivity. Qed.

Section AnalysisProperties.

Variable cvtColor_RGB2HSV : Region -> outcome Region.
Variable np_var : list Z -> float.

Lemma berry_maturity_in_classes (region : Region) :
  _analyze_berry_maturity cvtColor_RGB2HSV region ∈ CLASS_LABELS.
Proof.
  unfold _analyze_berry_maturity, CLASS_LABELS.
  destruct (cvtColor_RGB2HSV region) as [hsv|e]; [|repeat constructor].
  repeat match goal with
         | |- context [if ?b then _ else _] => destruct b
         end; repeat constructor.
Qed.

Lemma stored_label_in_classes (d : Detection) (region : Region) :
  stored_label cvtColor_RGB2HSV d region ∈ CLASS_LABELS.
Proof.
  unfold stored_label.
  destruct (maturity d) as [[label|]|]; try apply berry_maturity_in_classes.
  case_bool_decide as Hin; [|apply berry_maturity_in_classes].
  unfold MODEL_LABELS in Hin. unfold CLASS_LABELS.
  repeat (apply elem_of_cons in Hin as [->|Hin]; [repeat constructor|]).
  apply elem_of_nil in Hin. contradiction.
Qed.

(** The label stored for a non-empty crop is stored again on a second look. *)
Lemma stored_label_stable (d d' : Detection) (region : Region) :
  maturity d' = Some (Some (stored_label cvtColor_RGB2HSV d region)) ->
  stored_label cvtColor_RGB2HSV d' region = stored_label cvtColor_RGB2HSV d region.
Proof.
  intros Hm. unfold stored_label at 1. rewrite Hm.
  case_bool_decide as Hin; [reflexivity|].
  unfold stored_label in *. destruct (maturity d) as [[label|]|]; try reflexivity.
  case_bool_decide as Hin'; [contradiction|reflexivity].
Qed.

Lemma analyze_detection_proper_box (a : ndarray) (d : Detection) (x1 y1 x2 y2 : Z) :
  (2 <= shape1 a)%nat -> (2 <= shape0 a)%nat ->
  bbox d = [PyInt x1; PyInt y1; PyInt x2; PyInt y2] ->
  x1 < Z.of_nat (shape1 a) - 1 -> y1 < Z.of_nat (shape0 a) - 1 ->
  exists (d' : Detection) (label : string) (c : float),
    analyze_detection cvtColor_RGB2HSV np_var (NdArray a) d = Returns (Some d') /\
    maturity d' = Some (Some label) /\ label ∈ CLASS_LABELS /\
    maturity_confidence d' = Some c /\
    PrimFloat.leb 0 c = true /\ PrimFloat.leb c 1 = true.
Proof.
  intros Hw Hh Hb Hx Hy.
  destruct (analyze_detection_on_array cvtColor_RGB2HSV np_var a d x1 y1 x2 y2 Hb)
    as (d' & Hd' & _ & _ & _ & Hrest).
  pose proof (normalize_bbox_inside (Z.of_nat (shape1 a)) (Z.of_nat (shape0 a))
                x1 y1 x2 y2 ltac:(lia) ltac:(lia)) as Hin.
  destruct (normalize_bbox (Z.of_nat (shape1 a)) (Z.of_nat (shape0 a)) x1 y1 x2 y2)
    as [[[x1n y1n] x2n] y2n].
  destruct Hin as (Hx1 & Hx2 & Hy1 & Hy2 & Hsx & Hsy).
  specialize (Hsx ltac:(lia) Hx). specialize (Hsy ltac:(lia) Hy).
  destruct Hrest as (_ & Hfull & _).
  destruct Hfull as [Hm Hc].
  { rewrite region_size_crop by lia.
    destruct (Z.to_nat (y2n - y1n)) eqn:Hrows; [lia|].
    destruct (Z.to_nat (x2n - x1n)) eqn:Hcols; [lia|]. simpl. discriminate. }
  destruct (maturity_confidence_in_unit_interval_aux cvtColor_RGB2HSV np_var
              (crop a y1n y2n x1n x2n)) as [H0 H1].
  eexists d', _, _. split; [exact Hd'|]. split; [exact Hm|].
  split; [apply stored_label_in_classes|]. split; [exact Hc|]. split; assumption.
Qed.

(** X2.  On an image at least two pixels wide and high, a detection whose
    box holds four integers with [x1 < w - 1] and [y1 < h - 1] leaves the
    analysis with one of the four class labels and with a maturity confidence
    in [[0, 1]]. *)
Theorem analyzed_detection_is_classified (a : ndarray) (d : Detection) (x1 y1 x2 y2 : Z) :
  (2 <= shape1 a)%nat -> (2 <= shape0 a)%nat ->
  bbox d = [PyInt x1; PyInt y1; PyInt x2; PyInt y2] ->
  x1 < Z.of_nat (shape1 a) - 1 -> y1 < Z.of_nat (shape0 a) - 1 ->
  exists (d' : Detection) (label : string) (c : float),
    analyze_detection cvtColor_RGB2HSV np_var (NdArray a) d = Returns (Some d') /\
    maturity d' = Some (Some label) /\ label ∈ CLASS_LABELS /\
    maturity_confidence d' = Some c /\
    PrimFloat.leb 0 c = true /\ PrimFloat.leb c 1 = true.
Proof. exact (analyze_detection_proper_box a d x1 y1 x2 y2). Qed.

(** X3.  The analysis of a detection is idempotent: a detection it has
    produced is reproduced unchanged (box, detector fields, maturity and
    maturity confidence) when analysed again on the same image. *)
Theorem analyze_detection_idempotent (image : PyImage) (d d' : Detection) :
  analyze_detection cvtColor_RGB2HSV np_var image d = Returns (Some d') ->
  analyze_detection cvtColor_RGB2HSV np_var image d' = Returns (Some d').
Proof.
  intros Hrun.
  destruct (analyze_detection_returns_some _ _ image d d' Hrun)
    as (a & x1 & y1 & x2 & y2 & -> & Hb).
  destruct (analyze_detection_on_array cvtColor_RGB2HSV np_var a d x1 y1 x2 y2 Hb)
    as (d0 & Hd0 & Hc0 & Hn0 & Ha0 & Hrest).
  rewrite Hrun in Hd0. injection Hd0 as <-.
  pose proof (normalize_bbox_idempotent (Z.of_nat (shape1 a)) (Z.of_nat (shape0 a))
                x1 y1 x2 y2) as Hidem.
  destruct (normalize_bbox (Z.of_nat (shape1 a)) (Z.of_nat (shape0 a)) x1 y1 x2 y2)
    as [[[x1n y1n] x2n] y2n].
  destruct Hrest as (Hbox & Hfull & Hempty).
  destruct (analyze_detection_on_array cvtColor_RGB2HSV np_var a d' x1n y1n x2n y2n Hbox)
    as (d'' & Hd'' & Hc'' & Hn'' & Ha'' & Hrest'').
  rewrite Hidem in Hrest''. destruct Hrest'' as (Hbox'' & Hfull'' & Hempty'').
  rewrite Hd''. do 2 f_equal.
  apply Detection_eq; try congruence.
  - destruct (decide (region_size (crop a y1n y2n x1n x2n) = 0%nat)) as [Hz|Hnz].
    + destruct (Hempty'' Hz) as [-> _]. destruct (Hempty Hz) as [-> _]. reflexivity.
    + destruct (Hfull'' Hnz) as [-> _]. destruct (Hfull Hnz) as [Hm _].
      rewrite (stored_label_stable d d' _ Hm). symmetry. exact Hm.
  - destruct (decide (region_size (crop a y1n y2n x1n x2n) = 0%nat)) as [Hz|Hnz].
    + destruct (Hempty'' Hz) as [_ ->]. destruct (Hempty Hz) as [_ ->]. reflexivity.
    + destruct (Hfull'' Hnz) as [_ ->]. destruct (Hfull Hnz) as [_ ->]. reflexivity.
Qed.

Lemma analyze_detection_keeps_detector_fields (image : PyImage) (d d' : Detection) :
  analyze_detection cvtColor_RGB2HSV np_var image d = Returns (Some d') ->
  confidence d' = confidence d /\ class_name d' = class_name d /\ area d' = area d.
Proof.
  intros Hrun.
  destruct (analyze_detection_returns_some _ _ image d d' Hrun)
    as (a & x1 & y1 & x2 & y2 & -> & Hb).
  destruct (analyze_detection_on_array cvtColor_RGB2HSV np_var a d x1 y1 x2 y2 Hb)
    as (d0 & Hd0 & Hc & Hn & Ha & _).
  rewrite Hrun in Hd0. injection Hd0 as <-. auto.
Qed.

Lemma analyze_loop_keeps_detector_fields (image : PyImage) (ds out : list Detection) :
  analyze_loop cvtColor_RGB2HSV np_var image ds = Returns out ->
  confidence <$> out = confidence <$> filter (fun d => length (bbox d) = 4%nat) ds /\
  class_name <$> out = class_name <$> filter (fun d => length (bbox d) = 4%nat) ds /\
  area <$> out = area <$> filter (fun d => length (bbox d) = 4%nat) ds.
Proof.
  revert out. induction ds as [|d ds IH]; intros out.
  - simpl. intros [= <-]. repeat split.
  - cbn [analyze_loop]. intros Hrun. rewrite filter_cons.
    destruct (analyze_detection cvtColor_RGB2HSV np_var image d) as [[d'|]|e] eqn:Hd;
      cbn [mbind outcome_bind] in Hrun; try discriminate;
      destruct (analyze_loop cvtColor_RGB2HSV np_var image ds) as [rs|e'];
      cbn [mbind outcome_bind mret outcome_ret] in Hrun; try discriminate;
      injection Hrun as <-; destruct (IH rs eq_refl) as (Hc & Hn & Ha).
    + destruct (analyze_detection_returns_some _ _ _ _ _ Hd)
        as (a & x1 & y1 & x2 & y2 & _ & Hb).
      destruct (analyze_detection_keeps_detector_fields _ _ _ Hd) as (Hc' & Hn' & Ha').
      rewrite decide_True by (rewrite Hb; reflexivity).
      rewrite !fmap_cons, Hc, Hn, Ha, Hc', Hn', Ha'. repeat split.
    + rewrite decide_False
        by (apply (analyze_detection_none cvtColor_RGB2HSV np_var image), Hd).
      repeat split; assumption.
Qed.

Lemma analyze_maturity_result (t0 t1 : float) (ds : list Detection)
    (image : PyImage) :
  exists r : MaturityAnalysis,
    analyze_maturity cvtColor_RGB2HSV np_var t0 t1 ds image = Returns r /\
    total_detected r = length (detections r) /\
    (length (detections r) <= length ds)%nat /\
    (r = fallback_analysis \/
     let kept := filter (fun d => length (bbox d) = 4%nat) ds in
     confidence <$> detections r = confidence <$> kept /\
     class_name <$> detections r = class_name <$> kept /\
     area <$> detections r = area <$> kept).
Proof.
  unfold analyze_maturity, analyze_maturity_body.
  destruct (analyze_loop cvtColor_RGB2HSV np_var image ds) as [out|e] eqn:Hloop;
    cbn [mbind outcome_bind].
  - destruct (image_shape image) as [[img_h img_w]|e];
      cbn [mbind outcome_bind mret outcome_ret try_except].
    + eexists. split; [reflexivity|]. cbn [total_detected detections].
      pose proof (analyze_loop_keeps_detector_fields image ds out Hloop) as Hk.
      split; [reflexivity|]. split.
      * destruct Hk as [Hc _]. apply (f_equal length) in Hc.
        rewrite !length_fmap in Hc. rewrite Hc. apply length_filter.
      * right. exact Hk.
    + exists fallback_analysis. repeat split; [apply Nat.le_0_l | left; reflexivity].
  - exists fallback_analysis. cbn [try_except mret outcome_ret].
    repeat split; [apply Nat.le_0_l | left; reflexivity].
Qed.

(** X4.  [analyze_maturity] always returns a result whose [total_detected]
    is the number of detections it lists.  Unless it is the fallback record,
    it lists exactly the detections with a four-entry box, in their order, with
    the confidence, class and area the detector gave them. *)
Theorem analysis_keeps_detector_fields (t0 t1 : float) (ds : list Detection)
    (image : PyImage) :
  exists r : MaturityAnalysis,
    analyze_maturity cvtColor_RGB2HSV np_var t0 t1 ds image = Returns r /\
    total_detected r = length (detections r) /\
    (length (detections r) <= length ds)%nat /\
    (r = fallback_analysis \/
     let kept := filter (fun d => length (bbox d) = 4%nat) ds in
     confidence <$> detections r = confidence <$> kept /\
     class_name <$> detections r = class_name <$> kept /\
     area <$> detections r = area <$> kept).
Proof. exact (analyze_maturity_result t0 t1 ds image). Qed.

Lemma analyze_loop_proper_boxes (a : ndarray) (ds : list Detection) :
  (2 <= shape1 a)%nat -> (2 <= shape0 a)%nat ->
  Forall (fun d => exists x1 y1 x2 y2 : Z,
            bbox d = [PyInt x1; PyInt y1; PyInt x2; PyInt y2] /\
            x1 < Z.of_nat (shape1 a) - 1 /\ y1 < Z.of_nat (shape0 a) - 1) ds ->
  exists out,
    analyze_loop cvtColor_RGB2HSV np_var (NdArray a) ds = Returns out /\
    length out = length ds /\
    Forall (fun d' => counted_as d' ∈
              [Some "maduro"; Some "semimaduro"; Some "no_maduro"; Some "unknown"]) out.
Proof.
  intros Hw Hh. induction 1 as [|d ds (x1 & y1 & x2 & y2 & Hb & Hx & Hy) _ (out & Hout & Hlen & Hall)].
  - exists []. repeat split. constructor.
  - destruct (analyze_detection_proper_box a d x1 y1 x2 y2 Hw Hh Hb Hx Hy)
      as (d' & label & c & Hd' & Hm & Hin & _).
    exists (d' :: out). cbn [analyze_loop]. rewrite Hd', Hout.
    split; [reflexivity|]. split; [simpl; congruence|].
    constructor; [|exact Hall]. unfold counted_as. rewrite Hm. simpl.
    unfold CLASS_LABELS in Hin.
    repeat (apply elem_of_cons in Hin as [->|Hin]; [repeat constructor|]).
    apply elem_of_nil in Hin. contradiction.
Qed.

(** X5.  On an image at least two pixels wide and high, when every
    detection has a box of four integers with [x1 < w - 1] and [y1 < h - 1],
    the analysis keeps them all and the aggregator, fed with its result,
    returns a distribution whose total is their number and whose four class
    counts sum to it: no detection is lost or counted outside the four
    classes between the two stages. *)
Theorem proper_boxes_are_all_counted (t0 t1 : float) (a : ndarray) (ds : list Detection) :
  (2 <= shape1 a)%nat -> (2 <= shape0 a)%nat ->
  Forall (fun d => exists x1 y1 x2 y2 : Z,
            bbox d = [PyInt x1; PyInt y1; PyInt x2; PyInt y2] /\
            x1 < Z.of_nat (shape1 a) - 1 /\ y1 < Z.of_nat (shape0 a) - 1) ds ->
  exists (r : MaturityAnalysis) (dist : MaturityDistribution),
    analyze_maturity cvtColor_RGB2HSV np_var t0 t1 ds (NdArray a) = Returns r /\
    total_detected r = length ds /\
    _analyze_maturity_distribution r = Returns (Distribution dist) /\
    total_analyzed dist = length ds /\
    (dict_get (counts dist) "maduro" + dict_get (counts dist) "semimaduro" +
     dict_get (counts dist) "no_maduro" + dict_get (counts dist) "unknown")%nat
    = length ds.
Proof.
  intros Hw Hh Hall.
  destruct (analyze_loop_proper_boxes a ds Hw Hh Hall) as (out & Hout & Hlen & Hcls).
  unfold analyze_maturity, analyze_maturity_body. rewrite Hout.
  cbn [mbind outcome_bind image_shape mret outcome_ret try_except].
  eexists.
  match goal with
  | |- exists dist, Returns ?r = _ /\ _ =>
      destruct (analyze_maturity_distribution_returns r) as (dist & Hd & Hc & Ht & _)
  end.
  cbn [detections] in Hc, Ht.
  exists dist. split; [reflexivity|]. cbn [total_detected].
  split; [exact Hlen|]. split; [exact Hd|]. split; [congruence|].
  rewrite Hc, !dict_get_count_detections by (repeat constructor).
  rewrite (count_label_partition out Hcls). exact Hlen.
Qed.

End AnalysisProperties.

(** ** The counting dictionary and the percentages, key by key *)

(** A bucket that does not exist appears with the first detection counted
    under it. *)
Lemma counts_lookup_foldl_fresh (ds : list Detection) (d : gmap (option string) nat) key :
  d !! key = None ->
  foldl count_detection d ds !! key =
    if (count_label key ds =? 0)%nat then None else Some (count_label key ds).
Proof.
  revert d. induction ds as [|x ds IH]; intros d Hnone; simpl.
  - exact Hnone.
  - unfold count_label. rewrite filter_cons.
    destruct (decide (counted_as x = key)) as [Heq|Hne].
    + rewrite (counts_lookup_foldl ds _ key 1%nat).
      * reflexivity.
      * unfold count_detection. fold (counted_as x). rewrite Heq, Hnone.
        apply lookup_insert_eq.
    + apply IH. unfold count_detection. fold (counted_as x).
      rewrite lookup_insert_ne by exact Hne. exact Hnone.
Qed.

Lemma count_detections_lookup (ds : list Detection) (key : option string) :
  count_detections ds !! key =
    if bool_decide (key ∈ [Some "maduro"; Some "semimaduro";
                           Some "no_maduro"; Some "unknown"])
    then Some (count_label key ds)
    else if (count_label key ds =? 0)%nat then None
         else Some (count_label key ds).
Proof.
  unfold count_detections. case_bool_decide as Hin.
  - rewrite (counts_lookup_foldl ds _ key 0%nat); [reflexivity|].
    unfold initial_counts.
    repeat (apply elem_of_cons in Hin as [->|Hin]; [reflexivity|]).
    apply elem_of_nil in Hin. contradiction.
  - apply counts_lookup_foldl_fresh. unfold initial_counts.
    assert (Hfresh : forall label,
              In (Some label) [Some "maduro"; Some "semimaduro";
                               Some "no_maduro"; Some "unknown"] ->
              Some label <> key).
    { intros label Hl <-. apply Hin, list_elem_of_In, Hl. }
    rewrite !lookup_insert_ne by (apply Hfresh; simpl; tauto).
    reflexivity.
Qed.

(** X6.  The counting dictionary, key by key: each of the four class keys
    is always present and holds the number of detections counted under it
    (possibly 0); any other key, a foreign label or [None], is present exactly
    when some detection carries it, and then holds their number. *)
Theorem counts_lookup (ds : list Detection) (key : option string) :
  count_detections ds !! key =
    if bool_decide (key ∈ [Some "maduro"; Some "semimaduro";
                           Some "no_maduro"; Some "unknown"])
    then Some (count_label key ds)
    else if (count_label key ds =? 0)%nat then None
         else Some (count_label key ds).
Proof. exact (count_detections_lookup ds key). Qed.

Lemma percentages_loop_lookup (total : nat) (items : list (option string * nat))
    (acc : gmap (option string) float) :
  total <> 0%nat -> NoDup items.*1 ->
  exists p,
    percentages_loop total items acc = Returns p /\
    forall key,
      p !! key = match (list_to_map items : gmap (option string) nat) !! key with
                 | Some count => Some (percentage_of total count)
                 | None => acc !! key
                 end.
Proof.
  intros Hpos. revert acc.
  induction items as [|[k c] items IH]; intros acc Hnd.
  - exists acc. split; [reflexivity|]. intros key.
    cbn [list_to_map foldr]. rewrite lookup_empty. reflexivity.
  - apply NoDup_cons in Hnd as [Hk Hnd].
    cbn [percentages_loop]. unfold py_truediv_int.
    rewrite (proj2 (Nat.eqb_neq total 0) Hpos). cbn [mbind outcome_bind].
    destruct (IH (<[k := py_round (float_of_nat c / float_of_nat total * 100)%float 1]> acc) Hnd)
      as (p & Hp & Hlook).
    exists p. split; [exact Hp|]. intros key. rewrite Hlook.
    cbn [list_to_map foldr fst snd].
    destruct (decide (k = key)) as [->|Hne].
    + rewrite (not_elem_of_list_to_map_1 _ _ Hk), !lookup_insert_eq. reflexivity.
    + rewrite !lookup_insert_ne by exact Hne. reflexivity.
Qed.

(** The distribution of a non-empty detection list, field by field. *)
Lemma analyze_maturity_distribution_nonempty (ma : MaturityAnalysis) :
  detections ma <> [] ->
  exists d : MaturityDistribution,
    _analyze_maturity_distribution ma = Returns (Distribution d) /\
    counts d = count_detections (detections ma) /\
    total_analyzed d = length (detections ma) /\
    forall key,
      percentages d !! key =
        percentage_of (length (detections ma)) <$> (count_detections (detections ma) !! key).
Proof.
  intros Hne. unfold _analyze_maturity_distribution.
  rewrite calculate_maturity_score_returns, counts_sum_length.
  assert (Hlen : length (detections ma) <> 0%nat).
  { destruct (detections ma); [contradiction|discriminate]. }
  destruct (percentages_loop_lookup (length (detections ma))
              (map_to_list (count_detections (detections ma))) ∅ Hlen
              (NoDup_fst_map_to_list _)) as (p & Hp & Hlook).
  destruct (length (detections ma)) as [|n] eqn:Hn; [contradiction|].
  cbn [Nat.ltb Nat.leb]. rewrite Hp.
  cbn [mbind outcome_bind mret outcome_ret try_except].
  eexists. split; [reflexivity|]. cbn [counts total_analyzed percentages].
  repeat split. intros key. rewrite Hlook, list_to_map_to_list.
  destruct (count_detections (detections ma) !! key); [reflexivity|apply lookup_empty].
Qed.

(** X7.  For a non-empty detection list the percentages dictionary has
    exactly the keys of the counting dictionary, and under each key the value
    [round((count / total) * 100, 1)] of the count stored under that key; so
    each of the four classes always has an entry. *)
Theorem percentages_follow_counts (ma : MaturityAnalysis) :
  detections ma <> [] ->
  exists d : MaturityDistribution,
    _analyze_maturity_distribution ma = Returns (Distribution d) /\
    (forall key,
       percentages d !! key = percentage_of (total_analyzed d) <$> (counts d !! key)) /\
    (forall label, label ∈ CLASS_LABELS ->
       percentages d !! Some label =
         Some (percentage_of (length (detections ma))
                 (count_label (Some label) (detections ma)))).
Proof.
  intros Hne.
  destruct (analyze_maturity_distribution_nonempty ma Hne) as (d & Hd & Hc & Ht & Hp).
  exists d. split; [exact Hd|]. split.
  - intros key. rewrite Hp, Hc, Ht. reflexivity.
  - intros label Hin. rewrite Hp.
    assert (Hlook : count_detections (detections ma) !! Some label
                    = Some (count_label (Some label) (detections ma))).
    { unfold count_detections.
      rewrite (counts_lookup_foldl _ _ _ 0%nat); [reflexivity|].
      unfold initial_counts, CLASS_LABELS in *.
      repeat (apply elem_of_cons in Hin as [->|Hin]; [reflexivity|]).
      apply elem_of_nil in Hin. contradiction. }
    rewrite Hlook. reflexivity.
Qed.

(** ** Recommendations and reports never fail *)

Lemma recommendation_band_exists (score : float) :
  exists b : harvest_band,
    _get_harvest_recommendation score = harvest_text b /\
    _get_timing_recommendation score = timing_text b /\
    _get_next_steps score = next_steps_text b.
Proof.
  unfold _get_harvest_recommendation, _get_timing_recommendation, _get_next_steps.
  destruct (PrimFloat.leb 80 score); [exists Immediate; auto|].
  destruct (PrimFloat.leb 60 score); [exists Days2to3; auto|].
  destruct (PrimFloat.leb 40 score); [exists Days5to7; auto|].
  destruct (PrimFloat.leb 20 score); [exists Days10to14; auto|].
  exists DoNotHarvest; auto.
Qed.

Lemma quality_assessment_returns (counts0 : gmap (option string) nat) :
  exists q : string,
    _get_quality_assessment counts0 = Returns q /\ q ∈ QUALITY_TEXTS /\
    (dict_sum counts0 = 0%nat -> q = "No se detectaron frutos").
Proof.
  unfold _get_quality_assessment, py_truediv_int, QUALITY_TEXTS.
  destruct (dict_sum counts0 =? 0)%nat eqn:Hz.
  - eexists. split; [reflexivity|]. split; [repeat constructor|reflexivity].
  - apply Nat.eqb_neq in Hz. cbn [mbind outcome_bind mret outcome_ret].
    repeat match goal with
           | |- context [if PrimFloat.leb ?a ?b then _ else _] =>
               destruct (PrimFloat.leb a b)
           end;
      (eexists; split; [reflexivity|]; split; [repeat constructor|contradiction]).
Qed.

Lemma generate_recommendations_returns (maturity_dist : DistributionDict) :
  exists (b : harvest_band) (q : string),
    _generate_recommendations maturity_dist
      = Returns (Recs {| harvest_recommendation := harvest_text b;
                         timing_recommendation := timing_text b;
                         quality_assessment := q;
                         next_steps := next_steps_text b |}) /\
    q ∈ QUALITY_TEXTS /\
    (dict_sum (get_counts maturity_dist) = 0%nat -> q = "No se detectaron frutos").
Proof.
  unfold _generate_recommendations.
  destruct (recommendation_band_exists (get_maturity_score maturity_dist))
    as (b & -> & -> & ->).
  destruct (quality_assessment_returns (get_counts maturity_dist)) as (q & -> & Hq & Hz).
  exists b, q. split; [reflexivity|]. split; assumption.
Qed.

(** X8.  [_generate_recommendations] never returns its error dictionary,
    whatever dictionary it is given: the harvest text, the timing text and the
    next steps are always those of one and the same band, and the quality text
    is one of the five quality texts.  Given the error dictionary of the
    aggregator it answers with the do-not-harvest band and the no-fruit text. *)
Theorem recommendations_never_fail (maturity_dist : DistributionDict) :
  exists (b : harvest_band) (q : string),
    _generate_recommendations maturity_dist
      = Returns (Recs {| harvest_recommendation := harvest_text b;
                         timing_recommendation := timing_text b;
                         quality_assessment := q;
                         next_steps := next_steps_text b |}) /\
    q ∈ QUALITY_TEXTS /\
    (forall msg, maturity_dist = DistributionError msg ->
       b = DoNotHarvest /\ q = "No se detectaron frutos").
Proof.
  destruct maturity_dist as [d|msg0].
  - destruct (generate_recommendations_returns (Distribution d)) as (b & q & Hr & Hq & _).
    exists b, q. split; [exact Hr|]. split; [exact Hq|]. intros msg [=].
  - exists DoNotHarvest, "No se detectaron frutos".
    split; [reflexivity|]. split; [repeat constructor|]. auto.
Qed.

Lemma generate_report_returns (ma : MaturityAnalysis) :
  exists (d : MaturityDistribution) (r : Recommendations),
    generate_report ma
      = Returns {| report_maturity_analysis := Distribution d;
                   report_recommendations := Recs r;
                   report_processing_time_ms := processing_time ma;
                   report_image_resolution := image_resolution ma |} /\
    counts d = count_detections (detections ma) /\
    total_analyzed d = length (detections ma) /\
    harvest_recommendation r = _get_harvest_recommendation (maturity_score d).
Proof.
  destruct (analyze_maturity_distribution_returns ma) as (d & Hd & Hc & Ht & _).
  destruct (generate_recommendations_returns (Distribution d)) as (b & q & Hr & _).
  unfold generate_report. rewrite Hd. cbn [mbind outcome_bind].
  assert (Hb : harvest_text b = _get_harvest_recommendation (maturity_score d)).
  { unfold _generate_recommendations in Hr.
    destruct (_get_quality_assessment (get_counts (Distribution d))) as [q'|e];
      cbn [mbind outcome_bind mret outcome_ret try_except] in Hr; [|discriminate].
    injection Hr as Hh _ _ _. symmetry. exact Hh. }
  rewrite Hr. cbn [mbind outcome_bind mret outcome_ret try_except].
  eexists d, _. split; [reflexivity|]. cbn [harvest_recommendation]. auto.
Qed.

(** X9.  [generate_report] never raises: for every analysis result it
    returns a report holding a proper distribution and proper recommendations
    (neither is an error dictionary), whose total is the number of detections
    analysed, whose class counts sum to it, and which copies the processing
    time and the resolution of the analysis. *)
Theorem generate_report_never_raises (ma : MaturityAnalysis) :
  exists (d : MaturityDistribution) (r : Recommendations),
    generate_report ma
      = Returns {| report_maturity_analysis := Distribution d;
                   report_recommendations := Recs r;
                   report_processing_time_ms := processing_time ma;
                   report_image_resolution := image_resolution ma |} /\
    total_analyzed d = length (detections ma) /\
    dict_sum (counts d) = length (detections ma) /\
    harvest_recommendation r = _get_harvest_recommendation (maturity_score d).
Proof.
  destruct (generate_report_returns ma) as (d & r & Hrep & Hc & Ht & Hh).
  exists d, r. split; [exact Hrep|]. split; [exact Ht|]. split; [|exact Hh].
  rewrite Hc. apply counts_sum_length.
Qed.

(** ** Detection and the whole pipeline *)

Section PipelineProperties.

Variable model_loaded : bool.
Variable yolo_predict : PyImage -> outcome (list Detection).
Variable color_segmentation : PyImage -> outcome (list Detection).
Variable cvtColor_RGB2HSV : Region -> outcome Region.
Variable np_var : list Z -> float.
Variable cv2_imread : string -> PyImage.
Variable cvtColor_BGR2RGB : PyImage -> outcome PyImage.

(** X10.  [detect] never raises and its own [except] clause is never
    entered.  With a model loaded, a non-empty YOLO answer is returned as it
    is and the colour detection decides only when YOLO found nothing or failed;
    without a model the colour detection decides alone. *)
Theorem detect_strategy (image : PyImage) :
  detect model_loaded yolo_predict color_segmentation image =
    Returns (if model_loaded then
               match strategy_result yolo_predict image with
               | [] => strategy_result color_segmentation image
               | yolo_dets => yolo_dets
               end
             else strategy_result color_segmentation image).
Proof.
  unfold detect, _yolo_detection, _color_based_detection, strategy_result.
  destruct model_loaded.
  - destruct (yolo_predict image) as [[|y ys]|e];
      destruct (color_segmentation image) as [[|c cs]|e']; reflexivity.
  - destruct (color_segmentation image) as [cs|e]; reflexivity.
Qed.



End PipelineProperties.

(** ** The colour-based detection *)

Lemma py_min_cap (cap q : float) :
  PrimFloat.leb cap cap = true -> PrimFloat.leb (py_min cap q) cap = true.
Proof.
  intros Hcap. unfold py_min.
  destruct (PrimFloat.ltb q cap) eqn:Hlt; [apply float_ltb_leb, Hlt|exact Hcap].
Qed.

(** The exact comparison is monotone in the integer. *)
Lemma float_lt_int_mono (x : float) (z1 z2 : Z) :
  z1 <= z2 -> float_lt_int x z1 = true -> float_lt_int x z2 = true.
Proof.
  intros Hle. unfold float_lt_int.
  destruct (Prim2SF x) as [s|s| |s m e]; try (intros H; exact H).
  - rewrite !Z.ltb_lt. lia.
  - destruct s, (Z.leb_spec 0 e); rewrite !Z.ltb_lt; try lia;
      assert (0 < 2 ^ (- e)) by (apply Z.pow_pos_nonneg; lia); nia.
Qed.

Lemma contour_detection_inv (img_area min_area : Z) (c : Contour) (d : Detection) :
  contour_detection img_area min_area c = Returns (Some d) ->
  color_record d /\ area d = contourArea c /\
  float_lt_int (contourArea c) min_area = false /\
  exists x y w h : Z,
    boundingRect c = (x, y, w, h) /\ 0 < h /\
    bbox d = [PyInt x; PyInt y; PyInt (x + w); PyInt (y + h)].
Proof.
  unfold contour_detection.
  destruct (float_lt_int (contourArea c) min_area) eqn:Hsmall; [discriminate|].
  destruct (boundingRect c) as [[[x y] w] h].
  destruct (Z.ltb_spec 0 h) as [Hh|Hh]; [|discriminate].
  destruct (PrimFloat.ltb (float_of_int w / float_of_int h) 0.5
            || PrimFloat.ltb 1.8 (float_of_int w / float_of_int h)); [discriminate|].
  unfold py_truediv_float.
  destruct (PrimFloat.eqb (0.02 * float_of_int img_area) 0); [discriminate|].
  cbn [mbind outcome_bind mret outcome_ret]. intros [= <-].
  cbn [area bbox]. split; [|split; [reflexivity|split; [reflexivity|]]].
  - unfold color_record. cbn [class_name maturity maturity_confidence bbox confidence].
    split; [reflexivity|]. split; [reflexivity|]. split; [reflexivity|].
    split; [eauto|]. apply py_min_cap. reflexivity.
  - exists x, y, w, h. auto.
Qed.

Lemma contour_loop_inv (img_area min_area : Z) (cs : list Contour) (ds : list Detection) :
  contour_loop img_area min_area cs = Returns ds ->
  (length ds <= length cs)%nat /\
  Forall (fun d => color_record d /\
                   float_lt_int (area d) min_area = false /\
                   exists c x y w h,
                     c ∈ cs /\ area d = contourArea c /\
                     boundingRect c = (x, y, w, h) /\ 0 < h /\
                     bbox d = [PyInt x; PyInt y; PyInt (x + w); PyInt (y + h)]) ds.
Proof.
  revert ds. induction cs as [|c cs IH]; intros ds.
  - simpl. intros [= <-]. split; [reflexivity|constructor].
  - cbn [contour_loop].
    destruct (contour_detection img_area min_area c) as [r|e] eqn:Hc;
      cbn [mbind outcome_bind]; [|discriminate].
    destruct (contour_loop img_area min_area cs) as [rest|e];
      cbn [mbind outcome_bind mret outcome_ret]; [|discriminate].
    destruct (IH rest eq_refl) as [Hlen Hall].
    assert (Hall' : Forall (fun d => color_record d /\
                   float_lt_int (area d) min_area = false /\
                   exists c0 x y w h,
                     c0 ∈ c :: cs /\ area d = contourArea c0 /\
                     boundingRect c0 = (x, y, w, h) /\ 0 < h /\
                     bbox d = [PyInt x; PyInt y; PyInt (x + w); PyInt (y + h)]) rest).
    { eapply Forall_impl; [exact Hall|].
      intros d (Hrec & Harea & c0 & x & y & w & h & Hin & Hrest).
      split; [exact Hrec|]. split; [exact Harea|].
      exists c0, x, y, w, h. split; [right; exact Hin|exact Hrest]. }
    intros [= <-]. destruct r as [d|].
    + split; [simpl; lia|]. constructor; [|exact Hall'].
      destruct (contour_detection_inv _ _ _ _ Hc)
        as (Hrec & Harea & Hbig & x & y & w & h & Hrect & Hh & Hbox).
      split; [exact Hrec|]. split; [rewrite Harea; exact Hbig|].
      exists c, x, y, w, h. split; [left|]. auto.
    + split; [simpl; lia|exact Hall'].
Qed.

(** X12.  Whatever the contour loop emits comes from a contour of the
    list, in at most as many detections as contours: it carries that contour's
    area, which is not below the threshold and so not below 100 pixels, the
    box [[x, y, x + w, y + h]] of its bounding rectangle, whose height is
    positive, a confidence of at most [0.99], and no maturity entries. *)
Theorem contour_detections_are_filtered (img_area t : Z) (cs : list Contour)
    (ds : list Detection) :
  contour_loop img_area (Z.max 100 t) cs = Returns ds ->
  (length ds <= length cs)%nat /\
  Forall (fun d => color_record d /\
                   float_lt_int (area d) 100 = false /\
                   exists c x y w h,
                     c ∈ cs /\ area d = contourArea c /\
                     boundingRect c = (x, y, w, h) /\ 0 < h /\
                     bbox d = [PyInt x; PyInt y; PyInt (x + w); PyInt (y + h)]) ds.
Proof.
  intros Hrun. destruct (contour_loop_inv _ _ _ _ Hrun) as [Hlen Hall].
  split; [exact Hlen|]. eapply Forall_impl; [exact Hall|].
  intros d (Hrec & Harea & Hrest). split; [exact Hrec|]. split; [|exact Hrest].
  destruct (float_lt_int (area d) 100) eqn:H100; [|reflexivity].
  rewrite (float_lt_int_mono (area d) 100 (Z.max 100 t)) in Harea; [discriminate|lia|exact H100].
Qed.

Lemma circle_detection_record (img_w img_h : Z) (c : Z * Z * Z) :
  color_record (circle_detection img_w img_h c).
Proof.
  destruct c as [[cx cy] r]. unfold color_record, circle_detection.
  cbn [class_name maturity maturity_confidence bbox confidence].
  split; [reflexivity|]. split; [reflexivity|]. split; [reflexivity|].
  split; [eauto|reflexivity].
Qed.

Section ColorDetectionProperties.

Variable find_contours : PyImage -> outcome (list Contour).
Variable hough_circles : PyImage -> Z -> Z -> outcome (option (list (Z * Z * Z))).

Lemma hough_fallback_records (image : PyImage) (img_h img_w : Z) (ds : list Detection) :
  hough_fallback hough_circles image img_h img_w = Returns ds ->
  Forall color_record ds.
Proof.
  unfold hough_fallback.
  destruct (py_int_of_float (float_of_int (Z.min img_h img_w) * 0.01)) as [t|e];
    cbn [mbind outcome_bind]; [|discriminate].
  destruct (py_int_of_float (float_of_int (Z.min img_h img_w) * 0.15)) as [m|e];
    cbn [mbind outcome_bind]; [|discriminate].
  destruct (hough_circles image (Z.max 5 t) m) as [[rows|]|e];
    cbn [mbind outcome_bind mret outcome_ret]; try discriminate; intros [= <-].
  - apply Forall_fmap, Forall_forall. intros c _. apply circle_detection_record.
  - constructor.
Qed.

Lemma color_based_detection_records (image : PyImage) :
  exists ds,
    _color_based_detection (color_detection_body find_contours hough_circles) image
      = Returns ds /\
    Forall color_record ds.
Proof.
  unfold _color_based_detection, color_detection_body.
  destruct (find_contours image) as [cs|e]; cbn [mbind outcome_bind try_except];
    [|exists []; split; [reflexivity|constructor]].
  destruct (image_shape image) as [[h w]|e]; cbn [mbind outcome_bind try_except];
    [|exists []; split; [reflexivity|constructor]].
  destruct (py_int_of_float (0.0005 * float_of_int (Z.of_nat h * Z.of_nat w))) as [t|e];
    cbn [mbind outcome_bind try_except];
    [|exists []; split; [reflexivity|constructor]].
  destruct (contour_loop (Z.of_nat h * Z.of_nat w) (Z.max 100 t) cs) as [ds|e] eqn:Hloop;
    cbn [mbind outcome_bind try_except];
    [|exists []; split; [reflexivity|constructor]].
  destruct ds as [|d ds].
  - destruct (hough_fallback hough_circles image (Z.of_nat h) (Z.of_nat w))
      as [hs|e] eqn:Hh; cbn [try_except mret outcome_ret].
    + exists hs. split; [reflexivity|]. exact (hough_fallback_records _ _ _ _ Hh).
    + exists []. split; [reflexivity|constructor].
  - exists (d :: ds). split; [reflexivity|].
    destruct (contour_loop_inv _ _ _ _ Hloop) as [_ Hall].
    eapply Forall_impl; [exact Hall|]. intros d0 [Hrec _]. exact Hrec.
Qed.

(** X13.  [_color_based_detection] returns for every image, and every
    detection it returns, from a contour or from a Hough circle, has the class
    [blueberry], a box of four integers, no maturity entries and a confidence of
    at most [0.99]; the circles are looked for only when no contour is left,
    so a surviving contour list is the answer whatever the circle search
    would find. *)
Theorem color_detection_records :
  (forall image : PyImage,
     exists ds,
       _color_based_detection (color_detection_body find_contours hough_circles) image
         = Returns ds /\
       Forall color_record ds) /\
  (forall (a : ndarray) (cs : list Contour) (t : Z) (d : Detection) (ds : list Detection),
     find_contours (NdArray a) = Returns cs ->
     py_int_of_float
       (0.0005 * float_of_int (Z.of_nat (shape0 a) * Z.of_nat (shape1 a))) = Returns t ->
     contour_loop (Z.of_nat (shape0 a) * Z.of_nat (shape1 a)) (Z.max 100 t) cs
       = Returns (d :: ds) ->
     _color_based_detection (color_detection_body find_contours hough_circles) (NdArray a)
       = Returns (d :: ds)).
Proof.
  split; [exact color_based_detection_records|].
  intros a cs t d ds Hcs Ht Hloop.
  unfold _color_based_detection, color_detection_body. rewrite Hcs.
  cbn [mbind outcome_bind image_shape]. rewrite Ht.
  cbn [mbind outcome_bind]. rewrite Hloop. reflexivity.
Qed.

End ColorDetectionProperties.

(** ** The boxes of the Hough circles *)

Lemma crop_without_columns (a : ndarray) (y1 y2 x : Z) :
  region_size (crop a y1 y2 x x) = 0%nat.
Proof.
  unfold region_size, crop. rewrite (concat_map_const_length (getpixel a)).
  unfold slice_indices at 2. rewrite Z.sub_diag. simpl. lia.
Qed.

Lemma crop_without_rows (a : ndarray) (y x1 x2 : Z) :
  region_size (crop a y y x1 x2) = 0%nat.
Proof.
  unfold region_size, crop. rewrite (concat_map_const_length (getpixel a)).
  unfold slice_indices at 1. rewrite Z.sub_diag. reflexivity.
Qed.

Lemma normalize_bbox_at_far_edge_y (w h x1 y1 x2 y2 : Z) :
  1 <= h -> h - 1 <= y1 ->
  let '(_, y1n, _, y2n) := normalize_bbox w h x1 y1 x2 y2 in
  y1n = h - 1 /\ y2n = h - 1.
Proof.
  intros Hh Hy. unfold normalize_bbox.
  destruct (Z.leb_spec (Z.max 0 (Z.min x2 (w - 1))) (Z.max 0 (Z.min x1 (w - 1))));
    destruct (Z.leb_spec (Z.max 0 (Z.min y2 (h - 1))) (Z.max 0 (Z.min y1 (h - 1))));
    lia.
Qed.

(** X14.  A Hough circle that lies inside the image on its left and upper
    side ([r <= cx], [r <= cy], centre inside, no 16-bit overflow on the far
    side) gets the box [[cx - r, cy - r, min(w - 1, cx + r), min(h - 1, cy + r)]],
    which contains the centre and lies inside the image, and the area of the
    full square [(2r)^2] even where the box was cut at the border. *)
Theorem hough_box_inside_image (img_w img_h cx cy r : Z) :
  0 <= r <= cx -> r <= cy -> cx + r < 65536 -> cy + r < 65536 ->
  cx < img_w -> cy < img_h ->
  exists x1 y1 x2 y2 : Z,
    bbox (circle_detection img_w img_h (cx, cy, r))
      = [PyInt x1; PyInt y1; PyInt x2; PyInt y2] /\
    x1 = cx - r /\ y1 = cy - r /\
    x2 = Z.min (img_w - 1) (cx + r) /\ y2 = Z.min (img_h - 1) (cy + r) /\
    0 <= x1 <= cx /\ cx <= x2 <= img_w - 1 /\
    0 <= y1 <= cy /\ cy <= y2 <= img_h - 1 /\
    area (circle_detection img_w img_h (cx, cy, r)) = float_of_int ((2 * r) * (2 * r)).
Proof.
  intros Hr Hry Hx Hy Hw Hh.
  unfold circle_detection, uint16_sub, uint16_add. cbn [bbox area].
  rewrite !Z.mod_small by lia.
  exists (cx - r), (cy - r), (Z.min (img_w - 1) (cx + r)), (Z.min (img_h - 1) (cy + r)).
  split; [repeat f_equal; lia|].
  repeat (split; [lia|]). f_equal. lia.
Qed.

Section HoughProperties.

Variable cvtColor_RGB2HSV : Region -> outcome Region.
Variable np_var : list Z -> float.

Lemma analyze_detection_empty_crop (a : ndarray) (d : Detection) (x1 y1 x2 y2 : Z) :
  bbox d = [PyInt x1; PyInt y1; PyInt x2; PyInt y2] ->
  (1 <= Z.of_nat (shape1 a) /\ Z.of_nat (shape1 a) - 1 <= x1) \/
  (1 <= Z.of_nat (shape0 a) /\ Z.of_nat (shape0 a) - 1 <= y1) ->
  exists d',
    analyze_detection cvtColor_RGB2HSV np_var (NdArray a) d = Returns (Some d') /\
    maturity d' = Some (default (Some "unknown") (maturity d)) /\
    maturity_confidence d' = Some (default 0%float (maturity_confidence d)) /\
    exists x1n y1n x2n y2n : Z,
      bbox d' = [PyInt x1n; PyInt y1n; PyInt x2n; PyInt y2n] /\
      (x1n = x2n \/ y1n = y2n).
Proof.
  intros Hb Hedge.
  destruct (analyze_detection_on_array cvtColor_RGB2HSV np_var a d x1 y1 x2 y2 Hb)
    as (d' & Hd' & _ & _ & _ & Hrest).
  pose proof (normalize_bbox_at_far_edge (Z.of_nat (shape1 a)) (Z.of_nat (shape0 a))
                x1 y1 x2 y2) as Hxe.
  pose proof (normalize_bbox_at_far_edge_y (Z.of_nat (shape1 a)) (Z.of_nat (shape0 a))
                x1 y1 x2 y2) as Hye.
  destruct (normalize_bbox (Z.of_nat (shape1 a)) (Z.of_nat (shape0 a)) x1 y1 x2 y2)
    as [[[x1n y1n] x2n] y2n].
  destruct Hrest as (Hbox & _ & Hempty).
  assert (Hflat : x1n = x2n \/ y1n = y2n).
  { destruct Hedge as [[Hw Hx]|[Hh Hy]].
    - left. destruct (Hxe Hw Hx) as [-> ->]. reflexivity.
    - right. destruct (Hye Hh Hy) as [-> ->]. reflexivity. }
  destruct Hempty as [Hm Hc].
  { destruct Hflat as [->| ->]; [apply crop_without_columns|apply crop_without_rows]. }
  exists d'. split; [exact Hd'|]. split; [exact Hm|]. split; [exact Hc|].
  exists x1n, y1n, x2n, y2n. split; [exact Hbox|exact Hflat].
Qed.

(** X15.  A Hough circle that sticks out of the image on the left
    ([cx < r]) gets the left edge [cx - r + 65536], the 16-bit wrap-around of
    the negative difference, instead of 0.  On an image no wider than that
    value the analysis then collapses the box onto the last column and, with
    nothing left to look at, labels the berry [unknown] with maturity
    confidence 0, whatever its pixels are. *)
Theorem hough_circle_across_left_edge (a : ndarray) (cx cy r : Z) :
  0 <= cx < r -> r < 65536 ->
  (1 <= shape1 a)%nat -> Z.of_nat (shape1 a) - 1 <= cx - r + 65536 ->
  let d := circle_detection (Z.of_nat (shape1 a)) (Z.of_nat (shape0 a)) (cx, cy, r) in
  (exists y1 x2 y2 : Z,
     bbox d = [PyInt (cx - r + 65536); PyInt y1; PyInt x2; PyInt y2]) /\
  exists d',
    analyze_detection cvtColor_RGB2HSV np_var (NdArray a) d = Returns (Some d') /\
    maturity d' = Some (Some "unknown") /\
    maturity_confidence d' = Some 0%float /\
    exists y1n y2n : Z,
      bbox d' = [PyInt (Z.of_nat (shape1 a) - 1); PyInt y1n;
                 PyInt (Z.of_nat (shape1 a) - 1); PyInt y2n].
Proof.
  intros Hcx Hr Hw Hwide d.
  assert (Hx1 : Z.max 0 (uint16_sub cx r) = cx - r + 65536).
  { unfold uint16_sub.
    rewrite <- (Z.mod_add (cx - r) 1 65536) by lia.
    rewrite Z.mod_small by lia. lia. }
  assert (Hb : bbox d = [PyInt (cx - r + 65536); PyInt (Z.max 0 (uint16_sub cy r));
                         PyInt (Z.min (Z.of_nat (shape1 a) - 1) (uint16_add cx r));
                         PyInt (Z.min (Z.of_nat (shape0 a) - 1) (uint16_add cy r))]).
  { unfold d, circle_detection. cbn [bbox]. rewrite Hx1. reflexivity. }
  split; [eauto|].
  destruct (analyze_detection_on_array cvtColor_RGB2HSV np_var a d _ _ _ _ Hb)
    as (d' & Hd' & _ & _ & _ & Hrest).
  match type of Hrest with
  | context [normalize_bbox ?w ?h ?x1 ?y1 ?x2 ?y2] =>
      pose proof (normalize_bbox_at_far_edge w h x1 y1 x2 y2 ltac:(lia) Hwide) as Hedge;
      destruct (normalize_bbox w h x1 y1 x2 y2) as [[[x1n y1n] x2n] y2n]
  end.
  destruct Hedge as [-> ->]. destruct Hrest as (Hbox & _ & Hempty).
  destruct (Hempty (crop_without_columns a y1n y2n _)) as [Hm Hc].
  exists d'. split; [exact Hd'|]. split; [exact Hm|]. split; [exact Hc|]. eauto.
Qed.

End HoughProperties.

(** ** From the detectors to the report *)

Section DetectorsToReport.

Variable cvtColor_RGB2HSV : Region -> outcome Region.
Variable np_var : list Z -> float.

(** A detection that carries no label, or one of the four class labels,
    leaves the analysis under one of the four class keys. *)
Lemma analyze_detection_counted (a : ndarray) (d : Detection) :
  (exists x1 y1 x2 y2 : Z, bbox d = [PyInt x1; PyInt y1; PyInt x2; PyInt y2]) ->
  maturity d = None \/ (exists l, maturity d = Some (Some l) /\ l ∈ CLASS_LABELS) ->
  exists d',
    analyze_detection cvtColor_RGB2HSV np_var (NdArray a) d = Returns (Some d') /\
    counted_as d' ∈ CLASS_KEYS.
Proof.
  intros (x1 & y1 & x2 & y2 & Hb) Hlabel.
  destruct (analyze_detection_on_array cvtColor_RGB2HSV np_var a d x1 y1 x2 y2 Hb)
    as (d' & Hd' & _ & _ & _ & Hrest).
  destruct (normalize_bbox (Z.of_nat (shape1 a)) (Z.of_nat (shape0 a)) x1 y1 x2 y2)
    as [[[x1n y1n] x2n] y2n].
  destruct Hrest as (_ & Hfull & Hempty).
  exists d'. split; [exact Hd'|]. unfold counted_as.
  assert (Hkeys : forall l, l ∈ CLASS_LABELS -> Some l ∈ CLASS_KEYS).
  { intros l Hl. unfold CLASS_LABELS in Hl. unfold CLASS_KEYS.
    repeat (apply elem_of_cons in Hl as [->|Hl]; [repeat constructor|]).
    apply elem_of_nil in Hl. contradiction. }
  destruct (decide (region_size (crop a y1n y2n x1n x2n) = 0%nat)) as [Hz|Hnz].
  - destruct (Hempty Hz) as [-> _]. cbn [default].
    destruct Hlabel as [->|(l & -> & Hl)]; cbn [default].
    + apply Hkeys. unfold CLASS_LABELS. repeat constructor.
    + apply Hkeys, Hl.
  - destruct (Hfull Hnz) as [-> _]. cbn [default].
    apply Hkeys, stored_label_in_classes.
Qed.

Lemma analyze_loop_counted (a : ndarray) (ds : list Detection) :
  Forall (fun d =>
            (exists x1 y1 x2 y2 : Z, bbox d = [PyInt x1; PyInt y1; PyInt x2; PyInt y2]) /\
            (maturity d = None \/
             exists l, maturity d = Some (Some l) /\ l ∈ CLASS_LABELS)) ds ->
  exists out,
    analyze_loop cvtColor_RGB2HSV np_var (NdArray a) ds = Returns out /\
    length out = length ds /\
    Forall (fun d' => counted_as d' ∈ CLASS_KEYS) out.
Proof.
  induction 1 as [|d ds [Hb Hl] _ (out & Hout & Hlen & Hall)].
  - exists []. repeat split. constructor.
  - destruct (analyze_detection_counted a d Hb Hl) as (d' & Hd' & Hk).
    exists (d' :: out). cbn [analyze_loop]. rewrite Hd', Hout.
    split; [reflexivity|]. split; [simpl; congruence|].
    constructor; assumption.
Qed.

Lemma analysis_and_report_counted (t0 t1 : float) (a : ndarray) (ds : list Detection) :
  Forall (fun d =>
            (exists x1 y1 x2 y2 : Z, bbox d = [PyInt x1; PyInt y1; PyInt x2; PyInt y2]) /\
            (maturity d = None \/
             exists l, maturity d = Some (Some l) /\ l ∈ CLASS_LABELS)) ds ->
  exists (r : MaturityAnalysis) (dist : MaturityDistribution),
    analyze_maturity cvtColor_RGB2HSV np_var t0 t1 ds (NdArray a) = Returns r /\
    total_detected r = length ds /\
    Forall (fun d' => counted_as d' ∈ CLASS_KEYS) (detections r) /\
    _analyze_maturity_distribution r = Returns (Distribution dist) /\
    total_analyzed dist = length ds /\
    (dict_get (counts dist) "maduro" + dict_get (counts dist) "semimaduro" +
     dict_get (counts dist) "no_maduro" + dict_get (counts dist) "unknown")%nat
    = length ds.
Proof.
  intros Hall.
  destruct (analyze_loop_counted a ds Hall) as (out & Hout & Hlen & Hcls).
  unfold analyze_maturity, analyze_maturity_body. rewrite Hout.
  cbn [mbind outcome_bind image_shape mret outcome_ret try_except].
  eexists.
  match goal with
  | |- exists dist, Returns ?r = _ /\ _ =>
      destruct (analyze_maturity_distribution_returns r) as (dist & Hd & Hc & Ht & _)
  end.
  cbn [detections] in Hc, Ht.
  exists dist. split; [reflexivity|]. cbn [total_detected detections].
  split; [exact Hlen|]. split; [exact Hcls|]. split; [exact Hd|]. split; [congruence|].
  rewrite Hc, !dict_get_count_detections by (repeat constructor).
  rewrite (count_label_partition out Hcls). exact Hlen.
Qed.

Section ColorPath.

Variable find_contours : PyImage -> outcome (list Contour).
Variable hough_circles : PyImage -> Z -> Z -> outcome (option (list (Z * Z * Z))).

(** X16.  On every array image, of any size, the detections of the colour
    path all survive the analysis and each one ends under one of the four
    class keys: the report built from the result has as total the number of
    colour detections, and its four class counts sum to it. *)
Theorem color_detections_are_all_classified (t0 t1 : float) (a : ndarray) :
  exists (ds : list Detection) (r : MaturityAnalysis) (dist : MaturityDistribution),
    _color_based_detection (color_detection_body find_contours hough_circles) (NdArray a)
      = Returns ds /\
    analyze_maturity cvtColor_RGB2HSV np_var t0 t1 ds (NdArray a) = Returns r /\
    total_detected r = length ds /\
    Forall (fun d' => counted_as d' ∈ CLASS_KEYS) (detections r) /\
    _analyze_maturity_distribution r = Returns (Distribution dist) /\
    total_analyzed dist = length ds /\
    (dict_get (counts dist) "maduro" + dict_get (counts dist) "semimaduro" +
     dict_get (counts dist) "no_maduro" + dict_get (counts dist) "unknown")%nat
    = length ds.
Proof.
  destruct (color_based_detection_records find_contours hough_circles (NdArray a))
    as (ds & Hds & Hrec).
  assert (Hall : Forall (fun d =>
            (exists x1 y1 x2 y2 : Z, bbox d = [PyInt x1; PyInt y1; PyInt x2; PyInt y2]) /\
            (maturity d = None \/
             exists l, maturity d = Some (Some l) /\ l ∈ CLASS_LABELS)) ds).
  { eapply Forall_impl; [exact Hrec|].
    intros d (_ & Hm & _ & Hb & _). split; [exact Hb|left; exact Hm]. }
  destruct (analysis_and_report_counted t0 t1 a ds Hall) as (r & dist & Hrest).
  exists ds, r, dist. split; [exact Hds|exact Hrest].
Qed.

End ColorPath.

End DetectorsToReport.

(** ** The class names of the YOLO path *)

Lemma str_replace_char_absent (old new : ascii) (s : string) :
  old <> new -> ~ In old (list_ascii_of_string (str_replace_char old new s)).
Proof.
  intros Hne. induction s as [|c s IH]; simpl; [tauto|].
  intros [Heq|Hin]; [|exact (IH Hin)].
  destruct (Ascii.eqb_spec c old) as [_|Hc]; congruence.
Qed.

Lemma maturity_cls_cases (name : string) :
  maturity_cls name = None \/
  exists l, maturity_cls name = Some l /\ l ∈ MODEL_LABELS.
Proof.
  unfold maturity_cls, MODEL_LABELS.
  case_bool_decide as H1; [right; eauto|].
  case_bool_decide as H2; [right; eexists; split; [reflexivity|repeat constructor]|].
  case_bool_decide as H3; [right; eexists; split; [reflexivity|repeat constructor]|].
  case_bool_decide as H4; [right; eexists; split; [reflexivity|repeat constructor]|].
  left; reflexivity.
Qed.

Lemma maturity_cls_truthy (name l : string) :
  maturity_cls name = Some l -> str_truthy l = true.
Proof.
  intros Hm. destruct (maturity_cls_cases name) as [Hn|(l' & Hl & Hin)]; [congruence|].
  rewrite Hm in Hl. injection Hl as <-. unfold MODEL_LABELS in Hin.
  repeat (apply elem_of_cons in Hin as [->|Hin]; [reflexivity|]).
  apply elem_of_nil in Hin. contradiction.
Qed.

Lemma count_label_classes_le (ds : list Detection) :
  (count_label (Some "maduro") ds + count_label (Some "semimaduro") ds +
   count_label (Some "no_maduro") ds + count_label (Some "unknown") ds <= length ds)%nat.
Proof.
  induction ds as [|d ds IH]; [reflexivity|].
  unfold count_label in *. rewrite !filter_cons.
  destruct (decide (counted_as d = Some "maduro")) as [H1|H1];
    destruct (decide (counted_as d = Some "semimaduro")) as [H2|H2];
    destruct (decide (counted_as d = Some "no_maduro")) as [H3|H3];
    destruct (decide (counted_as d = Some "unknown")) as [H4|H4];
    try congruence; simpl; lia.
Qed.

Section YoloProperties.

Variable cvtColor_RGB2HSV : Region -> outcome Region.
Variable np_var : list Z -> float.
Variable str_strip : string -> string.
Variable str_lower : string -> string.

Lemma norm_name_has_no_hyphen (class_name0 : string) :
  ~ In "-"%char (list_ascii_of_string (norm_name str_strip str_lower class_name0)).
Proof. unfold norm_name. apply str_replace_char_absent. discriminate. Qed.

(** X17.  The maturity label of a YOLO class name.  The normalised name
    never holds a hyphen, so the alternative [semi-ripe] of the chain is never
    met; the label is [maduro] exactly for the names [maduro] and [ripe],
    [semimaduro] exactly for [semimaduro], [semi_ripe] and [semi_maduro],
    [no_maduro] exactly for [no_maduro], [unripe] and [inmaduro], and there is
    none for any other name: the label is always one of those the analysis
    respects. *)
Theorem yolo_class_names (class_name0 : string) :
  let name := norm_name str_strip str_lower class_name0 in
  name <> "semi-ripe" /\
  (maturity_cls name = Some "maduro" <-> name ∈ ["maduro"; "ripe"]) /\
  (maturity_cls name = Some "semimaduro"
     <-> name ∈ ["semimaduro"; "semi_ripe"; "semi_maduro"]) /\
  (maturity_cls name = Some "no_maduro"
     <-> name ∈ ["no_maduro"; "unripe"; "inmaduro"]) /\
  (maturity_cls name = None \/
   exists l, maturity_cls name = Some l /\ l ∈ MODEL_LABELS).
Proof.
  intros name.
  assert (Hhyphen : name <> "semi-ripe").
  { intros Heq. apply (norm_name_has_no_hyphen class_name0).
    fold name. rewrite Heq. simpl. tauto. }
  split; [exact Hhyphen|]. clearbody name.
  split; [|split; [|split; [|apply maturity_cls_cases]]].
  all: unfold maturity_cls; repeat case_bool_decide; set_unfold; split; intros Hside;
    repeat match goal with
           | Hor : _ \/ _ |- _ => destruct Hor
           | Heq : Some _ = Some _ |- _ => injection Heq as Heq
           end; subst; try discriminate; try contradiction; try tauto;
    try (exfalso; tauto); try congruence.
Qed.

Lemma box_detection_maturity (box : YoloBox) :
  maturity (box_detection str_strip str_lower box)
    = Some (maturity_cls (norm_name str_strip str_lower (box_class_name box))) /\
  exists x1 y1 x2 y2 : Z,
    box_xyxy box = (x1, y1, x2, y2) /\
    bbox (box_detection str_strip str_lower box)
      = [PyInt x1; PyInt y1; PyInt x2; PyInt y2].
Proof.
  unfold box_detection. destruct (box_xyxy box) as [[[x1 y1] x2] y2].
  cbn [maturity bbox]. split; [|exists x1, y1, x2, y2; split; reflexivity].
  destruct (maturity_cls (norm_name str_strip str_lower (box_class_name box)))
    as [l|] eqn:Hm; [|reflexivity].
  rewrite (maturity_cls_truthy _ _ Hm). reflexivity.
Qed.

(** X18.  A YOLO box whose class name normalises to a maturity label
    leaves the analysis, on every array image and whatever its pixels, with
    that label, one of [maduro], [semimaduro], [no_maduro], and with the
    confidence, class name and area the model gave it. *)
Theorem yolo_label_survives_analysis (a : ndarray) (box : YoloBox) (l : string) :
  maturity_cls (norm_name str_strip str_lower (box_class_name box)) = Some l ->
  exists d',
    analyze_detection cvtColor_RGB2HSV np_var (NdArray a)
      (box_detection str_strip str_lower box) = Returns (Some d') /\
    maturity d' = Some (Some l) /\ l ∈ MODEL_LABELS /\
    confidence d' = box_conf box /\
    class_name d' = box_class_name box /\
    area d' = box_area box.
Proof.
  intros Hm.
  destruct (box_detection_maturity box) as (Hmat & x1 & y1 & x2 & y2 & Hxy & Hb).
  rewrite Hm in Hmat.
  assert (Hl : l ∈ MODEL_LABELS).
  { destruct (maturity_cls_cases (norm_name str_strip str_lower (box_class_name box)))
      as [Hn|(l' & Hl' & Hin)]; congruence. }
  destruct (analyze_detection_on_array cvtColor_RGB2HSV np_var a _ x1 y1 x2 y2 Hb)
    as (d' & Hd' & Hc & Hn & Ha & _).
  destruct (analyze_detection_keeps_model_label cvtColor_RGB2HSV np_var
              (NdArray a) _ d' l Hmat Hl Hd') as [Hkept _].
  exists d'. split; [exact Hd'|]. split; [exact Hkept|]. split; [exact Hl|].
  rewrite Hc, Hn, Ha. unfold box_detection. rewrite Hxy. repeat split.
Qed.

(** X19.  A YOLO box of a class that is not a maturity class carries the
    maturity [None].  When such a box starts on the last column or the last row
    of the image, its crop is empty and the analysis keeps that [None]: the
    report counts the detection under the key [None], outside the four classes,
    and its four class counts stay below its total. *)
Theorem unrecognised_yolo_box_at_the_edge (a : ndarray) (box : YoloBox)
    (x1 y1 x2 y2 : Z) :
  maturity_cls (norm_name str_strip str_lower (box_class_name box)) = None ->
  box_xyxy box = (x1, y1, x2, y2) ->
  (1 <= Z.of_nat (shape1 a) /\ Z.of_nat (shape1 a) - 1 <= x1) \/
  (1 <= Z.of_nat (shape0 a) /\ Z.of_nat (shape0 a) - 1 <= y1) ->
  exists d',
    analyze_detection cvtColor_RGB2HSV np_var (NdArray a)
      (box_detection str_strip str_lower box) = Returns (Some d') /\
    maturity d' = Some None /\
    counted_as d' = None /\
    forall rest : list Detection,
      count_detections (d' :: rest) !! None = Some (S (count_label None rest)) /\
      (dict_get (count_detections (d' :: rest)) "maduro" +
       dict_get (count_detections (d' :: rest)) "semimaduro" +
       dict_get (count_detections (d' :: rest)) "no_maduro" +
       dict_get (count_detections (d' :: rest)) "unknown"
       < length (d' :: rest))%nat.
Proof.
  intros Hm Hxy Hedge.
  destruct (box_detection_maturity box) as (Hmat & x1' & y1' & x2' & y2' & Hxy' & Hb).
  rewrite Hxy in Hxy'. injection Hxy' as <- <- <- <-. rewrite Hm in Hmat.
  destruct (analyze_detection_empty_crop cvtColor_RGB2HSV np_var a _ x1 y1 x2 y2 Hb Hedge)
    as (d' & Hd' & Hmd & _).
  rewrite Hmat in Hmd. cbn [default] in Hmd.
  assert (Hkey : counted_as d' = None) by (unfold counted_as; rewrite Hmd; reflexivity).
  exists d'. split; [exact Hd'|]. split; [exact Hmd|]. split; [exact Hkey|].
  intros rest. split.
  - rewrite count_detections_lookup.
    rewrite bool_decide_eq_false_2
      by (intros Hin; repeat (apply elem_of_cons in Hin as [Hin|Hin]; [discriminate|]);
          apply elem_of_nil in Hin; exact Hin).
    unfold count_label. rewrite filter_cons, decide_True by exact Hkey. reflexivity.
  - rewrite !dict_get_count_detections by (repeat constructor).
    pose proof (count_label_classes_le rest) as Hle.
    unfold count_label in *. rewrite !filter_cons.
    rewrite !decide_False by (rewrite Hkey; discriminate).
    simpl. lia.
Qed.

End YoloProperties.

(** ** Loading the model *)

Section InitializeModelProperties.

Variable Model : Type.
Variable path_exists : string -> bool.
Variable YOLO : string -> outcome Model.

Lemma candidates_truthy (model_path : string) :
  Forall (fun p => str_truthy p = true) (candidates model_path).
Proof.
  unfold candidates. apply Forall_app. split.
  - destruct (str_truthy model_path) eqn:Ht; repeat constructor. exact Ht.
  - repeat constructor.
Qed.

Lemma select_candidate_first (cands : list string) (p : string) :
  select_candidate path_exists cands = Some p ->
  exists before after : list string,
    cands = (before ++ p :: after)%list /\
    str_truthy p = true /\ path_exists p = true /\
    Forall (fun q => str_truthy q && path_exists q = false) before.
Proof.
  induction cands as [|c cands IH]; [discriminate|]. cbn [select_candidate].
  destruct (str_truthy c && path_exists c) eqn:Hc.
  - intros [= <-]. apply andb_true_iff in Hc as [Ht He].
    exists [], cands. repeat split; try assumption. constructor.
  - intros Hsel. destruct (IH Hsel) as (before & after & -> & Ht & He & Hall).
    exists (c :: before), after. repeat split; try assumption.
    constructor; assumption.
Qed.

Lemma select_candidate_head (p : string) (rest : list string) :
  str_truthy p = true -> path_exists p = true ->
  select_candidate path_exists (p :: rest) = Some p.
Proof. intros Ht He. cbn [select_candidate]. rewrite Ht, He. reflexivity. Qed.

(** X20.  [_initialize_model] never fails and leaves the detector in one
    of two states.  Loaded: the model is the one [YOLO] built from the new
    [model_path], which is the first of the candidate paths that exists.  Not
    loaded: there is no model and [model_path] is unchanged.  So the flag alone
    tells whether there is a model, and a configured path that exists and
    loads is always the one used. *)
Theorem initialize_model_selects_first_candidate (self : DetectorState Model) :
  let self' := _initialize_model path_exists YOLO self in
  model_ready self' = self_model_loaded self' /\
  (self_model_loaded self' = true ->
     exists (m : Model) (before after : list string),
       self_model self' = Some m /\
       YOLO (self_model_path self') = Returns m /\
       candidates (self_model_path self)
         = (before ++ self_model_path self' :: after)%list /\
       path_exists (self_model_path self') = true /\
       Forall (fun q => path_exists q = false) before) /\
  (self_model_loaded self' = false ->
     self_model self' = None /\ self_model_path self' = self_model_path self) /\
  (forall m : Model,
     str_truthy (self_model_path self) = true ->
     path_exists (self_model_path self) = true ->
     YOLO (self_model_path self) = Returns m ->
     self' = {| self_model := Some m;
                self_model_loaded := true;
                self_model_path := self_model_path self |}).
Proof.
  intros self'. unfold self', _initialize_model.
  split; [|split; [|split]].
  - destruct (select_candidate path_exists (candidates (self_model_path self))) as [p|];
      [|reflexivity].
    destruct (str_truthy p); [|reflexivity].
    destruct (YOLO p) as [m|e]; [|reflexivity].
    unfold model_ready. cbn [self_model_loaded self_model].
    rewrite bool_decide_eq_true_2 by discriminate. reflexivity.
  - destruct (select_candidate path_exists (candidates (self_model_path self)))
      as [p|] eqn:Hsel; [|discriminate].
    destruct (select_candidate_first _ _ Hsel) as (before & after & Hc & Ht & He & Hall).
    rewrite Ht. destruct (YOLO p) as [m|e] eqn:Hy; [|discriminate].
    intros _. cbn [self_model self_model_path].
    exists m, before, after. repeat split; try assumption.
    pose proof (candidates_truthy (self_model_path self)) as Htr.
    rewrite Hc in Htr. apply Forall_app in Htr as [Htr _].
    clear Hc. induction Hall as [|q qs Hq _ IH]; constructor.
    + apply Forall_cons in Htr as [Hqt _]. rewrite Hqt in Hq. exact Hq.
    + apply IH. apply Forall_cons in Htr as [_ Htr]. exact Htr.
  - destruct (select_candidate path_exists (candidates (self_model_path self))) as [p|];
      [|intros _; split; reflexivity].
    destruct (str_truthy p); [|intros _; split; reflexivity].
    destruct (YOLO p) as [m|e]; [discriminate|intros _; split; reflexivity].
  - intros m Ht He Hy. unfold candidates. rewrite Ht.
    cbn [app]. rewrite (select_candidate_head _ _ Ht He), Ht, Hy. reflexivity.
Qed.

End InitializeModelProperties.

(** ** The summary of several reports *)

Lemma collect_recommendations_foldl (reports_list : list Report) (acc : gset string)
    (rec : string) :
  rec ∈ foldl (fun recommendations report =>
                 let rec0 := report_harvest_recommendation report in
                 if str_truthy rec0 then recommendations ∪ {[rec0]} else recommendations)
              acc reports_list
  <-> rec ∈ acc \/
      (str_truthy rec = true /\
       exists report, report ∈ reports_list /\ report_harvest_recommendation report = rec).
Proof.
  revert acc. induction reports_list as [|r rs IH]; intros acc; cbn [foldl].
  - split; [auto|]. intros [H|(_ & report & Hin & _)]; [exact H|].
    apply elem_of_nil in Hin. contradiction.
  - rewrite IH. destruct (str_truthy (report_harvest_recommendation r)) eqn:Ht.
    + rewrite elem_of_union, elem_of_singleton. split.
      * intros [[H| ->]|(Hr & report & Hin & Heq)]; [auto| |].
        -- right. split; [exact Ht|]. exists r. split; [left|reflexivity].
        -- right. split; [exact Hr|]. exists report. split; [right; exact Hin|exact Heq].
      * intros [H|(Hr & report & Hin & Heq)]; [auto|].
        apply elem_of_cons in Hin as [->|Hin]; [left; right; symmetry; exact Heq|].
        right. split; [exact Hr|]. exists report. auto.
    + split.
      * intros [H|(Hr & report & Hin & Heq)]; [auto|].
        right. split; [exact Hr|]. exists report. split; [right; exact Hin|exact Heq].
      * intros [H|(Hr & report & Hin & Heq)]; [auto|].
        apply elem_of_cons in Hin as [->|Hin]; [congruence|].
        right. split; [exact Hr|]. exists report. auto.
Qed.

Lemma collect_recommendations_spec (reports_list : list Report) (rec : string) :
  rec ∈ collect_recommendations reports_list
  <-> str_truthy rec = true /\
      exists report, report ∈ reports_list /\ report_harvest_recommendation report = rec.
Proof.
  unfold collect_recommendations. rewrite collect_recommendations_foldl.
  split; [intros [H|H]; [apply elem_of_empty in H; contradiction|exact H]|auto].
Qed.

Lemma generated_report_recommendation (ma : MaturityAnalysis) (report : Report) :
  generate_report ma = Returns report ->
  exists b : harvest_band, report_harvest_recommendation report = harvest_text b.
Proof.
  intros Hrun. destruct (generate_report_returns ma) as (d & r & Hrep & _ & _ & Hh).
  rewrite Hrun in Hrep. injection Hrep as ->.
  unfold report_harvest_recommendation. cbn [report_recommendations]. rewrite Hh.
  destruct (recommendation_band_exists (maturity_score d)) as (b & Hb & _).
  exists b. exact Hb.
Qed.

Section SummaryProperties.

Variable py_sum : list float -> float.

(** X21.  [generate_summary_report] never returns its error dictionary:
    the average is a quotient by the number of reports, taken only when there
    is one.  The summary counts the reports and lists, each once, exactly the
    non-empty harvest recommendations that occur in them; for reports made by
    [generate_report] each is the text of one of the five harvest bands, so
    there are at most five. *)
Theorem summary_report_lists_recommendations (reports_list : list Report) :
  exists s : Summary,
    generate_summary_report py_sum reports_list = Returns (SummaryOf s) /\
    total_images_analyzed s = length reports_list /\
    (forall rec : string,
       rec ∈ harvest_recommendations s
       <-> str_truthy rec = true /\
           exists report, report ∈ reports_list /\
                          report_harvest_recommendation report = rec) /\
    (Forall (fun report => exists ma, generate_report ma = Returns report) reports_list ->
     (forall rec, rec ∈ harvest_recommendations s -> exists b, rec = harvest_text b) /\
     (size (harvest_recommendations s) <= 5)%nat).
Proof.
  assert (Hs : exists s : Summary,
             generate_summary_report py_sum reports_list = Returns (SummaryOf s) /\
             total_images_analyzed s = length reports_list /\
             harvest_recommendations s = collect_recommendations reports_list).
  { unfold generate_summary_report. destruct reports_list as [|r rs].
    - eexists. split; [reflexivity|]. split; reflexivity.
    - unfold py_truediv. rewrite length_fmap. cbn [length Nat.eqb].
      cbn [mbind outcome_bind mret outcome_ret try_except].
      eexists. split; [reflexivity|]. split; reflexivity. }
  destruct Hs as (s & Hrun & Htotal & Hrecs).
  exists s. split; [exact Hrun|]. split; [exact Htotal|]. rewrite Hrecs.
  split; [apply collect_recommendations_spec|].
  intros Hgen.
  assert (Hband : forall rec, rec ∈ collect_recommendations reports_list ->
                              exists b, rec = harvest_text b).
  { intros rec Hin. apply collect_recommendations_spec in Hin
      as (_ & report & Hin & <-).
    rewrite Forall_forall in Hgen. destruct (Hgen report Hin) as [ma Hma].
    destruct (generated_report_recommendation ma report Hma) as [b Hb]. eauto. }
  split; [exact Hband|].
  set (texts := harvest_text <$> [Immediate; Days2to3; Days5to7; Days10to14; DoNotHarvest]).
  assert (Hsub : collect_recommendations reports_list ⊆ list_to_set texts).
  { intros rec Hin. destruct (Hband rec Hin) as [b ->].
    apply elem_of_list_to_set, list_elem_of_In. unfold texts.
    destruct b; simpl; tauto. }
  assert (Hnd : NoDup texts)
    by (apply (bool_decide_eq_true_1 (NoDup texts)); vm_compute; reflexivity).
  etransitivity; [apply (subseteq_size _ _ Hsub)|].
  rewrite (size_list_to_set texts Hnd). reflexivity.
Qed.

End SummaryProperties.

(** ** The silhouette drawn for a detection *)

(** X22.  The circle [_draw_detections] draws for a box: its radius is at
    least one pixel; its centre lies in the box whenever the box is not
    inverted; the whole circle stays inside a box of at least two pixels a
    side; and for a box stored by the maturity analysis on an image of at least
    one pixel the centre lies inside the image. *)
Theorem silhouette_inside_box (x1 y1 x2 y2 : Z) :
  let '(cx, cy, radius) := silhouette x1 y1 x2 y2 in
  1 <= radius /\
  (x1 <= x2 -> x1 <= cx <= x2) /\
  (y1 <= y2 -> y1 <= cy <= y2) /\
  (2 <= x2 - x1 -> 2 <= y2 - y1 ->
   x1 <= cx - radius /\ cx + radius <= x2 /\ y1 <= cy - radius /\ cy + radius <= y2) /\
  (forall (w h bx1 by1 bx2 by2 : Z),
     1 <= w -> 1 <= h ->
     normalize_bbox w h bx1 by1 bx2 by2 = (x1, y1, x2, y2) ->
     0 <= cx <= w - 1 /\ 0 <= cy <= h - 1).
Proof.
  unfold silhouette.
  split; [lia|]. split; [intros; Z.div_mod_to_equations; lia|].
  split; [intros; Z.div_mod_to_equations; lia|].
  split; [intros; Z.div_mod_to_equations; lia|].
  intros w h bx1 by1 bx2 by2 Hw Hh Hn.
  pose proof (normalize_bbox_inside w h bx1 by1 bx2 by2 Hw Hh) as Hin.
  rewrite Hn in Hin. Z.div_mod_to_equations. lia.
Qed.

(** ** The further properties at concrete inputs *)

(** A box inside the blue 10 x 10 image. *)
Lemma analyzed_detection_is_classified_witness :
  exists (d' : Detection) (label : string) (c : float),
    analyze_detection blue_to_hsv zero_var (NdArray blue_array)
      (sample_detection [2; 3; 7; 8] None) = Returns (Some d') /\
    maturity d' = Some (Some label) /\ label ∈ CLASS_LABELS /\
    maturity_confidence d' = Some c /\
    PrimFloat.leb 0 c = true /\ PrimFloat.leb c 1 = true.
Proof.
  apply (analyzed_detection_is_classified blue_to_hsv zero_var blue_array
           (sample_detection [2; 3; 7; 8] None) 2 3 7 8);
    [cbn; lia | cbn; lia | reflexivity | cbn; lia | cbn; lia].
Defined.

(** The analysed sample is a fixed point of the analysis. *)
Lemma analyze_detection_idempotent_witness :
  analyze_detection blue_to_hsv zero_var (NdArray blue_array) analysed_sample
  = Returns (Some analysed_sample).
Proof.
  apply (analyze_detection_idempotent blue_to_hsv zero_var (NdArray blue_array)
           (sample_detection [2; 3; 7; 8] None) analysed_sample).
  vm_compute. reflexivity.
Defined.

(** Two detections on the blue image, one with a model label. *)
Lemma proper_boxes_are_all_counted_witness :
  exists (r : MaturityAnalysis) (dist : MaturityDistribution),
    analyze_maturity blue_to_hsv zero_var 0 1
      [sample_detection [2; 3; 7; 8] None;
       sample_detection [0; 0; 4; 4] (Some (Some "maduro"))] (NdArray blue_array)
    = Returns r /\
    total_detected r = 2%nat /\
    _analyze_maturity_distribution r = Returns (Distribution dist) /\
    total_analyzed dist = 2%nat /\
    (dict_get (counts dist) "maduro" + dict_get (counts dist) "semimaduro" +
     dict_get (counts dist) "no_maduro" + dict_get (counts dist) "unknown")%nat
    = 2%nat.
Proof.
  apply (proper_boxes_are_all_counted blue_to_hsv zero_var 0 1 blue_array
           [sample_detection [2; 3; 7; 8] None;
            sample_detection [0; 0; 4; 4] (Some (Some "maduro"))]);
    [cbn; lia | cbn; lia |].
  repeat constructor.
  - exists 2, 3, 7, 8. split; [reflexivity|cbn; lia].
  - exists 0, 0, 4, 4. split; [reflexivity|cbn; lia].
Defined.

(** One ripe detection. *)
Lemma percentages_follow_counts_witness :
  exists d : MaturityDistribution,
    _analyze_maturity_distribution
      {| detections := [sample_detection [2; 3; 7; 8] (Some (Some "maduro"))];
         processing_time := 0; image_resolution := "10x10"; total_detected := 1 |}
    = Returns (Distribution d) /\
    (forall key,
       percentages d !! key = percentage_of (total_analyzed d) <$> (counts d !! key)) /\
    (forall label, label ∈ CLASS_LABELS ->
       percentages d !! Some label =
         Some (percentage_of 1
                 (count_label (Some label)
                    [sample_detection [2; 3; 7; 8] (Some (Some "maduro"))]))).
Proof.
  apply (percentages_follow_counts
           {| detections := [sample_detection [2; 3; 7; 8] (Some (Some "maduro"))];
              processing_time := 0; image_resolution := "10x10"; total_detected := 1 |}).
  discriminate.
Defined.


(** The blob passes, the speck is dropped. *)
Lemma contour_detections_are_filtered_witness :
  (length [sample_contour_detection] <= length sample_contours)%nat /\
  Forall (fun d => color_record d /\
                   float_lt_int (area d) 100 = false /\
                   exists c x y w h,
                     c ∈ sample_contours /\ area d = contourArea c /\
                     boundingRect c = (x, y, w, h) /\ 0 < h /\
                     bbox d = [PyInt x; PyInt y; PyInt (x + w); PyInt (y + h)])
         [sample_contour_detection].
Proof.
  apply (contour_detections_are_filtered 10000 5 sample_contours
           [sample_contour_detection]).
  vm_compute. reflexivity.
Defined.

(** A circle of radius 20 around (100, 97) in a 200 x 200 image. *)
Lemma hough_box_inside_image_witness :
  exists x1 y1 x2 y2 : Z,
    bbox (circle_detection 200 200 (100, 97, 20))
      = [PyInt x1; PyInt y1; PyInt x2; PyInt y2] /\
    x1 = 100 - 20 /\ y1 = 97 - 20 /\
    x2 = Z.min (200 - 1) (100 + 20) /\ y2 = Z.min (200 - 1) (97 + 20) /\
    0 <= x1 <= 100 /\ 100 <= x2 <= 200 - 1 /\
    0 <= y1 <= 97 /\ 97 <= y2 <= 200 - 1 /\
    area (circle_detection 200 200 (100, 97, 20)) = float_of_int ((2 * 20) * (2 * 20)).
Proof.
  apply (hough_box_inside_image 200 200 100 97 20); lia.
Defined.

(** The circle of radius 20 around (7, 97), which crosses the left border
    of a 200 x 200 image. *)
Lemma hough_circle_across_left_edge_witness :
  (exists y1 x2 y2 : Z,
     bbox (circle_detection 200 200 (7, 97, 20))
       = [PyInt (7 - 20 + 65536); PyInt y1; PyInt x2; PyInt y2]) /\
  exists d',
    analyze_detection blue_to_hsv zero_var (NdArray blue_array_200)
      (circle_detection 200 200 (7, 97, 20)) = Returns (Some d') /\
    maturity d' = Some (Some "unknown") /\
    maturity_confidence d' = Some 0%float /\
    exists y1n y2n : Z,
      bbox d' = [PyInt (200 - 1); PyInt y1n; PyInt (200 - 1); PyInt y2n].
Proof.
  apply (hough_circle_across_left_edge blue_to_hsv zero_var blue_array_200 7 97 20);
    cbn; lia.
Defined.

(** A box of class ripe on the blue image, where the colour heuristic
    would answer unknown. *)
Lemma yolo_label_survives_analysis_witness :
  exists d',
    analyze_detection blue_to_hsv zero_var (NdArray blue_array)
      (box_detection (fun s => s) (fun s => s) ripe_box) = Returns (Some d') /\
    maturity d' = Some (Some "maduro") /\ "maduro" ∈ MODEL_LABELS /\
    confidence d' = box_conf ripe_box /\
    class_name d' = box_class_name ripe_box /\
    area d' = box_area ripe_box.
Proof.
  apply (yolo_label_survives_analysis blue_to_hsv zero_var (fun s => s) (fun s => s)
           blue_array ripe_box "maduro").
  vm_compute. reflexivity.
Defined.

(** A box of class leaf on the last column of the blue image. *)
Lemma unrecognised_yolo_box_at_the_edge_witness :
  exists d',
    analyze_detection blue_to_hsv zero_var (NdArray blue_array)
      (box_detection (fun s => s) (fun s => s) leaf_box) = Returns (Some d') /\
    maturity d' = Some None /\
    counted_as d' = None /\
    forall rest : list Detection,
      count_detections (d' :: rest) !! None = Some (S (count_label None rest)) /\
      (dict_get (count_detections (d' :: rest)) "maduro" +
       dict_get (count_detections (d' :: rest)) "semimaduro" +
       dict_get (count_detections (d' :: rest)) "no_maduro" +
       dict_get (count_detections (d' :: rest)) "unknown"
       < length (d' :: rest))%nat.
Proof.
  apply (unrecognised_yolo_box_at_the_edge blue_to_hsv zero_var (fun s => s) (fun s => s)
           blue_array leaf_box 9 2 12 5).
  - vm_compute. reflexivity.
  - reflexivity.
  - left. cbn. lia.
Defined.
